(** * Customer churn platform: ETL pipeline and churn predictor

    A shallow embedding of [backend/data_pipeline/etl.py] and
    [backend/models/churn_predictor.py].

    - Python floats are IEEE binary64 numbers: Rocq's primitive [float].
    - A pandas table is a [DataFrame]: named, typed columns of cells.
    - Exceptions are values of [exn]; a call that may raise returns a
      [result].
    - The relational store is a record of row lists; a query is evaluated
      by the list functions that give the meaning of its SQL text.
    - What the code delegates to pandas, scikit-learn, keras and mlflow is
      taken through the interfaces [Pandas] and [MLLibrary]. *)

From Stdlib Require Import ZArith List String Ascii Floats Lia Bool Sorted Permutation.
From stdpp Require Import base option list strings pretty gmap.

Set Warnings "-inexact-float".

Local Open Scope string_scope.
Local Open Scope list_scope.
Local Open Scope Z_scope.

(** ** Exceptions and results *)

Inductive exn : Type :=
| KeyError (key : string)
| ValueError (msg : string)
| TypeError (msg : string)
| LibraryError (msg : string)
| StorageError (msg : string).

Inductive result (A : Type) : Type :=
| Ok (a : A)
| Raise (e : exn).
Arguments Ok {A} a.
Arguments Raise {A} e.

#[export] Instance result_ret : MRet result := fun _ a => Ok a.
#[export] Instance result_bind : MBind result := fun _ _ f m =>
  match m with Ok a => f a | Raise e => Raise e end.
#[export] Instance result_fmap : FMap result := fun _ _ f m =>
  match m with Ok a => Ok (f a) | Raise e => Raise e end.

Definition is_ok {A} (r : result A) : bool :=
  match r with Ok _ => true | Raise _ => false end.

(** [mapM] for [result]: the first exception wins. *)
Fixpoint traverse {A B} (f : A -> result B) (l : list A) : result (list B) :=
  match l with
  | [] => Ok []
  | x :: l' => y ← f x; ys ← traverse f l'; Ok (y :: ys)
  end.

(** ** Floats *)

Module Float.

Definition two52 : float := 4503599627370496%float.

(** C's [rint] in the default rounding mode: the nearest integer, ties to
    even, keeping the sign of the argument. *)
Definition rint (x : float) : float :=
  if PrimFloat.ltb (PrimFloat.abs x) two52 then
    if PrimFloat.get_sign x then
      let r := ((x - two52) + two52)%float in
      if PrimFloat.is_zero r then (-0)%float else r
    else ((x + two52) - two52)%float
  else x.

(** numpy's [around(x, 4)]: scale, [rint], scale back. *)
Definition round4 (x : float) : float := (rint (x * 10000) / 10000)%float.

(** An integer as a float (exact below 2^53). *)
Definition of_Z (z : Z) : float :=
  match z with
  | Z0 => 0%float
  | Zpos _ => PrimFloat.of_uint63 (Uint63.of_Z z)
  | Zneg _ => PrimFloat.opp (PrimFloat.of_uint63 (Uint63.of_Z (- z)))
  end.

Definition of_bool (b : bool) : float := if b then 1%float else 0%float.

(** [p] is a probability. *)
Definition in_unit (p : float) : bool :=
  PrimFloat.leb 0 p && PrimFloat.leb p 1.

End Float.

(** ** Cells, columns and tables *)

(** A cell. [VNull] is the missing value [None], [NaN] or [NaT] that a
    table holds; arithmetic can also give a float cell that is NaN.
    Dates are day numbers and timestamps nanoseconds, both from the epoch. *)
Inductive value : Type :=
| VNull
| VInt (z : Z)
| VFloat (f : float)
| VBool (b : bool)
| VStr (s : string)
| VDate (day : Z)
| VTime (ns : Z).

Inductive dtype : Type := int64 | float64 | bool_ | object_ | datetime64.

(** [np.number]: the integer and floating dtypes, not [bool]. *)
Definition is_number (d : dtype) : bool :=
  match d with int64 | float64 => true | _ => false end.

(** What arithmetic accepts: numbers and booleans. *)
Definition is_arith (d : dtype) : bool :=
  match d with int64 | float64 | bool_ => true | _ => false end.

(** [pd.isna]: the missing value, and a float that is NaN. *)
Definition isna (v : value) : bool :=
  match v with
  | VNull => true
  | VFloat f => PrimFloat.is_nan f
  | _ => false
  end.

(** The float a numeric cell stands for. *)
Definition to_float (v : value) : float :=
  match v with
  | VInt z => Float.of_Z z
  | VFloat f => f
  | VBool b => Float.of_bool b
  | _ => nan
  end.

Record Series : Type := mkSeries { sdtype : dtype; cells : list value }.

Record DataFrame : Type := mkDF { nrows : nat; columns : list (string * Series) }.

Definition column_names (df : DataFrame) : list string := (columns df).*1.

Fixpoint assoc {A} (k : string) (l : list (string * A)) : option A :=
  match l with
  | [] => None
  | (k', a) :: l' => if String.eqb k' k then Some a else assoc k l'
  end.

Definition has_column (df : DataFrame) (c : string) : bool :=
  match assoc c (columns df) with Some _ => true | None => false end.

(** [df[c]] *)
Definition getitem (df : DataFrame) (c : string) : result Series :=
  match assoc c (columns df) with
  | Some s => Ok s
  | None => Raise (KeyError c)
  end.

Fixpoint assoc_set {A} (k : string) (a : A) (l : list (string * A)) : list (string * A) :=
  match l with
  | [] => [(k, a)]
  | (k', a') :: l' =>
      if String.eqb k' k then (k', a) :: l' else (k', a') :: assoc_set k a l'
  end.

(** [df[c] = s]: an existing column is replaced where it stands, a new one
    is added last. *)
Definition setitem (df : DataFrame) (c : string) (s : Series) : DataFrame :=
  mkDF (nrows df) (assoc_set c s (columns df)).

(** [df[[c1, ..., cn]]]: the listed columns, in the listed order. *)
Definition select (df : DataFrame) (cs : list string) : result DataFrame :=
  cols ← traverse (fun c => s ← getitem df c; Ok (c, s)) cs;
  Ok (mkDF (nrows df) cols).

(** The cell of column [c] at row [i]. *)
Definition cell (df : DataFrame) (c : string) (i : nat) : option value :=
  s ← assoc c (columns df); cells s !! i.

(** Row [i] as [iterrows] yields it: the cells keyed by column name. *)
Definition row (df : DataFrame) (i : nat) : list (string * value) :=
  map (fun c => (c.1, default VNull (cells c.2 !! i))) (columns df).

Definition iterrows (df : DataFrame) : list (list (string * value)) :=
  map (row df) (seq 0 (nrows df)).

(** ** Column operations *)

(** [Series.fillna(0)]: a missing cell becomes zero, a float zero in a
    float column. *)
Definition zero_of (d : dtype) : value :=
  match d with float64 => VFloat 0 | _ => VInt 0 end.

Definition fillna0_series (s : Series) : Series :=
  mkSeries (sdtype s)
    (map (fun v => if isna v then zero_of (sdtype s) else v) (cells s)).

(** [DataFrame.fillna(0)] *)
Definition fillna0 (df : DataFrame) : DataFrame :=
  mkDF (nrows df) (map (fun c => (c.1, fillna0_series c.2)) (columns df)).

(** [Series.replace(0, 1)]: the cells equal to zero become one. *)
Definition replace_0_1 (v : value) : value :=
  match v with
  | VInt 0 => VInt 1
  | VFloat f => if PrimFloat.eqb f 0 then VFloat 1 else v
  | _ => v
  end.

Definition replace01 (s : Series) : Series :=
  mkSeries (sdtype s) (map replace_0_1 (cells s)).

(** [Series.round(4)]: float cells are rounded, the others are kept. *)
Definition round_cell (v : value) : value :=
  match v with VFloat f => VFloat (Float.round4 f) | _ => v end.

Definition round_series (s : Series) : Series :=
  mkSeries (sdtype s) (map round_cell (cells s)).

Definition arith_error : exn :=
  TypeError "unsupported operand type(s)".

(** Arithmetic of two columns, cell by cell, in floats. *)
Definition series_op2 (op : float -> float -> float) (a b : Series) : result Series :=
  if is_arith (sdtype a) && is_arith (sdtype b) then
    Ok (mkSeries float64
          (map (fun p => VFloat (op (to_float p.1) (to_float p.2)))
               (zip (cells a) (cells b))))
  else Raise arith_error.

(** Arithmetic of a column and a number. *)
Definition series_op1 (op : float -> float) (a : Series) : result Series :=
  if is_arith (sdtype a) then
    Ok (mkSeries float64 (map (fun v => VFloat (op (to_float v))) (cells a)))
  else Raise arith_error.

Definition series_div := series_op2 PrimFloat.div.
Definition series_add := series_op2 PrimFloat.add.
Definition series_mul_by (k : float) := series_op1 (fun x => PrimFloat.mul x k).
Definition series_div_by (k : float) := series_op1 (fun x => PrimFloat.div x k).

(** The dtype pandas gives to a column built from Python objects. *)
Definition infer_dtype (vs : list value) : dtype :=
  let present := List.filter (fun v => negb (isna v)) vs in
  let all_of (p : value -> bool) := forallb p present in
  match present with
  | [] => object_
  | _ =>
      if all_of (fun v => match v with VInt _ => true | _ => false end) then
        if forallb (fun v => negb (isna v)) vs then int64 else float64
      else if all_of (fun v => match v with VInt _ | VFloat _ => true | _ => false end)
      then float64
      else if all_of (fun v => match v with VBool _ => true | _ => false end) then
        if forallb (fun v => negb (isna v)) vs then bool_ else object_
      else if all_of (fun v => match v with VTime _ => true | _ => false end)
      then datetime64
      else object_
  end.

(** A cell of an integer column moved to a float column. *)
Definition as_float_cell (v : value) : value :=
  match v with VInt z => VFloat (Float.of_Z z) | _ => v end.

Definition infer_series (vs : list value) : Series :=
  let d := infer_dtype vs in
  mkSeries d (match d with float64 => map as_float_cell vs | _ => vs end).

(** A table read from records: one column per field. *)
Definition frame_of_records {A} (fields : list (string * (A -> value))) (rs : list A) : DataFrame :=
  mkDF (length rs) (map (fun f => (f.1, infer_series (map f.2 rs))) fields).

(** ** The relational store *)

(** Calendar dates: the day number of a civil date, from 1970-01-01. *)
Module Calendar.

Definition days_from_civil (y m d : Z) : Z :=
  let y' := if m <=? 2 then y - 1 else y in
  let era := y' / 400 in
  let yoe := y' - era * 400 in
  let doy := (153 * (if 2 <? m then m - 3 else m + 9) + 2) / 5 + d - 1 in
  let doe := yoe * 365 + yoe / 4 - yoe / 100 + doy in
  era * 146097 + doe - 719468.

Definition is_leap (y : Z) : bool :=
  ((y mod 4 =? 0) && negb (y mod 100 =? 0)) || (y mod 400 =? 0).

Definition days_in_month (y m : Z) : Z :=
  if m =? 2 then (if is_leap y then 29 else 28)
  else if (m =? 4) || (m =? 6) || (m =? 9) || (m =? 11) then 30 else 31.

Definition digit (a : ascii) : option Z :=
  let n := Z.of_N (N_of_ascii a) - 48 in
  if (0 <=? n) && (n <=? 9) then Some n else None.

Fixpoint digits (acc : Z) (s : list ascii) : option Z :=
  match s with
  | [] => Some acc
  | a :: s' => n ← digit a; digits (acc * 10 + n) s'
  end.

(** A quoted literal [YYYY-MM-DD] read as a date; anything else is not
    a date. *)
Definition date_of_literal (s : string) : option Z :=
  match list_ascii_of_string s with
  | [y1; y2; y3; y4; "-"%char; m1; m2; "-"%char; d1; d2] =>
      y ← digits 0 [y1; y2; y3; y4];
      m ← digits 0 [m1; m2];
      d ← digits 0 [d1; d2];
      if (1 <=? m) && (m <=? 12) && (1 <=? d) && (d <=? days_in_month y m)
      then Some (days_from_civil y m d) else None
  | _ => None
  end.

End Calendar.

(** A row of [customers]. [customer_id] is the key of the table. *)
Record customer : Type := mkCustomer {
  c_customer_id : Z;
  c_customer_code : value;
  c_signup_date : option Z;
  c_age : value;
  c_gender : value;
  c_location : value;
  c_subscription_type : value;
  c_monthly_charges : value;
  c_total_charges : value;
  c_contract_length : value;
  c_payment_method : value;
  c_paperless_billing : value
}.

(** A row of [churn_events]. *)
Record churn_event : Type := mkChurn {
  ch_customer_id : Z;
  ch_churn_date : value;
  ch_churn_reason : value
}.

(** A row of [usage_metrics]. *)
Record usage_metric : Type := mkUsage {
  u_customer_id : Z;
  u_metric_date : Z;
  u_login_count : value;
  u_session_duration_minutes : value;
  u_features_used : value;
  u_support_tickets : value;
  u_data_usage_gb : value
}.

(** A row of [feature_store]. *)
Record snapshot : Type := mkSnapshot {
  fs_customer_id : value;
  fs_feature_date : Z;
  fs_tenure_days : value;
  fs_avg_monthly_usage : value;
  fs_support_ticket_rate : value;
  fs_payment_delay_days : value;
  fs_feature_adoption_score : value;
  fs_engagement_score : value;
  fs_churn_risk_score : value;
  fs_lifetime_value : value
}.

Record Store : Type := mkStore {
  customers : list customer;
  churn_events : list churn_event;
  usage_metrics : list usage_metric;
  feature_store : list snapshot
}.

(** A row of [customers c LEFT JOIN churn_events ch]: the [ch] side is
    absent (all NULL) for a customer without a matching event. *)
Abbreviation joined := (customer * option churn_event)%type.

(** The rows of the join for one customer: one per matching event, or one
    row alone. *)
Definition join_block (chs : list churn_event) (c : customer) : list joined :=
  match List.filter (fun ch => ch_customer_id ch =? c_customer_id c) chs with
  | [] => [(c, None)]
  | ms => map (fun ch => (c, Some ch)) ms
  end.

(** [customers c LEFT JOIN churn_events ch ON c.customer_id = ch.customer_id] *)
Definition left_join (cs : list customer) (chs : list churn_event) : list joined :=
  flat_map (join_block chs) cs.

(** [CASE WHEN ch.customer_id IS NOT NULL THEN 1 ELSE 0 END] *)
Definition churned_of (j : joined) : Z :=
  match ch_customer_id <$> j.2 with Some _ => 1 | None => 0 end.

Definition opt_cell {A} (f : A -> value) (o : option A) : value :=
  match o with Some a => f a | None => VNull end.

Definition date_cell (d : option Z) : value :=
  match d with Some d => VDate d | None => VNull end.

(** The SELECT list of the customer query, in order. *)
Definition customer_fields : list (string * (joined -> value)) :=
  [ ("customer_id", fun j => VInt (c_customer_id j.1));
    ("customer_code", fun j => c_customer_code j.1);
    ("signup_date", fun j => date_cell (c_signup_date j.1));
    ("age", fun j => c_age j.1);
    ("gender", fun j => c_gender j.1);
    ("location", fun j => c_location j.1);
    ("subscription_type", fun j => c_subscription_type j.1);
    ("monthly_charges", fun j => c_monthly_charges j.1);
    ("total_charges", fun j => c_total_charges j.1);
    ("contract_length", fun j => c_contract_length j.1);
    ("payment_method", fun j => c_payment_method j.1);
    ("paperless_billing", fun j => c_paperless_billing j.1);
    ("churned", fun j => VInt (churned_of j));
    ("churn_date", fun j => opt_cell ch_churn_date j.2);
    ("churn_reason", fun j => opt_cell ch_churn_reason j.2) ].

(** The customer query: the fixed SELECT ... LEFT JOIN text, and the WHERE
    clause when one was appended. *)
Record customer_query : Type := mkQuery {
  where_signup_between : option (string * string)
}.

(** [c.signup_date BETWEEN lo AND hi]; a NULL date is not between. *)
Definition signup_between (lo hi : Z) (j : joined) : bool :=
  match c_signup_date j.1 with
  | Some d => (lo <=? d) && (d <=? hi)
  | None => false
  end.

(** The rows the store returns for the customer query. A literal that is
    not a date is the store's error. *)
Definition run_customer_query (q : customer_query) (db : Store) : result (list joined) :=
  let rows := left_join (customers db) (churn_events db) in
  match where_signup_between q with
  | None => Ok rows
  | Some (a, b) =>
      match Calendar.date_of_literal a, Calendar.date_of_literal b with
      | Some lo, Some hi => Ok (List.filter (signup_between lo hi) rows)
      | _, _ => Raise (StorageError "invalid input syntax for type date")
      end
  end.

(** Python truthiness of an optional string: [None] and [''] are false. *)
Definition truthy (s : option string) : bool :=
  match s with
  | Some s => negb (String.eqb s EmptyString)
  | None => false
  end.

Definition extract_customer_rows (start_date end_date : option string) (db : Store)
  : result (list joined) :=
  let query := mkQuery None in
  let query :=
    if truthy start_date && truthy end_date
    then mkQuery (Some (default EmptyString start_date, default EmptyString end_date))
    else query in
  run_customer_query query db.

(** [ChurnETLPipeline.extract_customer_data] *)
Definition extract_customer_data (start_date end_date : option string) (db : Store)
  : result DataFrame :=
  frame_of_records customer_fields <$> extract_customer_rows start_date end_date db.

(** The SELECT list of the usage query. *)
Definition usage_fields : list (string * (usage_metric -> value)) :=
  [ ("customer_id", fun u => VInt (u_customer_id u));
    ("metric_date", fun u => VDate (u_metric_date u));
    ("login_count", u_login_count);
    ("session_duration_minutes", u_session_duration_minutes);
    ("features_used", u_features_used);
    ("support_tickets", u_support_tickets);
    ("data_usage_gb", u_data_usage_gb) ].

(** [ORDER BY customer_id, metric_date], by insertion. *)
Definition usage_le (a b : usage_metric) : bool :=
  (u_customer_id a <? u_customer_id b)
  || ((u_customer_id a =? u_customer_id b) && (u_metric_date a <=? u_metric_date b)).

Fixpoint insert_usage (u : usage_metric) (l : list usage_metric) : list usage_metric :=
  match l with
  | [] => [u]
  | v :: l' => if usage_le u v then u :: l else v :: insert_usage u l'
  end.

Definition order_usage (l : list usage_metric) : list usage_metric :=
  foldr insert_usage [] l.

(** [ChurnETLPipeline.extract_usage_data]: an empty id list is falsy and
    restricts nothing. *)
Definition extract_usage_data (customer_ids : option (list Z)) (db : Store) : DataFrame :=
  let rows :=
    match customer_ids with
    | Some ((_ :: _) as ids) =>
        List.filter (fun u => existsb (Z.eqb (u_customer_id u)) ids) (usage_metrics db)
    | _ => usage_metrics db
    end in
  frame_of_records usage_fields (order_usage rows).

(** ** Feature store writer *)

(** [row[k]] and [row.get(k, d)] on a row of [iterrows]. *)
Definition row_getitem (r : list (string * value)) (k : string) : result value :=
  match assoc k r with
  | Some v => Ok v
  | None => Raise (KeyError k)
  end.

Definition row_get (r : list (string * value)) (k : string) (d : value) : value :=
  default d (assoc k r).

(** [v / k] for a cell and a number. *)
Definition scalar_div (v : value) (k : float) : result value :=
  match v with
  | VInt _ | VFloat _ | VBool _ => Ok (VFloat (to_float v / k))
  | VNull => Ok VNull
  | _ => Raise arith_error
  end.

(** The record [load_features] builds from one row. *)
Definition feature_record (current_date : Z) (r : list (string * value)) : result snapshot :=
  customer_id ← row_getitem r "customer_id";
  tenure_days ← row_getitem r "tenure_days";
  let avg_monthly_usage := row_get r "data_usage_gb_mean" (VInt 0) in
  support_ticket_rate ← row_getitem r "support_ticket_rate";
  feature_adoption_score ← scalar_div (row_get r "features_used_mean" (VInt 0)) 10;
  engagement_score ← row_getitem r "engagement_score";
  lifetime_value ← row_getitem r "total_charges";
  Ok {| fs_customer_id := customer_id;
        fs_feature_date := current_date;
        fs_tenure_days := tenure_days;
        fs_avg_monthly_usage := avg_monthly_usage;
        fs_support_ticket_rate := support_ticket_rate;
        fs_payment_delay_days := VInt 0;
        fs_feature_adoption_score := feature_adoption_score;
        fs_engagement_score := engagement_score;
        fs_churn_risk_score := VInt 0;
        fs_lifetime_value := lifetime_value |}.

(** [DELETE FROM feature_store WHERE feature_date = :date] *)
Definition delete_snapshots (date : Z) (fs : list snapshot) : list snapshot :=
  List.filter (fun s => negb (fs_feature_date s =? date)) fs.

(** [ChurnETLPipeline.load_features]; [current_date] is the clock's date
    at the call. The records are built before the store is touched. *)
Definition load_features (current_date : Z) (features_df : DataFrame) (db : Store)
  : result Store :=
  feature_store_data ← traverse (feature_record current_date) (iterrows features_df);
  let kept := delete_snapshots current_date (feature_store db) in
  Ok (mkStore (customers db) (churn_events db) (usage_metrics db)
              (kept ++ feature_store_data)).

(** ** What pandas computes *)

Inductive aggfn : Type := Mean | Sum | Std | Max.

Definition aggfn_name (f : aggfn) : string :=
  match f with Mean => "mean" | Sum => "sum" | Std => "std" | Max => "max" end.

(** The reductions and conversions of pandas that the pipeline calls and
    does not implement. *)
Class Pandas : Type := {
  (** a groupby reduction over the cells of one group *)
  reduce : aggfn -> list value -> value;
  (** the median of a column *)
  median : list value -> value;
  (** [to_datetime] of a cell that is neither a date nor a timestamp *)
  parse_datetime : value -> option Z;
  (** [str] of a cell that is neither a string nor an integer *)
  repr : value -> string
}.

(** The dtype of a reduction of a column of dtype [d]. *)
Definition agg_dtype (f : aggfn) (d : dtype) : dtype :=
  match f with
  | Mean | Std => float64
  | Sum => match d with float64 => float64 | _ => int64 end
  | Max => d
  end.

(** Equality of group and join keys. *)
Definition key_eqb (a b : value) : bool :=
  match a, b with
  | VNull, VNull => true
  | VInt x, VInt y => x =? y
  | VInt _, VFloat _ | VFloat _, VInt _ | VFloat _, VFloat _ =>
      PrimFloat.eqb (to_float a) (to_float b)
  | VBool x, VBool y => Bool.eqb x y
  | VStr s, VStr t => String.eqb s t
  | VDate x, VDate y => x =? y
  | VTime x, VTime y => x =? y
  | _, _ => false
  end.

(** The order in which keys and categories are listed. *)
Definition key_leb (a b : value) : bool :=
  match a, b with
  | VInt x, VInt y => x <=? y
  | VInt _, VFloat _ | VFloat _, VInt _ | VFloat _, VFloat _ =>
      PrimFloat.leb (to_float a) (to_float b)
  | VBool x, VBool y => implb x y
  | VStr s, VStr t => String.leb s t
  | VDate x, VDate y => x <=? y
  | VTime x, VTime y => x <=? y
  | _, _ => true
  end.

Fixpoint dedup_keys (l : list value) : list value :=
  match l with
  | [] => []
  | v :: l' => v :: List.filter (fun w => negb (key_eqb v w)) (dedup_keys l')
  end.

Fixpoint insert_key (v : value) (l : list value) : list value :=
  match l with
  | [] => [v]
  | w :: l' => if key_leb v w then v :: l else w :: insert_key v l'
  end.

Definition sort_keys (l : list value) : list value := foldr insert_key [] l.

(** The distinct present values of a column, ascending. *)
Definition distinct_keys (vs : list value) : list value :=
  sort_keys (dedup_keys (List.filter (fun v => negb (isna v)) vs)).

(** The cells of a column in the rows whose key is [k]. *)
Definition group_cells (keys : list value) (k : value) (vs : list value) : list value :=
  (List.filter (fun p => key_eqb p.1 k) (zip keys vs)).*2.

(** The result of [groupby(by).agg(spec)]: the group keys as index, and
    one column per (column, function) pair. *)
Record Grouped : Type := mkGrouped {
  g_by : string;
  g_index : Series;
  g_columns : list ((string * aggfn) * Series)
}.

Section WithPandas.
Context `{Pandas}.

Definition agg_series (keys ks : list value) (s : Series) (f : aggfn) : Series :=
  mkSeries (agg_dtype f (sdtype s))
           (map (fun k => reduce f (group_cells keys k (cells s))) ks).

(** [df.groupby(by).agg(spec)] *)
Definition groupby_agg (df : DataFrame) (by_ : string) (spec : list (string * list aggfn))
  : result Grouped :=
  keys ← getitem df by_;
  let ks := distinct_keys (cells keys) in
  cols ← traverse
    (fun cf : string * list aggfn =>
       s ← getitem df cf.1;
       if is_arith (sdtype s)
       then Ok (map (fun f => ((cf.1, f), agg_series (cells keys) ks s f)) cf.2)
       else Raise (TypeError "agg function failed"))
    spec;
  Ok (mkGrouped by_ (mkSeries (sdtype keys) ks) (concat cols)).

(** [.round(4)] *)
Definition round_grouped (g : Grouped) : Grouped :=
  mkGrouped (g_by g) (g_index g)
            (map (fun c => (c.1, round_series c.2)) (g_columns g)).

(** ['_'.join(col)] for the two-level column names, then [reset_index()]. *)
Definition flatten_name (col : string * aggfn) : string :=
  (col.1 ++ "_" ++ aggfn_name col.2)%string.

Definition flatten_reset (g : Grouped) : DataFrame :=
  mkDF (length (cells (g_index g)))
       ((g_by g, g_index g) :: map (fun c => (flatten_name c.1, c.2)) (g_columns g)).

(** The aggregation table of [transform_features]. *)
Definition usage_agg_spec : list (string * list aggfn) :=
  [ ("login_count", [Mean; Sum; Std]);
    ("session_duration_minutes", [Mean; Sum; Std]);
    ("features_used", [Mean; Max; Std]);
    ("support_tickets", [Sum; Mean]);
    ("data_usage_gb", [Mean; Sum; Std]) ].

(** [usage_agg] of [transform_features]. *)
Definition aggregate_usage (usage_df : DataFrame) : result DataFrame :=
  g ← groupby_agg usage_df "customer_id" usage_agg_spec;
  Ok (flatten_reset (round_grouped g)).

End WithPandas.

(** ** Joining tables *)

Definition mem_string (s : string) (l : list string) : bool :=
  existsb (String.eqb s) l.

(** The cells of a column at the given rows; an absent row gives a missing
    cell. *)
Definition take_cells (vs : list value) (rows : list (option nat)) : list value :=
  map (fun r => default VNull (r ≫= (vs !!.))) rows.

(** A column of the right table after a left join: integers become floats
    and booleans objects when some row has no match. *)
Definition take_right (s : Series) (rows : list (option nat)) : Series :=
  let vs := take_cells (cells s) rows in
  if forallb (fun r => match r with Some _ => true | None => false end) rows
  then mkSeries (sdtype s) vs
  else match sdtype s with
       | int64 => mkSeries float64 (map as_float_cell vs)
       | bool_ => mkSeries object_ vs
       | d => mkSeries d vs
       end.

(** The row pairs of a left join: each left row with each of its matches
    in the right table, or alone. *)
Definition left_pairs (lk rk : list value) : list (nat * option nat) :=
  flat_map
    (fun i =>
       let k := default VNull (lk !! i) in
       match List.filter (fun j => key_eqb k (default VNull (rk !! j))) (seq 0 (length rk)) with
       | [] => [(i, None)]
       | js => map (fun j => (i, Some j)) js
       end)
    (seq 0 (length lk)).

(** A name that both tables have besides the key. *)
Definition overlaps (on : string) (lnames rnames : list string) (n : string) : bool :=
  negb (String.eqb n on) && mem_string n lnames && mem_string n rnames.

(** The columns of one side of a join: [g] makes the joined column, and an
    overlapping name gets the suffix. *)
Definition suffixed {A} (ov : string -> bool) (sfx : string) (g : A -> Series)
    (cols : list (string * A)) : list (string * Series) :=
  map (fun c => (if ov c.1 then (c.1 ++ sfx)%string else c.1, g c.2)) cols.

(** [left.merge(right, on=key, how='left')]. A name that both tables have
    besides the key gets the suffix [_x] on the left and [_y] on the right. *)
Definition merge_left (left right : DataFrame) (on : string) : result DataFrame :=
  lk ← getitem left on;
  rk ← getitem right on;
  let pairs := left_pairs (cells lk) (cells rk) in
  let rcols := List.filter (fun c => negb (String.eqb c.1 on)) (columns right) in
  let ov := overlaps on (column_names left) rcols.*1 in
  Ok (mkDF (length pairs)
        (suffixed ov "_x"
           (fun s => mkSeries (sdtype s) (take_cells (cells s) (Some <$> pairs.*1)))
           (columns left)
         ++ suffixed ov "_y" (fun s => take_right s pairs.*2) rcols)).

(** ** Feature transformer *)

Definition ns_per_day : Z := 86400 * 1000000000.

(** [features_df[numeric_cols] = features_df[numeric_cols].fillna(0)] *)
Definition fill_if_number (s : Series) : Series :=
  if is_number (sdtype s) then fillna0_series s else s.

Definition fill_numeric (df : DataFrame) : DataFrame :=
  mkDF (nrows df) (map (fun c => (c.1, fill_if_number c.2)) (columns df)).

(** [features_df[bool_cols] = features_df[bool_cols].astype(int)] *)
Definition int_of_bool_cell (v : value) : value :=
  match v with VBool b => VInt (if b then 1 else 0) | _ => v end.

Definition int_of_bool_series (s : Series) : Series :=
  match sdtype s with
  | bool_ => mkSeries int64 (map int_of_bool_cell (cells s))
  | _ => s
  end.

Definition bools_to_int (df : DataFrame) : DataFrame :=
  mkDF (nrows df) (map (fun c => (c.1, int_of_bool_series c.2)) (columns df)).

(** The columns [transform_features] encodes. *)
Definition encoded_columns : list string :=
  ["gender"; "subscription_type"; "contract_length"; "payment_method"].

Section Transformer.
Context `{Pandas}.

(** [pd.to_datetime] of a column *)
Definition to_datetime_cell (v : value) : result value :=
  match v with
  | VNull => Ok VNull
  | VDate d => Ok (VTime (d * ns_per_day))
  | VTime t => Ok (VTime t)
  | _ => match parse_datetime v with
         | Some t => Ok (VTime t)
         | None => Raise (ValueError "Unknown datetime string format")
         end
  end.

Definition to_datetime (s : Series) : result Series :=
  mkSeries datetime64 <$> traverse to_datetime_cell (cells s).

(** [(now - s).dt.days]: whole days, rounded down; an integer column
    unless a date is missing. *)
Definition days_cell (now : Z) (v : value) : value :=
  match v with
  | VTime t => VInt ((now - t) / ns_per_day)
  | _ => VNull
  end.

Definition days_since (now : Z) (s : Series) : Series :=
  let vs := map (days_cell now) (cells s) in
  if forallb (fun v => negb (isna v)) vs
  then mkSeries int64 vs
  else mkSeries float64 (map as_float_cell vs).

(** [str] of a category, for the name of its indicator column. *)
Definition value_str (v : value) : string :=
  match v with
  | VStr s => s
  | VInt z => pretty z
  | _ => repr v
  end.

Definition dummies_of (c : string) (s : Series) : list (string * Series) :=
  map (fun k => ((c ++ "_" ++ value_str k)%string,
                 mkSeries bool_ (map (fun v => VBool (key_eqb v k)) (cells s))))
      (distinct_keys (cells s)).

(** [pd.get_dummies(df, columns=cs, prefix_sep='_')]: the other columns,
    then the indicator columns of each listed column. *)
Definition get_dummies (df : DataFrame) (cs : list string) : result DataFrame :=
  enc ← traverse (fun c => s ← getitem df c; Ok (dummies_of c s)) cs;
  Ok (mkDF (nrows df)
        (List.filter (fun c => negb (mem_string c.1 cs)) (columns df) ++ concat enc)).

(** Lines 113-127: the three derived columns. *)
Definition derive_features (features_df : DataFrame) : result DataFrame :=
  s ← getitem features_df "session_duration_minutes_mean";
  l ← getitem features_df "login_count_mean";
  q ← series_div s (replace01 l);
  let features_df := setitem features_df "avg_session_per_login" (round_series q) in
  t ← getitem features_df "support_tickets_sum";
  d ← getitem features_df "tenure_days";
  q ← series_div t (replace01 d);
  r ← series_mul_by 30 q;
  let features_df := setitem features_df "support_ticket_rate" (round_series r) in
  l ← getitem features_df "login_count_mean";
  a ← series_mul_by 0.3 l;
  s ← getitem features_df "session_duration_minutes_mean";
  s60 ← series_div_by 60 s;
  b ← series_mul_by 0.4 s60;
  ab ← series_add a b;
  f ← getitem features_df "features_used_mean";
  c ← series_mul_by 0.3 f;
  e ← series_add ab c;
  Ok (setitem features_df "engagement_score" (round_series e)).

(** Lines 93-139, on the customer table as lines 89-90 left it. *)
Definition build_features (customer_df usage_df : DataFrame) : result DataFrame :=
  usage_agg ← aggregate_usage usage_df;
  features_df ← merge_left customer_df usage_agg "customer_id";
  let features_df := fill_numeric features_df in
  features_df ← derive_features features_df;
  features_df ← get_dummies features_df encoded_columns;
  Ok (bools_to_int features_df).

(** Lines 89-90: the two assignments into the caller's customer table. *)
Definition convert_signup (customer_df : DataFrame) : result DataFrame :=
  s ← getitem customer_df "signup_date";
  d ← to_datetime s;
  Ok (setitem customer_df "signup_date" d).

Definition add_tenure (now : Z) (customer_df : DataFrame) : result DataFrame :=
  s ← getitem customer_df "signup_date";
  Ok (setitem customer_df "tenure_days" (days_since now s)).

End Transformer.

(** ** Tables as objects

    The two arguments of [transform_features] are references to tables the
    caller owns; an assignment into a column changes the caller's table. *)

Abbreviation loc := nat (only parsing).
Abbreviation heap := (gmap nat DataFrame).

Definition deref (h : heap) (l : loc) : result DataFrame :=
  match h !! l with
  | Some df => Ok df
  | None => Raise (LibraryError "no such object")
  end.

Section TransformFeatures.
Context `{Pandas}.

(** [ChurnETLPipeline.transform_features]; [now] is the clock's reading.
    Returns the heap after the call with the new table or the exception. *)
Definition transform_features (now : Z) (customer_df usage_df : loc) (h : heap)
  : heap * result DataFrame :=
  match deref h customer_df ≫= convert_signup with
  | Raise e => (h, Raise e)
  | Ok c1 =>
      let h := <[customer_df := c1]> h in
      match add_tenure now c1 with
      | Raise e => (h, Raise e)
      | Ok c2 =>
          let h := <[customer_df := c2]> h in
          (h, u ← deref h usage_df; build_features c2 u)
      end
  end.

End TransformFeatures.

(** ** Churn predictor *)

(** The four parts of [train_test_split]. *)
Record split : Type := mkSplit {
  X_train : DataFrame;
  X_test : DataFrame;
  y_train : Series;
  y_test : Series
}.

(** What scikit-learn, xgboost, keras, numpy and mlflow do for the
    predictor. An estimator is the library's object, fitted or not. *)
Class MLLibrary : Type := {
  estimator : Type;
  scaler : Type;
  StandardScaler : scaler;
  fit_transform : scaler -> DataFrame -> result (scaler * DataFrame);
  transform : scaler -> DataFrame -> result DataFrame;
  RandomForestClassifier : estimator;
  XGBClassifier : estimator;
  LogisticRegression : estimator;
  GradientBoostingClassifier : estimator;
  (** the compiled keras network of [_create_neural_network] *)
  Sequential : nat -> estimator;
  (** [model.fit(X, y)] *)
  fit : estimator -> DataFrame -> Series -> result estimator;
  (** [model.fit(X, y, epochs=50, batch_size=32, validation_split=0.2)] *)
  fit_epochs : estimator -> DataFrame -> Series -> result estimator;
  (** [model.predict(X)] of a classifier *)
  predict_classes : estimator -> DataFrame -> result (list value);
  (** [model.predict_proba(X)[:, 1]] *)
  predict_proba : estimator -> DataFrame -> result (list float);
  (** [model.predict(X).flatten()] of the network *)
  predict_flat : estimator -> DataFrame -> result (list float);
  train_test_split : DataFrame -> Series -> float -> result split;
  (** [np.mean(y_pred == y_test)] *)
  mean_equal : list value -> Series -> float;
  roc_auc_score : Series -> list float -> result float;
  (** mean and standard deviation of [cross_val_score(model, X, y, cv=5)] *)
  cross_val_score : estimator -> DataFrame -> Series -> result (float * float);
  (** [model.feature_importances_], when the estimator has it *)
  feature_importances : estimator -> option (list float);
  classification_report : Series -> list value -> result string;
  confusion_matrix : Series -> list value -> result (list (list Z));
  (** [DataFrame.median()]: the medians by column *)
  frame_median : DataFrame -> result (list (string * value));
  (** a call into the tracking system *)
  mlflow : string -> result unit
}.

Section ChurnPredictor.
Context `{MLLibrary}.

Record ChurnPredictor : Type := mkPredictor {
  model_type : string;
  model : option estimator;
  scaler_ : scaler;
  feature_columns : option (list string);
  is_trained : bool
}.

(** A method body: it reads and updates [self] and returns or raises. *)
Definition method (A : Type) : Type := ChurnPredictor -> ChurnPredictor * result A.

Definition ret {A} (a : A) : method A := fun self => (self, Ok a).
Definition raise {A} (e : exn) : method A := fun self => (self, Raise e).
Definition bind {A B} (m : method A) (k : A -> method B) : method B :=
  fun self => match m self with
              | (self, Ok a) => k a self
              | (self, Raise e) => (self, Raise e)
              end.
Definition lift {A} (r : result A) : method A := fun self => (self, r).
Definition get {A} (f : ChurnPredictor -> A) : method A := fun self => (self, Ok (f self)).
Definition update (f : ChurnPredictor -> ChurnPredictor) : method unit :=
  fun self => (f self, Ok tt).

#[local] Notation "x <- m ;; k" := (bind m (fun x => k))
  (at level 100, m at next level, right associativity,
   format "'[v' x  <-  m  ;;  '/' k ']'").
#[local] Notation "m ;;; k" := (bind m (fun _ => k))
  (at level 100, right associativity, format "'[v' m  ;;;  '/' k ']'").

Definition set_model (m : estimator) (self : ChurnPredictor) : ChurnPredictor :=
  mkPredictor (model_type self) (Some m) (scaler_ self) (feature_columns self) (is_trained self).
Definition set_scaler (s : scaler) (self : ChurnPredictor) : ChurnPredictor :=
  mkPredictor (model_type self) (model self) s (feature_columns self) (is_trained self).
Definition set_feature_columns (cs : list string) (self : ChurnPredictor) : ChurnPredictor :=
  mkPredictor (model_type self) (model self) (scaler_ self) (Some cs) (is_trained self).
Definition set_is_trained (b : bool) (self : ChurnPredictor) : ChurnPredictor :=
  mkPredictor (model_type self) (model self) (scaler_ self) (feature_columns self) b.

(** [ChurnPredictor.__init__] *)
Definition init (model_type : string) : result ChurnPredictor :=
  _ ← mlflow "set_experiment";
  Ok (mkPredictor model_type None StandardScaler None false).

Definition exclude_cols : list string :=
  ["customer_id"; "customer_code"; "churned"; "churn_date"; "churn_reason"; "signup_date"].

(** [X.fillna(m)] for medians [m] by column name. *)
Definition fillna_by (m : list (string * value)) (df : DataFrame) : DataFrame :=
  mkDF (nrows df)
    (map (fun c => (c.1, match assoc c.1 m with
                         | Some v => mkSeries (sdtype c.2)
                                       (map (fun x => if isna x then v else x) (cells c.2))
                         | None => c.2
                         end))
         (columns df)).

(** [ChurnPredictor.prepare_features] *)
Definition prepare_features (df : DataFrame) : method (DataFrame * option Series) :=
  let feature_cols :=
    List.filter (fun col => negb (mem_string col exclude_cols)) (column_names df) in
  X <- lift (select df feature_cols) ;;
  X <- (if existsb (fun c => is_number (sdtype c.2)) (columns X)
        then lift (m ← frame_median X; Ok (fillna_by m X))
        else ret (fillna0 X)) ;;
  let y := match getitem df "churned" with Ok s => Some s | Raise _ => None end in
  update (set_feature_columns feature_cols) ;;;
  ret (X, y).

(** [ChurnPredictor._create_neural_network] *)
Definition _create_neural_network : method estimator :=
  cols <- get feature_columns ;;
  match cols with
  | Some cs => ret (Sequential (length cs))
  | None => raise (TypeError "object of type 'NoneType' has no len()")
  end.

(** [ChurnPredictor.create_model] *)
Definition create_model : method estimator :=
  t <- get model_type ;;
  if String.eqb t "random_forest" then ret RandomForestClassifier
  else if String.eqb t "xgboost" then ret XGBClassifier
  else if String.eqb t "logistic_regression" then ret LogisticRegression
  else if String.eqb t "gradient_boosting" then ret GradientBoostingClassifier
  else if String.eqb t "neural_network" then _create_neural_network
  else raise (ValueError ("Unsupported model type: " ++ t)).

(** [self.model_type in ['logistic_regression', 'neural_network']] *)
Definition scales (t : string) : bool :=
  mem_string t ["logistic_regression"; "neural_network"].

(** The dictionary [train] returns. *)
Record results : Type := mkResults {
  accuracy : float;
  auc_score : float;
  cv_mean : float;
  cv_std : float;
  feature_importance : option (list (string * float));
  report : string;
  confusion : list (list Z)
}.

Definition no_model : exn := TypeError "'NoneType' object has no attribute".

Definition the_model : method estimator :=
  m <- get model ;;
  match m with Some m => ret m | None => raise no_model end.

(** [with mlflow.start_run(...):] the run is opened, the body runs, and
    the run is ended on the way out, also when the body raised; an
    exception of the exit replaces the body's. *)
Definition with_run {A} (body : method A) : method A :=
  fun self =>
    match mlflow "start_run" with
    | Raise e => (self, Raise e)
    | Ok _ =>
        match body self, mlflow "end_run" with
        | (self, r), Ok _ => (self, r)
        | (self, _), Raise e => (self, Raise e)
        end
    end.

(** The body of the [with] block of [train]. *)
Definition train_body (df : DataFrame) (test_size : float) : method results :=
  Xy <- prepare_features df ;;
  y <- match Xy.2 with
       | Some y => ret y
       | None => raise (ValueError "Target variable 'churned' not found in dataset")
       end ;;
  sp <- lift (train_test_split Xy.1 y test_size) ;;
  t <- get model_type ;;
  scaled <- (if scales t then
               sc <- get scaler_ ;;
               fitted <- lift (fit_transform sc (X_train sp)) ;;
               update (set_scaler fitted.1) ;;;
               X_test_scaled <- lift (transform fitted.1 (X_test sp)) ;;
               ret (fitted.2, X_test_scaled)
             else ret (X_train sp, X_test sp)) ;;
  m <- create_model ;;
  update (set_model m) ;;;
  (if String.eqb t "neural_network" then
     m <- lift (fit_epochs m scaled.1 (y_train sp)) ;;
     update (set_model m) ;;;
     lift (mlflow "log_param epochs") ;;;
     lift (mlflow "log_param batch_size")
   else
     m <- lift (fit m scaled.1 (y_train sp)) ;;
     update (set_model m)) ;;;
  m <- the_model ;;
  pred <- (if String.eqb t "neural_network" then
             y_pred_proba <- lift (predict_flat m scaled.2) ;;
             ret (map (fun p => VInt (if PrimFloat.ltb 0.5 p then 1 else 0)) y_pred_proba,
                  y_pred_proba)
           else
             y_pred <- lift (predict_classes m scaled.2) ;;
             y_pred_proba <- lift (predict_proba m scaled.2) ;;
             ret (y_pred, y_pred_proba)) ;;
  let accuracy := mean_equal pred.1 (y_test sp) in
  auc_score <- lift (roc_auc_score (y_test sp) pred.2) ;;
  cv <- (if negb (String.eqb t "neural_network")
         then lift (cross_val_score m scaled.1 (y_train sp))
         else ret (0%float, 0%float)) ;;
  lift (mlflow "log_param model_type") ;;;
  lift (mlflow "log_param test_size") ;;;
  lift (mlflow "log_param n_features") ;;;
  lift (mlflow "log_param n_samples") ;;;
  lift (mlflow "log_metric accuracy") ;;;
  lift (mlflow "log_metric auc_score") ;;;
  lift (mlflow "log_metric cv_mean") ;;;
  lift (mlflow "log_metric cv_std") ;;;
  lift (mlflow "log_model") ;;;
  cols <- get feature_columns ;;
  feature_importance <-
    match feature_importances m with
    | Some imp =>
        let fi := zip (default [] cols) imp in
        lift (traverse (fun _ => mlflow "log_metric feature_importance")
                       (firstn 10 fi)) ;;;
        ret (Some fi)
    | None => ret None
    end ;;
  update (set_is_trained true) ;;;
  report <- lift (classification_report (y_test sp) pred.1) ;;
  confusion <- lift (confusion_matrix (y_test sp) pred.1) ;;
  ret (mkResults accuracy auc_score cv.1 cv.2 feature_importance report confusion).

(** [ChurnPredictor.train] *)
Definition train (df : DataFrame) (test_size : float) : method results :=
  with_run (train_body df test_size).

(** Line 231: [X[self.feature_columns].fillna(0)] *)
Definition predict_input (self : ChurnPredictor) (X : DataFrame) : result DataFrame :=
  match feature_columns self with
  | Some cs => fillna0 <$> select X cs
  | None => Raise (KeyError "None")
  end.

(** Lines 234-240: scaling and scoring, by the library. *)
Definition score (self : ChurnPredictor) (X_features : DataFrame) : result (list float) :=
  X_features ← (if scales (model_type self)
                then transform (scaler_ self) X_features
                else Ok X_features);
  match model self with
  | Some m =>
      if String.eqb (model_type self) "neural_network"
      then predict_flat m X_features
      else predict_proba m X_features
  | None => Raise no_model
  end.

(** [ChurnPredictor.predict] *)
Definition predict (self : ChurnPredictor) (X : DataFrame) : result (list float) :=
  if negb (is_trained self)
  then Raise (ValueError "Model must be trained before making predictions")
  else X_features ← predict_input self X; score self X_features.

(** The bundle [save_model] writes. *)
Record model_data : Type := mkModelData {
  md_model : option estimator;
  md_scaler : scaler;
  md_feature_columns : option (list string);
  md_model_type : string
}.

(** [ChurnPredictor.save_model]; the disk is a map from paths to bundles. *)
Definition save_model (self : ChurnPredictor) (filepath : string)
    (disk : gmap string model_data) : result (gmap string model_data) :=
  if negb (is_trained self)
  then Raise (ValueError "Model must be trained before saving")
  else Ok (<[filepath := mkModelData (model self) (scaler_ self)
                           (feature_columns self) (model_type self)]> disk).

(** [ChurnPredictor.load_model] *)
Definition load_model (filepath : string) (disk : gmap string model_data)
  : method unit :=
  match disk !! filepath with
  | Some md =>
      update (fun _ => mkPredictor (md_model_type md) (md_model md) (md_scaler md)
                         (md_feature_columns md) true)
  | None => raise (LibraryError "No such file or directory")
  end.

End ChurnPredictor.

(** ** Lifetime value predictor *)

(** What scikit-learn does for the regressor, besides the scaler. *)
Class RegressionLibrary `{MLLibrary} : Type := {
  regressor : Type;
  RandomForestRegressor : regressor;
  (** [model.fit(X, y)] *)
  fit_regressor : regressor -> DataFrame -> Series -> result regressor;
  (** [model.score(X, y)] *)
  r2_score : regressor -> DataFrame -> Series -> result float;
  (** [model.predict(X)] *)
  predict_values : regressor -> DataFrame -> result (list float);
  (** [train_test_split(X, y, test_size=0.2, random_state=42)] *)
  train_test_split_plain : DataFrame -> Series -> result split
}.

Module Lifetime.
Section LifetimeValuePredictor.
Context `{RegressionLibrary}.

Record LifetimeValuePredictor : Type := mkLifetime {
  model : option regressor;
  scaler_ : scaler;
  feature_columns : option (list string);
  is_trained : bool
}.

Definition method (A : Type) : Type :=
  LifetimeValuePredictor -> LifetimeValuePredictor * result A.

Definition ret {A} (a : A) : method A := fun self => (self, Ok a).
Definition raise {A} (e : exn) : method A := fun self => (self, Raise e).
Definition bind {A B} (m : method A) (k : A -> method B) : method B :=
  fun self => match m self with
              | (self, Ok a) => k a self
              | (self, Raise e) => (self, Raise e)
              end.
Definition lift {A} (r : result A) : method A := fun self => (self, r).
Definition get {A} (f : LifetimeValuePredictor -> A) : method A :=
  fun self => (self, Ok (f self)).
Definition update (f : LifetimeValuePredictor -> LifetimeValuePredictor) : method unit :=
  fun self => (f self, Ok tt).

#[local] Notation "x <- m ;; k" := (bind m (fun x => k))
  (at level 100, m at next level, right associativity,
   format "'[v' x  <-  m  ;;  '/' k ']'").
#[local] Notation "m ;;; k" := (bind m (fun _ => k))
  (at level 100, right associativity, format "'[v' m  ;;;  '/' k ']'").

Definition set_model (m : regressor) (self : LifetimeValuePredictor)
  : LifetimeValuePredictor :=
  mkLifetime (Some m) (scaler_ self) (feature_columns self) (is_trained self).
Definition set_scaler (s : scaler) (self : LifetimeValuePredictor) : LifetimeValuePredictor :=
  mkLifetime (model self) s (feature_columns self) (is_trained self).
Definition set_feature_columns (cs : list string) (self : LifetimeValuePredictor)
  : LifetimeValuePredictor :=
  mkLifetime (model self) (scaler_ self) (Some cs) (is_trained self).
Definition set_is_trained (b : bool) (self : LifetimeValuePredictor)
  : LifetimeValuePredictor :=
  mkLifetime (model self) (scaler_ self) (feature_columns self) b.

(** [LifetimeValuePredictor.__init__] *)
Definition init : LifetimeValuePredictor := mkLifetime None StandardScaler None false.

Definition exclude_cols : list string :=
  ["customer_id"; "customer_code"; "churned"; "churn_date"; "churn_reason"; "signup_date";
   "total_charges"].

(** [LifetimeValuePredictor.prepare_features] *)
Definition prepare_features (df : DataFrame) : method (DataFrame * option Series) :=
  let feature_cols :=
    List.filter (fun col => negb (mem_string col exclude_cols)) (column_names df) in
  X <- lift (fillna0 <$> select df feature_cols) ;;
  let y := match getitem df "total_charges" with Ok s => Some s | Raise _ => None end in
  update (set_feature_columns feature_cols) ;;;
  ret (X, y).

(** [LifetimeValuePredictor.train]; the pair returned is [train_r2] and
    [test_r2]. *)
Definition train (df : DataFrame) : method (float * float) :=
  Xy <- prepare_features df ;;
  y <- match Xy.2 with
       | Some y => ret y
       | None => raise (ValueError "Target variable 'total_charges' not found")
       end ;;
  sp <- lift (train_test_split_plain Xy.1 y) ;;
  sc <- get scaler_ ;;
  fitted <- lift (fit_transform sc (X_train sp)) ;;
  update (set_scaler fitted.1) ;;;
  X_test_scaled <- lift (transform fitted.1 (X_test sp)) ;;
  update (set_model RandomForestRegressor) ;;;
  m <- lift (fit_regressor RandomForestRegressor fitted.2 (y_train sp)) ;;
  update (set_model m) ;;;
  train_score <- lift (r2_score m fitted.2 (y_train sp)) ;;
  test_score <- lift (r2_score m X_test_scaled (y_test sp)) ;;
  update (set_is_trained true) ;;;
  ret (train_score, test_score).

(** [LifetimeValuePredictor.predict] *)
Definition predict (self : LifetimeValuePredictor) (X : DataFrame) : result (list float) :=
  if negb (is_trained self)
  then Raise (ValueError "Model must be trained before making predictions")
  else
    X_features ← match feature_columns self with
                 | Some cs => fillna0 <$> select X cs
                 | None => Raise (KeyError "None")
                 end;
    X_scaled ← transform (scaler_ self) X_features;
    match model self with
    | Some m => predict_values m X_scaled
    | None => Raise no_model
    end.

End LifetimeValuePredictor.
End Lifetime.

(** ** Reference libraries

    Plain implementations of the two interfaces, for running the model on
    concrete tables: left-to-right float sums for the reductions, and a
    classifier that scores every row with the share of positive labels it
    was fitted on. *)

Module Reference.

Definition present (vs : list value) : list value :=
  List.filter (fun v => negb (isna v)) vs.

Definition fsum (fs : list float) : float := fold_left PrimFloat.add fs 0%float.

Definition is_integral (v : value) : bool :=
  match v with VInt _ | VBool _ => true | _ => false end.

Definition int_of (v : value) : Z :=
  match v with VInt z => z | VBool true => 1 | _ => 0 end.

Definition count {A} (l : list A) : float := Float.of_Z (Z.of_nat (length l)).

Definition fmean (vs : list value) : float :=
  (fsum (map to_float vs) / count vs)%float.

Definition sum (vs : list value) : value :=
  let p := present vs in
  if forallb is_integral p then VInt (foldr Z.add 0 (map int_of p))
  else VFloat (fsum (map to_float p)).

Definition mean (vs : list value) : value :=
  match present vs with
  | [] => VNull
  | p => VFloat (fmean p)
  end.

(** Sample standard deviation: the squared deviations are divided by
    one less than the count. *)
Definition std (vs : list value) : value :=
  match present vs with
  | [] | [_] => VNull
  | p =>
      let m := fmean p in
      let sq := map (fun v => let d := (to_float v - m)%float in (d * d)%float) p in
      VFloat (PrimFloat.sqrt (fsum sq / (count p - 1)))
  end.

Definition max (vs : list value) : value :=
  match present vs with
  | [] => VNull
  | v :: p => fold_left (fun a b => if key_leb a b then b else a) p v
  end.

Definition middle (vs : list value) : value :=
  let p := sort_keys (present vs) in
  let n := length p in
  match p !! (n / 2)%nat with
  | None => VNull
  | Some hi =>
      if Nat.even n
      then VFloat ((to_float (default hi (p !! (n / 2 - 1)%nat)) + to_float hi) / 2)
      else VFloat (to_float hi)
  end.

#[export] Instance pandas : Pandas := {|
  reduce f := match f with Mean => mean | Sum => sum | Std => std | Max => max end;
  median := middle;
  parse_datetime v :=
    match v with
    | VStr s => (fun d => d * ns_per_day) <$> Calendar.date_of_literal s
    | VInt ns => Some ns
    | _ => None
    end;
  repr v :=
    match v with
    | VBool true => "True"
    | VBool false => "False"
    | VNull => "nan"
    | _ => EmptyString
    end
|}.

(** The share of cells equal to one. *)
Definition positive_share (y : Series) : float :=
  let ones := List.filter (fun v => key_eqb v (VInt 1)) (cells y) in
  (count ones / count (cells y))%float.

Definition ok_unit (p : float) : float :=
  if Float.in_unit p then p else 0.5%float.

Definition score_rows (m : float) (X : DataFrame) : result (list float) :=
  Ok (repeat (ok_unit m) (nrows X)).

#[export] Instance ml : MLLibrary := {|
  estimator := float;
  scaler := unit;
  StandardScaler := tt;
  fit_transform _ X := Ok (tt, X);
  transform _ X := Ok X;
  RandomForestClassifier := 0.5%float;
  XGBClassifier := 0.5%float;
  LogisticRegression := 0.5%float;
  GradientBoostingClassifier := 0.5%float;
  Sequential _ := 0.5%float;
  fit _ _ y := Ok (positive_share y);
  fit_epochs _ _ y := Ok (positive_share y);
  predict_classes m X :=
    Ok (repeat (VInt (if PrimFloat.ltb 0.5 (ok_unit m) then 1 else 0)) (nrows X));
  predict_proba := score_rows;
  predict_flat := score_rows;
  train_test_split X y _ := Ok (mkSplit X X y y);
  mean_equal p y :=
    (count (List.filter (fun q => key_eqb q.1 q.2) (zip p (cells y))) / count p)%float;
  roc_auc_score _ _ := Ok 0.5%float;
  cross_val_score _ _ _ := Ok (0.5%float, 0%float);
  feature_importances _ := None;
  classification_report _ _ := Ok EmptyString;
  confusion_matrix _ _ := Ok [];
  frame_median X :=
    Ok (map (fun c => (c.1, middle (cells c.2)))
            (List.filter (fun c => is_number (sdtype c.2)) (columns X)));
  mlflow _ := Ok tt
|}.

End Reference.

(** A regressor that predicts the mean of the labels it was fitted on. *)
Module ReferenceRegression.
Import Reference.

Definition label_mean (y : Series) : float := fmean (cells y).

#[export] Instance regression : RegressionLibrary (H := ml) := {|
  regressor := float;
  RandomForestRegressor := 0%float;
  fit_regressor _ _ y := Ok (label_mean y);
  r2_score _ _ _ := Ok 0%float;
  predict_values m X := Ok (repeat m (nrows X));
  train_test_split_plain X y := Ok (mkSplit X X y y)
|}.

End ReferenceRegression.

(** The reference classifier with a tracking system that cannot close a
    run: every call into it returns but [end_run], which raises. *)
Module TrackingFailure.
Import Reference.

Definition tracker (call : string) : result unit :=
  if String.eqb call "end_run"
  then Raise (LibraryError "mlflow: the run could not be ended")
  else Ok tt.

Definition ml : MLLibrary := {|
  estimator := float;
  scaler := unit;
  StandardScaler := tt;
  fit_transform _ X := Ok (tt, X);
  transform _ X := Ok X;
  RandomForestClassifier := 0.5%float;
  XGBClassifier := 0.5%float;
  LogisticRegression := 0.5%float;
  GradientBoostingClassifier := 0.5%float;
  Sequential _ := 0.5%float;
  fit _ _ y := Ok (positive_share y);
  fit_epochs _ _ y := Ok (positive_share y);
  predict_classes m X :=
    Ok (repeat (VInt (if PrimFloat.ltb 0.5 (ok_unit m) then 1 else 0)) (nrows X));
  predict_proba := score_rows;
  predict_flat := score_rows;
  train_test_split X y _ := Ok (mkSplit X X y y);
  mean_equal p y :=
    (count (List.filter (fun q => key_eqb q.1 q.2) (zip p (cells y))) / count p)%float;
  roc_auc_score _ _ := Ok 0.5%float;
  cross_val_score _ _ _ := Ok (0.5%float, 0%float);
  feature_importances _ := None;
  classification_report _ _ := Ok EmptyString;
  confusion_matrix _ _ := Ok [];
  frame_median X :=
    Ok (map (fun c => (c.1, middle (cells c.2)))
            (List.filter (fun c => is_number (sdtype c.2)) (columns X)));
  mlflow := tracker
|}.

End TrackingFailure.

(** ** Reading the tables in statements *)

(** The cells of a column, none when the table has no such column. *)
Definition column_cells (df : DataFrame) (c : string) : list value :=
  match assoc c (columns df) with
  | Some s => cells s
  | None => []
  end.

(** The number of rows of a customer table for one customer id. *)
Definition rows_of_customer (df : DataFrame) (id : Z) : nat :=
  length (List.filter (key_eqb (VInt id)) (column_cells df "customer_id")).

(** The number of churn events of one customer id. *)
Definition events_of (db : Store) (id : Z) : nat :=
  length (List.filter (fun ch => ch_customer_id ch =? id) (churn_events db)).

(** Whether the WHERE clause of the customer query, if it has one, keeps
    a customer. *)
Definition selected (start_date end_date : option string) (c : customer) : bool :=
  if truthy start_date && truthy end_date then
    match Calendar.date_of_literal (default EmptyString start_date),
          Calendar.date_of_literal (default EmptyString end_date) with
    | Some lo, Some hi => signup_between lo hi (c, None)
    | _, _ => false
    end
  else true.

(** The rows of the customer query that come from one customer. *)
Definition due_block (db : Store) (start_date end_date : option string) (c : customer)
  : list joined :=
  if selected start_date end_date c then join_block (churn_events db) c else [].

(** Their number. *)
Definition rows_due (db : Store) (start_date end_date : option string) (c : customer) : nat :=
  if selected start_date end_date c then Nat.max 1 (events_of db (c_customer_id c)) else 0%nat.

(** The snapshot rows of one date, and of one customer on that date. *)
Definition snapshots_on (date : Z) (fs : list snapshot) : list snapshot :=
  List.filter (fun s => fs_feature_date s =? date) fs.

Definition snapshots_of (date : Z) (id : value) (fs : list snapshot) : list snapshot :=
  List.filter (fun s => key_eqb (fs_customer_id s) id) (snapshots_on date fs).

(** ** Statements about the transformer *)

(** The (column, function) pairs of the aggregation table, in the order of
    the columns of [usage_agg]. *)
Definition agg_pairs : list (string * aggfn) :=
  flat_map (fun cf => map (pair cf.1) cf.2) usage_agg_spec.

(** The column of a table under a name, empty when it has none. *)
Definition column_of (df : DataFrame) (c : string) : Series :=
  match assoc c (columns df) with
  | Some s => s
  | None => mkSeries object_ []
  end.

(** The numeric columns the aggregation reads. *)
Definition metric_columns : list string :=
  ["login_count"; "session_duration_minutes"; "features_used"; "support_tickets";
   "data_usage_gb"].

(** The three derived features of one row, as the column arithmetic of
    lines 113-127 computes them from the cells of that row. *)
Definition avg_session_per_login_of (session_mean login_mean : value) : value :=
  VFloat (Float.round4 (to_float session_mean / to_float (replace_0_1 login_mean))).

Definition support_ticket_rate_of (tickets_sum tenure_days : value) : value :=
  VFloat (Float.round4 (to_float tickets_sum / to_float (replace_0_1 tenure_days) * 30)).

Definition engagement_score_of (login_mean session_mean features_mean : value) : value :=
  VFloat (Float.round4 (to_float login_mean * 0.3
                        + to_float session_mean / 60 * 0.4
                        + to_float features_mean * 0.3)).

(** What lines 113-127 read and write: five columns of the table are
    read, and three columns are set, whose cells are the derived features of
    the rows. *)
Inductive derived (D0 D3 : DataFrame) : Prop :=
| derived_intro (session login tickets tenure features avg rate score : Series) :
    getitem D0 "session_duration_minutes_mean" = Ok session ->
    getitem D0 "login_count_mean" = Ok login ->
    getitem D0 "support_tickets_sum" = Ok tickets ->
    getitem D0 "tenure_days" = Ok tenure ->
    getitem D0 "features_used_mean" = Ok features ->
    D3 = setitem (setitem (setitem D0 "avg_session_per_login" avg)
                    "support_ticket_rate" rate)
           "engagement_score" score ->
    sdtype avg = float64 -> sdtype rate = float64 -> sdtype score = float64 ->
    (forall i s l,
        cells session !! i = Some s -> cells login !! i = Some l ->
        cells avg !! i = Some (avg_session_per_login_of s l)) ->
    (forall i t d,
        cells tickets !! i = Some t -> cells tenure !! i = Some d ->
        cells rate !! i = Some (support_ticket_rate_of t d)) ->
    (forall i l s f,
        cells login !! i = Some l -> cells session !! i = Some s ->
        cells features !! i = Some f ->
        cells score !! i = Some (engagement_score_of l s f)) ->
    derived D0 D3.

(** The specification's wording of the first ratio: the denominator is
    [max(login_count_mean, 1)]. *)
Definition float_max (a b : float) : float := if PrimFloat.ltb a b then b else a.

Definition avg_session_per_login_spec (session_mean login_mean : value) : value :=
  VFloat (Float.round4 (to_float session_mean / float_max (to_float login_mean) 1)).

(** The last character of a string. *)
Fixpoint last_ascii (s : string) : ascii :=
  match s with
  | EmptyString => Ascii.zero
  | String a EmptyString => a
  | String _ s' => last_ascii s'
  end.

(** ** Statements about the predictor *)

Definition known_model_types : list string :=
  ["random_forest"; "xgboost"; "logistic_regression"; "gradient_boosting"; "neural_network"].

Definition not_trained_error : exn :=
  ValueError "Model must be trained before making predictions".

Section PredictorStatements.
Context `{MLLibrary}.

(** The contract of the library's scorers on which the range of a
    prediction rests: [predict_proba] and the output of the network are one
    probability for each row of the table they are given, and the scaler
    keeps the rows. [predict] neither checks nor clips what they return. *)
Definition scoring_contract : Prop :=
  (forall m X ps,
     predict_proba m X = Ok ps ->
     length ps = nrows X /\ Forall (fun p => Float.in_unit p = true) ps)
  /\ (forall m X ps,
        predict_flat m X = Ok ps ->
        length ps = nrows X /\ Forall (fun p => Float.in_unit p = true) ps)
  /\ (forall s X X', transform s X = Ok X' -> nrows X' = nrows X).

(** [e] is an exception of one of the two reports of lines 218-219. *)
Definition report_raises (e : exn) : Prop :=
  exists y p, classification_report y p = Raise e \/ confusion_matrix y p = Raise e.

(** The instances on which neither [train] nor [load_model] has returned:
    a new instance, and what the other calls and the calls that raised make
    of it. *)
Inductive untrained : ChurnPredictor -> Prop :=
| untrained_init t self :
    init t = Ok self -> untrained self
| untrained_prepare_features self df self' r :
    untrained self -> prepare_features df self = (self', r) -> untrained self'
| untrained_create_model self self' r :
    untrained self -> create_model self = (self', r) -> untrained self'
| untrained_train_raised self df test_size self' e :
    untrained self -> train df test_size self = (self', Raise e) -> untrained self'
| untrained_load_raised self filepath disk self' e :
    untrained self -> load_model filepath disk self = (self', Raise e) -> untrained self'.

(** A method keeps the two fields [model_type] and [is_trained]. *)
Definition same_flags (self self' : ChurnPredictor) : Prop :=
  is_trained self' = is_trained self /\ model_type self' = model_type self.

Definition preserves {A} (m : method A) : Prop :=
  forall self self' r, m self = (self', r) -> same_flags self self'.

(** A method that raises keeps the two fields, unless it has marked the
    instance trained and then raises an exception in [E]. *)
Definition raises_marked (E : exn -> Prop) {A} (m : method A) : Prop :=
  forall self self' e, m self = (self', Raise e) ->
    same_flags self self'
    \/ (is_trained self' = true /\ model_type self' = model_type self /\ E e).

(** A method keeps the instance in [Q], whatever its outcome. *)
Definition invariant {A} (Q : ChurnPredictor -> Prop) (m : method A) : Prop :=
  forall self self' r, Q self -> m self = (self', r) -> Q self'.

(** A method that returns leaves the instance in [Q]. *)
Definition ensures {A} (m : method A) (Q : ChurnPredictor -> Prop) : Prop :=
  forall self self' a, m self = (self', Ok a) -> Q self'.

(** A method that never returns from an instance in [P], and keeps the
    two fields. *)
Definition never_returns {A} (P : ChurnPredictor -> Prop) (m : method A) : Prop :=
  forall self self' r, P self -> m self = (self', r) ->
    (exists e, r = Raise e) /\ same_flags self self'.

End PredictorStatements.

(** ** The pipeline *)

Section Pipeline.
Context `{Pandas}.

(** [ChurnETLPipeline.run_etl_pipeline]; [now] and [current_date] are the
    two readings of the clock. The two extracts are new tables. *)
Definition run_etl_pipeline (now current_date : Z) (db : Store)
  : result (Store * DataFrame) :=
  customer_df ← extract_customer_data None None db;
  let usage_df := extract_usage_data None db in
  let h : heap := <[1%nat := usage_df]> (<[0%nat := customer_df]> ∅) in
  features_df ← (transform_features now 0%nat 1%nat h).2;
  db ← load_features current_date features_df db;
  Ok (db, features_df).

End Pipeline.

(** ** The training endpoint *)

(** What the handler catches: an exception of the pipeline or of a model,
    or the AttributeError of a method the object does not have. *)
Inductive app_exn : Type :=
| Raised (e : exn)
| AttributeError (msg : string).

Section TrainingEndpoint.
Context `{Pandas} `{RegressionLibrary}.

(** The two module-level models of [app.py], the database and the files
    of the [models] directory. *)
Record App : Type := mkApp {
  app_db : Store;
  churn_model : option ChurnPredictor;
  clv_model : option Lifetime.LifetimeValuePredictor;
  app_disk : gmap string model_data
}.

(** The [results] dictionary of [train_models]. *)
Record train_results : Type := mkTrainResults {
  churn_results : option results;
  clv_results : option (float * float)
}.

(** The answer of [POST /api/train]: status success with the results, or
    status error and code 500 with the exception caught. *)
Inductive train_response : Type :=
| TrainSuccess (r : train_results)
| TrainError (e : app_exn).

(** Lines 72-78: the churn model, when there is one. *)
Definition train_churn (features_df : DataFrame) (a : App) : App * result (option results) :=
  match churn_model a with
  | None => (a, Ok None)
  | Some m =>
      match train features_df 0.2 m with
      | (m, Raise e) => (mkApp (app_db a) (Some m) (clv_model a) (app_disk a), Raise e)
      | (m, Ok churn_results) =>
          match save_model m "models/churn_model.joblib" (app_disk a) with
          | Raise e => (mkApp (app_db a) (Some m) (clv_model a) (app_disk a), Raise e)
          | Ok disk => (mkApp (app_db a) (Some m) (clv_model a) disk, Ok (Some churn_results))
          end
      end
  end.

(** [train_models] of [app.py]; [now] and [current_date] are the clock
    readings of the pipeline. [LifetimeValuePredictor] has no [save_model]:
    the call on line 86 is an AttributeError. Making the directory and
    serialising the answer are taken to succeed. *)
Definition train_models (now current_date : Z) (a : App) : App * train_response :=
  match run_etl_pipeline now current_date (app_db a) with
  | Raise e => (a, TrainError (Raised e))
  | Ok (db, features_df) =>
      let a := mkApp db (churn_model a) (clv_model a) (app_disk a) in
      match train_churn features_df a with
      | (a, Raise e) => (a, TrainError (Raised e))
      | (a, Ok churn_results) =>
          match clv_model a with
          | Some m =>
              if has_column features_df "total_charges" then
                match Lifetime.train features_df m with
                | (m, Raise e) =>
                    (mkApp (app_db a) (churn_model a) (Some m) (app_disk a),
                     TrainError (Raised e))
                | (m, Ok _) =>
                    (mkApp (app_db a) (churn_model a) (Some m) (app_disk a),
                     TrainError (AttributeError
                       "'LifetimeValuePredictor' object has no attribute 'save_model'"))
                end
              else (a, TrainSuccess (mkTrainResults churn_results None))
          | None => (a, TrainSuccess (mkTrainResults churn_results None))
          end
      end
  end.

End TrainingEndpoint.

(** ** Example data *)

Module Examples.
Import Reference.

Definition a_customer (id : Z) (signup : option Z) (gender : string) : customer :=
  mkCustomer id (VStr "C") signup (VInt 30) (VStr gender) (VStr "NY") (VStr "basic")
             (VFloat 10) (VFloat 100) (VInt 12) (VStr "card") (VBool true).

(** Customer 1 has usage, customer 2 has two churn events, customer 3 has
    neither and no signup date. *)
Definition store : Store :=
  mkStore
    [a_customer 1 (Some 19000) "F"; a_customer 2 (Some 19500) "M"; a_customer 3 None "F"]
    [mkChurn 2 (VDate 19600) (VStr "price"); mkChurn 2 (VDate 19700) (VStr "again")]
    [mkUsage 1 19100 (VInt 10) (VFloat 30) (VInt 5) (VInt 1) (VFloat 2.5);
     mkUsage 1 19101 (VInt 10) (VFloat 30) (VInt 5) (VInt 0) (VFloat 3.5);
     mkUsage 2 19101 (VInt 0) (VFloat 12) (VInt 2) (VInt 3) (VFloat 1.25)]
    [].

(** The store without the second churn event. *)
Definition store1 : Store :=
  mkStore (customers store) [mkChurn 2 (VDate 19600) (VStr "price")]
          (usage_metrics store) [].

Definition customer_df : DataFrame :=
  frame_of_records customer_fields (left_join (customers store) (churn_events store)).

Definition customer_df1 : DataFrame :=
  frame_of_records customer_fields (left_join (customers store1) (churn_events store1)).

Definition usage_df : DataFrame := extract_usage_data None store.

(** Day 20000, five nanoseconds after midnight. *)
Definition now : Z := 20000 * ns_per_day + 5.
Definition today : Z := 20000.

Definition objects : heap := <[1%nat := usage_df]> (<[0%nat := customer_df1]> ∅).

Definition features_df : DataFrame :=
  match (transform_features now 0%nat 1%nat objects).2 with
  | Ok df => df
  | Raise _ => mkDF 0 []
  end.

(** The same from the store with both churn events: customer 2 twice. *)
Definition objects2 : heap := <[1%nat := usage_df]> (<[0%nat := customer_df]> ∅).

Definition features_df2 : DataFrame :=
  match (transform_features now 0%nat 1%nat objects2).2 with
  | Ok df => df
  | Raise _ => mkDF 0 []
  end.

(** The store after loading the features of [store1]. *)
Definition loaded : Store :=
  match load_features today features_df store1 with
  | Ok db => db
  | Raise _ => store1
  end.

(** A customer who logged in once in two periods of ten minutes each:
    [login_count] has mean 0.5 and [session_duration_minutes] mean 10. *)
Definition store_half : Store :=
  mkStore [a_customer 7 (Some 19000) "F"] []
          [mkUsage 7 19100 (VInt 0) (VFloat 10) (VInt 1) (VInt 0) (VFloat 1);
           mkUsage 7 19101 (VInt 1) (VFloat 10) (VInt 1) (VInt 0) (VFloat 1)]
          [].

Definition objects_half : heap :=
  <[1%nat := extract_usage_data None store_half]>
    (<[0%nat := frame_of_records customer_fields
                  (left_join (customers store_half) (churn_events store_half))]> ∅).

Definition features_half : DataFrame :=
  match (transform_features now 0%nat 1%nat objects_half).2 with
  | Ok df => df
  | Raise _ => mkDF 0 []
  end.

(** The aggregates of the example usage table. *)
Definition usage_agg : DataFrame :=
  match aggregate_usage usage_df with
  | Ok df => df
  | Raise _ => mkDF 0 []
  end.

(** A new predictor, and the same after training on the features. *)
Definition fresh (model_type : string) : ChurnPredictor :=
  mkPredictor model_type None StandardScaler None false.

Definition trained : ChurnPredictor := (train features_df 0.2 (fresh "random_forest")).1.

(** The features without the column [age]. *)
Definition features_without_age : DataFrame :=
  mkDF (nrows features_df)
       (List.filter (fun c => negb (String.eqb c.1 "age")) (columns features_df)).

End Examples.

(** A new instance over the library whose tracking run cannot be closed,
    and what a [train] on the example features leaves of it. *)
Module FailedTrain.

Definition new : ChurnPredictor (H := TrackingFailure.ml) :=
  mkPredictor (H := TrackingFailure.ml) "random_forest" None tt None false.

Definition marked : ChurnPredictor (H := TrackingFailure.ml) :=
  (train (H := TrackingFailure.ml) Examples.features_df 0.2 new).1.

End FailedTrain.

(** The columns [load_features] reads with [row[...]]. *)
Definition required_feature_columns : list string :=
  ["customer_id"; "tenure_days"; "support_ticket_rate"; "engagement_score"; "total_charges"].

(** The row of the right keys that left row [i] matches, when there is one. *)
Definition matched (lk rk : list value) (i : nat) : option nat :=
  head (List.filter (fun j => key_eqb (default VNull (lk !! i)) (default VNull (rk !! j)))
          (seq 0 (length rk))).

(** * Properties *)

(** ** Results *)

Lemma bind_Ok {A B} (m : result A) (f : A -> result B) (b : B) :
  m ≫= f = Ok b -> exists a, m = Ok a /\ f a = Ok b.
Proof. destruct m as [a|e]; [eauto | discriminate]. Qed.

Lemma fmap_Ok {A B} (m : result A) (f : A -> B) (b : B) :
  f <$> m = Ok b -> exists a, m = Ok a /\ b = f a.
Proof. destruct m as [a|e]; simpl; [|discriminate]. intros [= <-]. eauto. Qed.

Lemma traverse_Ok_length {A B} (f : A -> result B) l l' :
  traverse f l = Ok l' -> length l' = length l.
Proof.
  revert l'. induction l as [|x l IH]; intros l'; simpl.
  - intros [= <-]. reflexivity.
  - destruct (f x) as [y|]; [|discriminate]. simpl.
    destruct (traverse f l) as [ys|]; [|discriminate]. simpl.
    intros [= <-]. simpl. f_equal. eauto.
Qed.

(** ** Inferred columns *)

Lemma infer_series_ints (zs : list Z) : cells (infer_series (map VInt zs)) = map VInt zs.
Proof.
  unfold infer_series.
  assert (Hd : infer_dtype (map VInt zs) = int64 \/ infer_dtype (map VInt zs) = object_).
  { unfold infer_dtype. destruct zs as [|z zs]; [right; reflexivity|left].
    assert (Hp : forall l, List.filter (fun v => negb (isna v)) (map VInt l) = map VInt l).
    { induction l; simpl; congruence. }
    rewrite Hp. cbn [map].
    assert (Hall : forall l, forallb (fun v => match v with VInt _ => true | _ => false end)
                               (map VInt l) = true).
    { induction l; simpl; auto. }
    assert (Hna : forall l, forallb (fun v => negb (isna v)) (map VInt l) = true).
    { induction l; simpl; auto. }
    change (VInt z :: map VInt zs) with (map VInt (z :: zs)).
    rewrite Hall, Hna. reflexivity. }
  destruct Hd as [-> | ->]; reflexivity.
Qed.

Lemma infer_series_ints_map {A} (f : A -> Z) (l : list A) :
  cells (infer_series (map (fun a => VInt (f a)) l)) = map (fun a => VInt (f a)) l.
Proof. rewrite <- (List.map_map f VInt l). apply infer_series_ints. Qed.

(** ** Data extractor *)

Lemma customer_id_cells (js : list joined) :
  column_cells (frame_of_records customer_fields js) "customer_id"
  = map (fun j => VInt (c_customer_id j.1)) js.
Proof.
  unfold column_cells, frame_of_records. simpl.
  apply (infer_series_ints_map (fun j : joined => c_customer_id j.1)).
Qed.

Lemma churned_cells (js : list joined) :
  column_cells (frame_of_records customer_fields js) "churned"
  = map (fun j => VInt (churned_of j)) js.
Proof.
  unfold column_cells, frame_of_records. simpl.
  apply (infer_series_ints_map churned_of).
Qed.

Lemma cell_column_cells df c i : cell df c i = column_cells df c !! i.
Proof.
  unfold cell, column_cells. destruct (assoc c (columns df)); reflexivity.
Qed.

Lemma join_block_customer chs c j : In j (join_block chs c) -> j.1 = c.
Proof.
  unfold join_block.
  destruct (List.filter _ chs) as [|m ms]; simpl.
  - intros [<-|[]]. reflexivity.
  - intros [<-|Hin]; [reflexivity|].
    apply in_map_iff in Hin as (ch & <- & _). reflexivity.
Qed.

Lemma join_block_length chs c :
  length (join_block chs c)
  = Nat.max 1 (length (List.filter (fun ch => ch_customer_id ch =? c_customer_id c) chs)).
Proof.
  unfold join_block.
  destruct (List.filter _ chs) as [|m ms]; simpl; [reflexivity|].
  rewrite length_map. reflexivity.
Qed.

Lemma join_block_churned chs c j :
  In j (join_block chs c) ->
  (churned_of j = 1 <-> exists ch, In ch chs /\ ch_customer_id ch = c_customer_id c)
  /\ (churned_of j = 1 \/ churned_of j = 0).
Proof.
  unfold join_block.
  destruct (List.filter _ chs) as [|m ms] eqn:Hf; simpl.
  - intros [<-|[]]. split; [|right; reflexivity]. split; [discriminate|].
    intros (ch & Hin & Hid).
    assert (Hm : In ch (List.filter (fun ch => ch_customer_id ch =? c_customer_id c) chs)).
    { apply filter_In. split; [assumption|]. apply Z.eqb_eq. assumption. }
    rewrite Hf in Hm. destruct Hm.
  - intros Hj.
    assert (Hj' : exists ch, j = (c, Some ch)).
    { destruct Hj as [<-|Hj]; [eauto|].
      apply in_map_iff in Hj as (ch & <- & _). eauto. }
    destruct Hj' as (ch & ->). split; [|left; reflexivity].
    split; [intros _|reflexivity].
    exists m. assert (Hm : In m (List.filter (fun ch => ch_customer_id ch =? c_customer_id c) chs))
      by (rewrite Hf; left; reflexivity).
    apply filter_In in Hm as [Hin Hid]. apply Z.eqb_eq in Hid. eauto.
Qed.

Lemma filter_join_block P chs c :
  (forall j, j.1 = c -> P j = P (c, None)) ->
  List.filter P (join_block chs c) = if P (c, None) then join_block chs c else [].
Proof.
  intros HP.
  assert (Hall : forall l, (forall j, In j l -> j.1 = c) ->
                           List.filter P l = if P (c, None) then l else []).
  { induction l as [|j l IH]; intros Hl; simpl.
    - destruct (P (c, None)); reflexivity.
    - rewrite (HP j) by (apply Hl; left; reflexivity).
      rewrite IH by (intros; apply Hl; right; assumption).
      destruct (P (c, None)); reflexivity. }
  apply Hall. intros j. apply join_block_customer.
Qed.

Lemma filter_flat_map {A B} (P : B -> bool) (f : A -> list B) l :
  List.filter P (flat_map f l) = flat_map (fun a => List.filter P (f a)) l.
Proof.
  induction l as [|a l IH]; simpl; [reflexivity|].
  rewrite List.filter_app, IH. reflexivity.
Qed.

Lemma extract_customer_rows_blocks s e db js :
  extract_customer_rows s e db = Ok js ->
  js = flat_map (due_block db s e) (customers db).
Proof.
  unfold extract_customer_rows, run_customer_query, due_block, selected.
  destruct (truthy s && truthy e); simpl.
  - destruct (Calendar.date_of_literal (default EmptyString s)) as [lo|]; [|discriminate].
    destruct (Calendar.date_of_literal (default EmptyString e)) as [hi|]; [|discriminate].
    intros [= <-]. unfold left_join. rewrite filter_flat_map.
    apply flat_map_ext. intros c. apply filter_join_block.
    intros j Hj. unfold signup_between. rewrite Hj. reflexivity.
  - intros [= <-]. reflexivity.
Qed.

Lemma due_block_length db s e c : length (due_block db s e c) = rows_due db s e c.
Proof.
  unfold due_block, rows_due, events_of.
  destruct (selected s e c); [apply join_block_length | reflexivity].
Qed.

Lemma due_block_customer db s e c j : In j (due_block db s e c) -> j.1 = c.
Proof.
  unfold due_block. destruct (selected s e c); [apply join_block_customer | intros []].
Qed.

Lemma count_ids_block (id : Z) (c : customer) (l : list joined) :
  (forall j, In j l -> j.1 = c) ->
  length (List.filter (key_eqb (VInt id)) (map (fun j => VInt (c_customer_id j.1)) l))
  = if c_customer_id c =? id then length l else 0%nat.
Proof.
  induction l as [|j l IH]; intros Hl; simpl.
  - destruct (_ =? _); reflexivity.
  - rewrite (Hl j) by (left; reflexivity).
    rewrite (Z.eqb_sym id). specialize (IH (fun j H => Hl j (or_intror H))).
    destruct (c_customer_id c =? id); simpl; rewrite IH; reflexivity.
Qed.

Lemma count_ids_blocks (id : Z) (f : customer -> list joined) (cs : list customer) :
  (forall c j, In j (f c) -> j.1 = c) ->
  length (List.filter (key_eqb (VInt id))
            (map (fun j => VInt (c_customer_id j.1)) (flat_map f cs)))
  = list_sum (map (fun c => if c_customer_id c =? id then length (f c) else 0%nat) cs).
Proof.
  intros Hf. induction cs as [|c cs IH]; [reflexivity|].
  cbn [flat_map map list_sum].
  rewrite List.map_app, List.filter_app, List.length_app, IH.
  rewrite (count_ids_block id c) by (apply Hf). reflexivity.
Qed.

Lemma one_row_when_unique (id : Z) (g : customer -> nat) (cs : list customer) :
  NoDup (map c_customer_id cs) ->
  (forall c, In c cs -> g c = 1%nat) ->
  (exists c, In c cs /\ c_customer_id c = id) ->
  list_sum (map (fun c => if c_customer_id c =? id then g c else 0%nat) cs) = 1%nat.
Proof.
  induction cs as [|c cs IH]; simpl; intros Hnd Hg (c0 & Hin & Hid); [destruct Hin|].
  apply NoDup_cons in Hnd as [Hnotin Hnd].
  assert (Hzero : forall l, ~ In id (map c_customer_id l) ->
            list_sum (map (fun c => if c_customer_id c =? id then g c else 0%nat) l) = 0%nat).
  { induction l as [|a l IHl]; simpl; intros Hn; [reflexivity|].
    destruct (Z.eqb_spec (c_customer_id a) id) as [Heq|Hne]; [tauto|].
    apply IHl. tauto. }
  destruct (Z.eqb_spec (c_customer_id c) id) as [Heq|Hne].
  - rewrite Hg by (left; reflexivity). rewrite Hzero; [reflexivity|].
    rewrite <- Heq. intros Hc. apply Hnotin. apply list_elem_of_In. exact Hc.
  - destruct Hin as [->|Hin]; [contradiction|].
    simpl. apply IH; eauto.
Qed.

(** C9. When only one of [start_date] and [end_date] is given, the WHERE
    clause is not appended: the result is the result of the call with
    neither, which is the whole join. *)
Theorem extract_customer_data_one_bound (db : Store) (d : string) :
  extract_customer_data (Some d) None db = extract_customer_data None None db
  /\ extract_customer_data None (Some d) db = extract_customer_data None None db
  /\ extract_customer_data None None db
     = Ok (frame_of_records customer_fields (left_join (customers db) (churn_events db))).
Proof.
  unfold extract_customer_data, extract_customer_rows.
  cbn [truthy]. rewrite andb_false_r. cbn [andb]. repeat split; reflexivity.
Qed.

(** C1, as the code has it. The extract has, for each customer the WHERE
    clause keeps (every customer when a bound is missing), one row per churn
    event of that customer, or one row when it has none; in every row
    [churned] is 1 if a churn event has the row's customer id and 0
    otherwise. Without a filter, with distinct customer ids and at most one
    churn event per customer, that is exactly one row per customer. *)
Theorem extract_customer_data_rows (start_date end_date : option string) (db : Store)
    (df : DataFrame) :
  extract_customer_data start_date end_date db = Ok df ->
  (forall id,
      rows_of_customer df id
      = list_sum (map (fun c => if c_customer_id c =? id
                                then rows_due db start_date end_date c else 0%nat)
                      (customers db)))
  /\ (forall i, (i < nrows df)%nat ->
        exists id, cell df "customer_id" i = Some (VInt id)
          /\ (cell df "churned" i = Some (VInt 1)
              <-> exists ch, In ch (churn_events db) /\ ch_customer_id ch = id)
          /\ (cell df "churned" i = Some (VInt 1) \/ cell df "churned" i = Some (VInt 0)))
  /\ (truthy start_date && truthy end_date = false ->
      NoDup (map c_customer_id (customers db)) ->
      (forall c, In c (customers db) -> (events_of db (c_customer_id c) <= 1)%nat) ->
      forall c, In c (customers db) -> rows_of_customer df (c_customer_id c) = 1%nat).
Proof.
  unfold extract_customer_data. intros Hex.
  apply fmap_Ok in Hex as (js & Hrows & ->).
  apply extract_customer_rows_blocks in Hrows.
  assert (Hcount : forall id,
    rows_of_customer (frame_of_records customer_fields js) id
    = list_sum (map (fun c => if c_customer_id c =? id
                              then rows_due db start_date end_date c else 0%nat)
                    (customers db))).
  { intros id. unfold rows_of_customer. rewrite customer_id_cells, Hrows.
    rewrite count_ids_blocks by (apply due_block_customer).
    f_equal. apply map_ext. intros c. rewrite due_block_length. reflexivity. }
  split; [exact Hcount|]. split.
  - intros i Hi. change (nrows (frame_of_records customer_fields js)) with (length js) in Hi.
    destruct (lookup_lt_is_Some_2 js i Hi) as [j Hj].
    exists (c_customer_id j.1).
    rewrite !cell_column_cells, customer_id_cells, churned_cells.
    rewrite !list_lookup_fmap, Hj. simpl.
    assert (Hin : In j (join_block (churn_events db) j.1)).
    { apply list_elem_of_lookup_2, list_elem_of_In in Hj. rewrite Hrows in Hj.
      apply in_flat_map in Hj as (c & _ & Hc).
      pose proof (due_block_customer _ _ _ _ _ Hc) as ->.
      unfold due_block in Hc. destruct (selected _ _ _); [exact Hc | destruct Hc]. }
    destruct (join_block_churned _ _ _ Hin) as [Hiff Hor].
    split; [reflexivity|]. split.
    + rewrite <- Hiff. split; [intros [= ->]; reflexivity | intros ->; reflexivity].
    + destruct Hor as [-> | ->]; [left | right]; reflexivity.
  - intros Hnof Hnd Hone c Hc. rewrite Hcount.
    apply one_row_when_unique; [assumption| |eauto].
    intros c' Hc'. unfold rows_due, selected. rewrite Hnof.
    specialize (Hone c' Hc'). lia.
Qed.

(** The theorem [extract_customer_data_rows] at the example store without
    a filter: customer 2 has two rows. *)
Lemma extract_customer_data_rows_witness :
  extract_customer_data None None Examples.store = Ok Examples.customer_df
  /\ rows_of_customer Examples.customer_df 2 = 2%nat.
Proof.
  split; [reflexivity|].
  destruct (extract_customer_data_rows None None Examples.store Examples.customer_df
              eq_refl) as [Hcount _].
  rewrite Hcount. reflexivity.
Defined.

(** C1 as stated fails: with two churn events for customer 2, the extract
    does not have exactly one row per customer. *)
Lemma extract_customer_data_not_one_row :
  ~ (forall df, extract_customer_data None None Examples.store = Ok df ->
       forall c, In c (customers Examples.store) ->
         rows_of_customer df (c_customer_id c) = 1%nat).
Proof.
  intros Hclaim.
  specialize (Hclaim Examples.customer_df eq_refl (Examples.a_customer 2 (Some 19500) "M")).
  assert (Hin : In (Examples.a_customer 2 (Some 19500) "M") (customers Examples.store))
    by (right; left; reflexivity).
  specialize (Hclaim Hin). vm_compute in Hclaim. discriminate.
Qed.

(** ** Feature store writer *)

Lemma traverse_count {A B} (f : A -> result B) (P : B -> bool) (Q : A -> bool) l l' :
  (forall x y, f x = Ok y -> P y = Q x) ->
  traverse f l = Ok l' ->
  length (List.filter P l') = length (List.filter Q l).
Proof.
  intros HPQ. revert l'. induction l as [|x l IH]; intros l'; simpl.
  - intros [= <-]. reflexivity.
  - destruct (f x) as [y|] eqn:Hx; [|discriminate]. simpl.
    destruct (traverse f l) as [ys|]; [|discriminate]. simpl.
    intros [= <-]. simpl. rewrite (HPQ x y Hx).
    destruct (Q x); simpl; rewrite (IH ys eq_refl); reflexivity.
Qed.

Lemma traverse_Forall {A B} (f : A -> result B) (P : B -> Prop) l l' :
  (forall x y, f x = Ok y -> P y) ->
  traverse f l = Ok l' -> Forall P l'.
Proof.
  intros HP. revert l'. induction l as [|x l IH]; intros l'; simpl.
  - intros [= <-]. constructor.
  - destruct (f x) as [y|] eqn:Hx; [|discriminate]. simpl.
    destruct (traverse f l) as [ys|]; [|discriminate]. simpl.
    intros [= <-]. constructor; eauto.
Qed.

Lemma row_getitem_get r k v : row_getitem r k = Ok v -> row_get r k VNull = v.
Proof.
  unfold row_getitem, row_get. destruct (assoc k r); [|discriminate].
  intros [= <-]. reflexivity.
Qed.

Lemma feature_record_keys date r s :
  feature_record date r = Ok s ->
  fs_feature_date s = date /\ fs_customer_id s = row_get r "customer_id" VNull.
Proof.
  unfold feature_record. intros Hs.
  apply bind_Ok in Hs as (cid & Hcid & Hs).
  apply bind_Ok in Hs as (tenure & _ & Hs).
  apply bind_Ok in Hs as (rate & _ & Hs).
  apply bind_Ok in Hs as (adoption & _ & Hs).
  apply bind_Ok in Hs as (eng & _ & Hs).
  apply bind_Ok in Hs as (ltv & _ & Hs).
  injection Hs as <-. simpl. split; [reflexivity|].
  symmetry. apply row_getitem_get. exact Hcid.
Qed.

Lemma filter_all {A} (P : A -> bool) l : Forall (fun x => P x = true) l -> List.filter P l = l.
Proof. induction 1 as [|x l Hx _ IH]; simpl; [reflexivity|]. rewrite Hx, IH. reflexivity. Qed.

Lemma filter_none {A} (P : A -> bool) l : Forall (fun x => P x = false) l -> List.filter P l = [].
Proof. induction 1 as [|x l Hx _ IH]; simpl; [reflexivity|]. rewrite Hx, IH. reflexivity. Qed.

Lemma filter_filter_neg {A} (P : A -> bool) l :
  List.filter P (List.filter (fun x => negb (P x)) l) = [].
Proof.
  apply filter_none. apply List.Forall_forall. intros x Hx.
  apply filter_In in Hx as [_ Hx]. destruct (P x); [discriminate | reflexivity].
Qed.

Lemma filter_idem {A} (P : A -> bool) l : List.filter P (List.filter P l) = List.filter P l.
Proof.
  apply filter_all. apply List.Forall_forall. intros x Hx.
  apply filter_In in Hx as [_ Hx]. exact Hx.
Qed.

Lemma iterrows_length df : length (iterrows df) = nrows df.
Proof. unfold iterrows. rewrite length_map, length_seq. reflexivity. Qed.

(** What one call leaves in the store. *)
Lemma load_features_store date df db db' :
  load_features date df db = Ok db' ->
  exists records,
    traverse (feature_record date) (iterrows df) = Ok records
    /\ feature_store db' = delete_snapshots date (feature_store db) ++ records
    /\ snapshots_on date (feature_store db') = records
    /\ length records = nrows df
    /\ customers db' = customers db /\ churn_events db' = churn_events db
    /\ usage_metrics db' = usage_metrics db.
Proof.
  unfold load_features. intros Hload.
  apply bind_Ok in Hload as (records & Htr & Hload). injection Hload as <-.
  exists records. simpl. repeat split; try reflexivity; try assumption.
  - unfold snapshots_on, delete_snapshots.
    rewrite List.filter_app, filter_filter_neg. simpl.
    apply filter_all. eapply traverse_Forall; [|exact Htr].
    intros r s Hs. apply feature_record_keys in Hs as [-> _]. apply Z.eqb_refl.
  - rewrite (traverse_Ok_length _ _ _ Htr). apply iterrows_length.
Qed.

(** C3, as the code has it. After a call that returns, the snapshot rows
    of the call's date are exactly the records built from the input, one
    per input row, and the rows of other dates are as before; a customer id
    has as many snapshot rows for the date as the input has rows with that
    id, so at most one when the input has at most one. A second call on the
    same date leaves the row count of its own input. *)
Theorem load_features_replaces (date : Z) (df : DataFrame) (db db' : Store) :
  load_features date df db = Ok db' ->
  (exists records,
      traverse (feature_record date) (iterrows df) = Ok records
      /\ snapshots_on date (feature_store db') = records)
  /\ length (snapshots_on date (feature_store db')) = nrows df
  /\ delete_snapshots date (feature_store db') = delete_snapshots date (feature_store db)
  /\ (forall id,
        length (snapshots_of date id (feature_store db'))
        = length (List.filter (fun r => key_eqb (row_get r "customer_id" VNull) id)
                              (iterrows df)))
  /\ (forall df2 db'',
        load_features date df2 db' = Ok db'' ->
        length (snapshots_on date (feature_store db'')) = nrows df2).
Proof.
  intros Hload.
  destruct (load_features_store _ _ _ _ Hload) as (records & Htr & Hfs & Hon & Hlen & _).
  split; [eauto|]. split; [rewrite Hon; exact Hlen|]. split; [|split].
  - rewrite Hfs. unfold delete_snapshots.
    rewrite List.filter_app, filter_idem.
    rewrite (filter_none _ records); [apply app_nil_r|].
    eapply traverse_Forall; [|exact Htr].
    intros r s Hs. apply feature_record_keys in Hs as [-> _].
    rewrite Z.eqb_refl. reflexivity.
  - intros id. unfold snapshots_of. rewrite Hon.
    eapply traverse_count; [|exact Htr].
    intros r s Hs. apply feature_record_keys in Hs as [_ ->]. reflexivity.
  - intros df2 db'' Hload2.
    destruct (load_features_store _ _ _ _ Hload2) as (records2 & _ & _ & Hon2 & Hlen2 & _).
    rewrite Hon2. exact Hlen2.
Qed.

(** The theorem [load_features_replaces] at the example features: three
    customers, three snapshot rows for the day. *)
Lemma load_features_replaces_witness :
  load_features Examples.today Examples.features_df Examples.store1 = Ok Examples.loaded
  /\ length (snapshots_on Examples.today (feature_store Examples.loaded)) = 3%nat.
Proof.
  assert (Hload : load_features Examples.today Examples.features_df Examples.store1
                  = Ok Examples.loaded) by (vm_compute; reflexivity).
  split; [exact Hload|].
  destruct (load_features_replaces _ _ _ _ Hload) as (_ & Hlen & _).
  rewrite Hlen. vm_compute. reflexivity.
Defined.

(** C3 as stated fails: the features of a customer with two churn events
    have two rows, and both are written as snapshots of the day. *)
Lemma load_features_two_snapshots :
  ~ (forall db',
       load_features Examples.today Examples.features_df2 Examples.store = Ok db' ->
       forall id, (length (snapshots_of Examples.today id (feature_store db')) <= 1)%nat).
Proof.
  intros Hclaim.
  assert (Hex : exists db',
             load_features Examples.today Examples.features_df2 Examples.store = Ok db'
             /\ length (snapshots_of Examples.today (VInt 2) (feature_store db')) = 2%nat)
    by (eexists; split; [vm_compute; reflexivity | vm_compute; reflexivity]).
  destruct Hex as (db' & Hload & Hlen).
  specialize (Hclaim db' Hload (VInt 2)). lia.
Qed.

(** ** Churn predictor: what a method does to the instance *)

Section MethodRules.
Context `{MLLibrary}.

Lemma same_flags_refl self : same_flags self self.
Proof. split; reflexivity. Qed.

Lemma same_flags_trans a b c : same_flags a b -> same_flags b c -> same_flags a c.
Proof. unfold same_flags. intros [-> ->] [-> ->]. split; reflexivity. Qed.

Lemma bind_inv {A B} (m : method A) (k : A -> method B) self self' r :
  bind m k self = (self', r) ->
  (exists e, m self = (self', Raise e) /\ r = Raise e)
  \/ (exists s a, m self = (s, Ok a) /\ k a s = (self', r)).
Proof.
  unfold bind. destruct (m self) as [s [a|e]].
  - intros Hk. right. eauto.
  - intros [= <- <-]. left. eauto.
Qed.

Lemma preserves_ret {A} (a : A) : preserves (ret a).
Proof. intros self self' r [= <- _]. apply same_flags_refl. Qed.

Lemma preserves_raise {A} (e : exn) : preserves (raise (A := A) e).
Proof. intros self self' r [= <- _]. apply same_flags_refl. Qed.

Lemma preserves_lift {A} (x : result A) : preserves (lift x).
Proof. intros self self' r [= <- _]. apply same_flags_refl. Qed.

Lemma preserves_get {A} (f : ChurnPredictor -> A) : preserves (get f).
Proof. intros self self' r [= <- _]. apply same_flags_refl. Qed.

Lemma preserves_update f : (forall self, same_flags self (f self)) -> preserves (update f).
Proof. intros Hf self self' r [= <- _]. apply Hf. Qed.

Lemma preserves_bind {A B} (m : method A) (k : A -> method B) :
  preserves m -> (forall a, preserves (k a)) -> preserves (bind m k).
Proof.
  intros Hm Hk self self' r Hb.
  apply bind_inv in Hb as [(e & Hms & _) | (s & a & Hms & Hks)].
  - eapply Hm; eauto.
  - eapply same_flags_trans; [eapply Hm | eapply Hk]; eauto.
Qed.

Lemma set_model_flags m self : same_flags self (set_model m self).
Proof. split; reflexivity. Qed.

Lemma set_scaler_flags s self : same_flags self (set_scaler s self).
Proof. split; reflexivity. Qed.

Lemma set_feature_columns_flags cs self : same_flags self (set_feature_columns cs self).
Proof. split; reflexivity. Qed.

Lemma ensures_bind {A B} (m : method A) (k : A -> method B) Q :
  (forall a, ensures (k a) Q) -> ensures (bind m k) Q.
Proof.
  intros Hk self self' b Hb.
  apply bind_inv in Hb as [(e & _ & [=]) | (s & a & _ & Hks)].
  eapply Hk; eauto.
Qed.

Lemma never_returns_bind {A B} P (m : method A) (k : A -> method B) :
  (forall s s', P s -> same_flags s s' -> P s') ->
  preserves m -> (forall a, never_returns P (k a)) -> never_returns P (bind m k).
Proof.
  intros HP Hm Hk self self' r Hself Hb.
  apply bind_inv in Hb as [(e & Hms & ->) | (s & a & Hms & Hks)].
  - split; [eauto|]. eapply Hm; eauto.
  - pose proof (Hm _ _ _ Hms) as Hflags.
    destruct (Hk a s self' r (HP _ _ Hself Hflags) Hks) as [Hr Hflags'].
    split; [exact Hr|]. eapply same_flags_trans; eauto.
Qed.

Lemma never_returns_first {A B} P (m : method A) (k : A -> method B) :
  never_returns P m -> never_returns P (bind m k).
Proof.
  intros Hm self self' r Hself Hb.
  apply bind_inv in Hb as [(e & Hms & ->) | (s & a & Hms & Hks)].
  - split; [eauto|]. eapply Hm; eauto.
  - destruct (Hm _ _ _ Hself Hms) as [(e & [=]) _].
Qed.

Lemma invariant_ret {A} Q (a : A) : invariant Q (ret a).
Proof. intros self self' r HQ [= <- _]. exact HQ. Qed.

Lemma invariant_raise {A} Q (e : exn) : invariant Q (raise (A := A) e).
Proof. intros self self' r HQ [= <- _]. exact HQ. Qed.

Lemma invariant_lift {A} Q (x : result A) : invariant Q (lift x).
Proof. intros self self' r HQ [= <- _]. exact HQ. Qed.

Lemma invariant_get {A} Q (f : ChurnPredictor -> A) : invariant Q (get f).
Proof. intros self self' r HQ [= <- _]. exact HQ. Qed.

Lemma invariant_update (Q : ChurnPredictor -> Prop) f :
  (forall self, Q self -> Q (f self)) -> invariant Q (update f).
Proof. intros Hf self self' r HQ [= <- _]. apply Hf, HQ. Qed.

Lemma invariant_bind {A B} Q (m : method A) (k : A -> method B) :
  invariant Q m -> (forall a, invariant Q (k a)) -> invariant Q (bind m k).
Proof.
  intros Hm Hk self self' r HQ Hb.
  apply bind_inv in Hb as [(e & Hms & _) | (s & a & Hms & Hks)].
  - eapply Hm; eauto.
  - eapply Hk; [|exact Hks]. eapply Hm; eauto.
Qed.

Lemma ensures_then {A B} Q (m : method A) (k : A -> method B) :
  ensures m Q -> (forall a, invariant Q (k a)) -> ensures (bind m k) Q.
Proof.
  intros Hm Hk self self' b Hb.
  apply bind_inv in Hb as [(e & _ & [=]) | (s & a & Hms & Hks)].
  eapply Hk; [|exact Hks]. eapply Hm; eauto.
Qed.

End MethodRules.

Create HintDb method.

#[local] Hint Resolve preserves_ret preserves_raise preserves_lift preserves_get
  preserves_update set_model_flags set_scaler_flags set_feature_columns_flags
  : method.

(** One step of a proof that a method keeps the instance in a set. *)
Ltac invariant_step :=
  lazymatch goal with
  | |- invariant _ (bind _ _) => apply invariant_bind; [|intros ?]
  | |- invariant _ (if ?b then _ else _) => destruct b
  | |- invariant _ (match ?x with _ => _ end) => destruct x
  | |- invariant _ (ret _) => apply invariant_ret
  | |- invariant _ (raise _) => apply invariant_raise
  | |- invariant _ (lift _) => apply invariant_lift
  | |- invariant _ (get _) => apply invariant_get
  | |- invariant _ (update _) => apply invariant_update; intros ? ?; assumption
  | |- invariant _ _ => progress cbv beta zeta
  end.

(** One step of a proof that a method keeps the two fields. *)
Ltac preserves_step :=
  lazymatch goal with
  | |- preserves (bind _ _) => apply preserves_bind; [|intros ?]
  | |- preserves (if ?b then _ else _) => destruct b
  | |- preserves (match ?x with _ => _ end) => destruct x
  | |- preserves _ => solve [auto with method]
  end.

Section PredictorProperties.
Context `{MLLibrary}.

Lemma preserves_prepare_features df : preserves (prepare_features df).
Proof. unfold prepare_features. repeat preserves_step. Qed.

Lemma preserves_create_nn : preserves _create_neural_network.
Proof. unfold _create_neural_network. repeat preserves_step. Qed.

Lemma preserves_create_model : preserves create_model.
Proof.
  unfold create_model. apply preserves_bind; [auto with method|]. intros t.
  repeat (destruct (String.eqb t _); [auto using preserves_create_nn with method|]).
  auto with method.
Qed.

Lemma preserves_the_model : preserves the_model.
Proof. unfold the_model. repeat preserves_step. Qed.

End PredictorProperties.

(** ** C6: an unknown model type *)

Section UnknownModelType.
Context `{MLLibrary}.
Variable t : string.
Hypothesis unknown : mem_string t known_model_types = false.

Lemma unknown_tests :
  String.eqb t "random_forest" = false /\ String.eqb t "xgboost" = false
  /\ String.eqb t "logistic_regression" = false
  /\ String.eqb t "gradient_boosting" = false
  /\ String.eqb t "neural_network" = false.
Proof using unknown.
  unfold mem_string, known_model_types in unknown. cbn [existsb] in unknown.
  repeat (apply orb_false_elim in unknown as [? unknown]). auto.
Qed.

Lemma unknown_not_scaled : scales t = false.
Proof using unknown.
  destruct unknown_tests as (_ & _ & Hlr & _ & Hnn).
  unfold scales, mem_string. cbn [existsb]. rewrite Hlr, Hnn. reflexivity.
Qed.

Lemma create_model_unknown self :
  model_type self = t ->
  create_model self = (self, Raise (ValueError ("Unsupported model type: " ++ t))).
Proof using unknown.
  intros Ht. destruct unknown_tests as (H1 & H2 & H3 & H4 & H5).
  unfold create_model, bind, get. rewrite Ht, H1, H2, H3, H4, H5. reflexivity.
Qed.

Lemma never_returns_create_model :
  never_returns (fun self => model_type self = t) create_model.
Proof using unknown.
  intros self self' r Ht Hcm. rewrite (create_model_unknown self Ht) in Hcm.
  injection Hcm as <- <-. split; [eauto | apply same_flags_refl].
Qed.

Lemma type_stable (s s' : ChurnPredictor) :
  model_type s = t -> same_flags s s' -> model_type s' = t.
Proof using Type. intros Hs [_ Hm]. rewrite Hm. exact Hs. Qed.

Lemma never_returns_train_body df test_size :
  never_returns (fun self => model_type self = t) (train_body df test_size).
Proof using unknown.
  unfold train_body.
  apply never_returns_bind;
    [exact type_stable | apply preserves_prepare_features | intros Xy].
  apply never_returns_bind; [exact type_stable | repeat preserves_step | intros y].
  apply never_returns_bind; [exact type_stable | repeat preserves_step | intros sp].
  apply never_returns_bind; [exact type_stable | repeat preserves_step | intros t'].
  apply never_returns_bind; [exact type_stable | repeat preserves_step | intros scaled].
  apply never_returns_first. exact never_returns_create_model.
Qed.

Lemma never_returns_train df test_size :
  never_returns (fun self => model_type self = t) (train df test_size).
Proof using unknown.
  intros self self' r Ht. unfold train, with_run.
  destruct (mlflow "start_run") as [[]|e0].
  - destruct (train_body df test_size self) as [s rb] eqn:Hbody.
    destruct (never_returns_train_body _ _ _ _ _ Ht Hbody) as [(e & ->) Hflags].
    destruct (mlflow "end_run") as [[]|e1]; intros [= <- <-]; eauto.
  - intros [= <- <-]. split; [eauto | apply same_flags_refl].
Qed.

(** C6, as the code has it. The constructor does not look at the model
    type: it returns an instance for an unknown type whenever it returns one
    at all, and stores the type. The type is checked by [create_model],
    which raises the value error that names it. [train] on such an instance
    never returns and leaves it as untrained as it was; when the tracking
    run opens and ends, the table has a [churned] column and the split
    returns, the exception of [train] is that value error. *)
Theorem unknown_model_type_deferred :
  (is_ok (init t) = is_ok (init "random_forest")
   /\ forall self, init t = Ok self -> model_type self = t /\ is_trained self = false)
  /\ (forall self, model_type self = t ->
        create_model self = (self, Raise (ValueError ("Unsupported model type: " ++ t))))
  /\ (forall self df test_size self' r,
        model_type self = t -> train df test_size self = (self', r) ->
        (exists e, r = Raise e) /\ is_trained self' = is_trained self /\ model_type self' = t)
  /\ (forall self df test_size self1 X y sp,
        model_type self = t ->
        mlflow "start_run" = Ok tt -> mlflow "end_run" = Ok tt ->
        prepare_features df self = (self1, Ok (X, Some y)) ->
        train_test_split X y test_size = Ok sp ->
        train df test_size self
        = (self1, Raise (ValueError ("Unsupported model type: " ++ t)))).
Proof using unknown.
  split; [|split; [|split]].
  - unfold init. destruct (mlflow "set_experiment") as [[]|e]; simpl.
    + split; [reflexivity|]. intros self [= <-]. split; reflexivity.
    + split; [reflexivity|]. intros self [=].
  - exact create_model_unknown.
  - intros self df test_size self' r Ht Htrain.
    destruct (never_returns_train _ _ _ _ _ Ht Htrain) as [Hr [Htr Hty]].
    split; [exact Hr|]. split; [exact Htr|]. rewrite Hty. exact Ht.
  - intros self df test_size self1 X y sp Ht Hstart Hend Hprep Hsplit.
    assert (Ht1 : model_type self1 = t).
    { eapply type_stable; [exact Ht|]. eapply preserves_prepare_features. exact Hprep. }
    unfold train, with_run. rewrite Hstart, Hend.
    unfold train_body. unfold bind at 1. rewrite Hprep. cbn [snd fst].
    unfold bind at 1. cbn [ret]. unfold bind at 1. unfold lift at 1.
    rewrite Hsplit. unfold bind at 1. unfold get at 1. rewrite Ht1.
    rewrite unknown_not_scaled. unfold bind at 1. cbn [ret].
    unfold bind at 1. rewrite (create_model_unknown self1 Ht1). reflexivity.
Qed.

End UnknownModelType.

(** ** Column selection *)

Lemma has_column_getitem df c :
  has_column df c = true <-> exists s, getitem df c = Ok s.
Proof.
  unfold has_column, getitem. destruct (assoc c (columns df)).
  - split; eauto.
  - split; [discriminate | intros [s [=]]].
Qed.

Lemma getitem_missing df c : has_column df c = false -> getitem df c = Raise (KeyError c).
Proof. unfold has_column, getitem. destruct (assoc c (columns df)); [discriminate|reflexivity]. Qed.

Lemma select_Ok df cs D :
  select df cs = Ok D ->
  nrows D = nrows df /\ column_names D = cs
  /\ forall c, In c cs -> exists s, getitem df c = Ok s /\ getitem D c = Ok s.
Proof.
  unfold select. intros Hsel. apply bind_Ok in Hsel as (cols & Htr & [= <-]).
  split; [reflexivity|]. unfold column_names, getitem. simpl.
  revert cols Htr. induction cs as [|c cs IH]; intros cols; simpl.
  - intros [= <-]. split; [reflexivity | intros c []].
  - destruct (getitem df c) as [s|] eqn:Hc; [|discriminate]. simpl.
    destruct (traverse _ cs) as [cols'|] eqn:Hcs; [|discriminate]. simpl.
    intros [= <-]. destruct (IH cols' eq_refl) as [Hnames Hget].
    split; [simpl; f_equal; exact Hnames|].
    intros c' [<- | Hin].
    + exists s. split; [exact Hc|]. simpl. rewrite String.eqb_refl. reflexivity.
    + simpl. destruct (String.eqb_spec c c') as [<- | Hne].
      * exists s. split; [exact Hc | reflexivity].
      * apply Hget. exact Hin.
Qed.

Lemma select_present df cs :
  (forall c, In c cs -> has_column df c = true) -> exists D, select df cs = Ok D.
Proof.
  unfold select. intros Hall.
  assert (Htr : exists cols, traverse (fun c => s ← getitem df c; Ok (c, s)) cs = Ok cols).
  { induction cs as [|c cs IH]; simpl; [eauto|].
    destruct (proj1 (has_column_getitem df c) (Hall c (or_introl eq_refl))) as [s ->].
    simpl. destruct IH as [cols ->]; [intros; apply Hall; right; assumption|].
    simpl. eauto. }
  destruct Htr as [cols ->]. simpl. eauto.
Qed.

Lemma select_absent df cs c :
  In c cs -> has_column df c = false ->
  exists c', In c' cs /\ has_column df c' = false /\ select df cs = Raise (KeyError c').
Proof.
  unfold select. induction cs as [|a cs IH]; intros Hin Hc; [destruct Hin|].
  simpl. destruct (has_column df a) eqn:Ha.
  - destruct Hin as [-> | Hin]; [congruence|].
    destruct (IH Hin Hc) as (c' & Hin' & Hc' & Hsel).
    exists c'. split; [right; exact Hin'|]. split; [exact Hc'|].
    destruct (proj1 (has_column_getitem df a) Ha) as [s ->]. simpl.
    destruct (traverse _ cs) as [cols|e]; simpl in *; [discriminate | exact Hsel].
  - exists a. split; [left; reflexivity|]. split; [exact Ha|].
    rewrite (getitem_missing _ _ Ha). reflexivity.
Qed.

Lemma assoc_map_snd {A B} (f : A -> B) (k : string) (l : list (string * A)) :
  assoc k (map (fun c => (c.1, f c.2)) l) = f <$> assoc k l.
Proof.
  induction l as [|[k' a] l IH]; simpl; [reflexivity|].
  destruct (String.eqb k' k); [reflexivity | exact IH].
Qed.

Lemma getitem_fillna0 df c s :
  getitem df c = Ok s -> getitem (fillna0 df) c = Ok (fillna0_series s).
Proof.
  unfold getitem, fillna0. simpl. rewrite assoc_map_snd.
  destruct (assoc c (columns df)); [|discriminate]. intros [= ->]. reflexivity.
Qed.

Lemma column_names_fillna0 df : column_names (fillna0 df) = column_names df.
Proof.
  unfold column_names, fillna0. simpl. induction (columns df) as [|[k a] l IH]; simpl;
    [reflexivity | f_equal; exact IH].
Qed.

(** ** C4 and C8: [predict] *)

(** Walk down a chain of binds to the step that marks the instance
    trained. *)
Ltac to_marking rule side :=
  repeat lazymatch goal with
    | |- context [bind (update (set_is_trained true)) _] =>
        lazymatch goal with
        | |- _ (bind (update (set_is_trained true)) _) => fail
        | |- _ (bind (update (set_is_trained true)) _) _ => fail
        | |- _ => apply rule; [side .. | intros ?]; cbv beta zeta
        end
    end.

Section Predict.
Context `{MLLibrary}.

Lemma ensures_train_body df test_size :
  ensures (train_body df test_size) (fun self => is_trained self = true).
Proof.
  unfold train_body. to_marking (@ensures_bind H) idtac.
  intros self self' res. unfold bind, update, lift, ret.
  destruct (classification_report _ _); [|discriminate].
  destruct (confusion_matrix _ _); [|discriminate].
  intros [= <- _]. reflexivity.
Qed.

Lemma train_Ok df test_size self self' res :
  train df test_size self = (self', Ok res) ->
  train_body df test_size self = (self', Ok res).
Proof.
  unfold train, with_run.
  destruct (mlflow "start_run"); [|discriminate].
  destruct (train_body df test_size self) as [s r].
  destruct (mlflow "end_run"); [|discriminate].
  intros [= <- <-]. reflexivity.
Qed.

Lemma train_marks_trained df test_size self self' res :
  train df test_size self = (self', Ok res) -> is_trained self' = true.
Proof. intros Htrain. apply train_Ok in Htrain. eapply ensures_train_body; eauto. Qed.

Lemma ensures_prepare_features df :
  ensures (prepare_features df) (fun self => feature_columns self <> None).
Proof.
  unfold prepare_features. do 2 (apply ensures_bind; intros ?).
  intros self self' Xy. cbv zeta. unfold bind, update, ret.
  intros [= <- _]. discriminate.
Qed.

Lemma train_sets_columns df test_size self self' res :
  train df test_size self = (self', Ok res) -> feature_columns self' <> None.
Proof.
  intros Htrain. apply train_Ok in Htrain. revert self self' res Htrain.
  change (ensures (train_body df test_size) (fun self => feature_columns self <> None)).
  unfold train_body. apply ensures_then; [apply ensures_prepare_features|].
  intros Xy. unfold create_model, _create_neural_network, the_model.
  repeat invariant_step.
Qed.

Lemma predict_untrained self X :
  is_trained self = false -> predict self X = Raise not_trained_error.
Proof. unfold predict. intros ->. reflexivity. Qed.

Lemma predict_trained self X :
  is_trained self = true ->
  predict self X = (X_features ← predict_input self X; score self X_features).
Proof. unfold predict. intros ->. reflexivity. Qed.

Lemma predict_input_rows self X M : predict_input self X = Ok M -> nrows M = nrows X.
Proof.
  unfold predict_input. destruct (feature_columns self) as [cs|]; [|discriminate].
  intros HM. apply fmap_Ok in HM as (D & Hsel & ->).
  apply select_Ok in Hsel as [Hrows _]. exact Hrows.
Qed.

Lemma score_unit self M ps :
  scoring_contract -> score self M = Ok ps ->
  length ps = nrows M /\ Forall (fun p => Float.in_unit p = true) ps.
Proof.
  intros (Hproba & Hflat & Hrows') Hs. unfold score in Hs.
  apply bind_Ok in Hs as (M' & Hscale & Hs).
  assert (Hrows : nrows M' = nrows M).
  { destruct (scales (model_type self)).
    - eapply Hrows'; eauto.
    - injection Hscale as <-. reflexivity. }
  rewrite <- Hrows. destruct (model self) as [m|]; [|discriminate].
  destruct (String.eqb _ _); [eapply Hflat | eapply Hproba]; eauto.
Qed.

Lemma raises_marked_bind {A B} (E : exn -> Prop) (m : method A) (k : A -> method B) :
  preserves m -> (forall a, raises_marked E (k a)) -> raises_marked E (bind m k).
Proof.
  intros Hm Hk self self' e Hb.
  apply bind_inv in Hb as [(e' & Hms & _) | (s & a & Hms & Hks)].
  - left. eapply Hm; eauto.
  - pose proof (Hm _ _ _ Hms) as Hflags.
    destruct (Hk a s self' e Hks) as [Hsame | (Htrained & Htype & He)].
    + left. eapply same_flags_trans; eauto.
    + right. split; [exact Htrained|]. split; [|exact He].
      rewrite Htype. exact (proj2 Hflags).
Qed.

(** [train] marks the instance before it builds the two reports: when
    one of them raises, the instance stays marked. *)
Lemma raises_marked_train_body df test_size :
  raises_marked report_raises (train_body df test_size).
Proof.
  unfold train_body.
  to_marking (@raises_marked_bind)
    ltac:(first [apply preserves_prepare_features | apply preserves_create_model
                | apply preserves_the_model | repeat preserves_step]).
  intros self self' e. unfold bind, update, lift, ret.
  destruct (classification_report _ _) as [rep|e1] eqn:Hcr.
  - destruct (confusion_matrix _ _) as [cm|e2] eqn:Hcm; [discriminate|].
    intros [= <- <-]. right. split; [reflexivity|]. split; [reflexivity|].
    do 2 eexists. right. exact Hcm.
  - intros [= <- <-]. right. split; [reflexivity|]. split; [reflexivity|].
    do 2 eexists. left. exact Hcr.
Qed.

Lemma train_raised_flag df test_size self self' e :
  train df test_size self = (self', Raise e) ->
  is_trained self' = is_trained self
  \/ (is_trained self' = true /\ (mlflow "end_run" = Raise e \/ report_raises e)).
Proof.
  unfold train, with_run.
  destruct (mlflow "start_run"); [|intros [= <- _]; left; reflexivity].
  destruct (train_body df test_size self) as [s r] eqn:Hbody.
  destruct (mlflow "end_run") as [[]|e1] eqn:Hend.
  - intros [= <- ->].
    destruct (raises_marked_train_body _ _ _ _ _ Hbody) as [[Hsame _] | (Htr & _ & He)];
      [left; exact Hsame | right; split; [exact Htr | right; exact He]].
  - intros [= <- <-]. destruct r as [res|e0].
    + right. split; [eapply ensures_train_body; exact Hbody | left; reflexivity].
    + destruct (raises_marked_train_body _ _ _ _ _ Hbody) as [[Hsame _] | (Htr & _ & _)];
        [left; exact Hsame | right; split; [exact Htr | left; reflexivity]].
Qed.

Lemma ensures_the_model : ensures the_model (fun self => model self <> None).
Proof.
  intros self self' m. unfold the_model, bind, get, ret, raise.
  destruct (model self) as [m'|] eqn:Hm; [|discriminate].
  intros [= <- _]. congruence.
Qed.

Lemma train_sets_model df test_size self self' res :
  train df test_size self = (self', Ok res) -> model self' <> None.
Proof.
  intros Htrain. apply train_Ok in Htrain. revert self self' res Htrain.
  change (ensures (train_body df test_size) (fun self => model self <> None)).
  unfold train_body.
  repeat lazymatch goal with
         | |- ensures (bind the_model _) _ => fail
         | |- ensures (bind _ _) _ => apply ensures_bind; intros ?; cbv beta
         end.
  apply ensures_then; [apply ensures_the_model|].
  intros m. repeat invariant_step.
Qed.



(** C8, as the code has it. On a trained instance and a table that has
    every training feature column, [predict] scores the table made of those
    columns, in the order of the training list, with each missing cell set
    to zero. A table that lacks one of the columns is rejected: [predict]
    raises the key error of the first such column. *)
Theorem predict_selects_and_fills (self : ChurnPredictor) (cs : list string) (X : DataFrame) :
  is_trained self = true ->
  feature_columns self = Some cs ->
  ((forall c, In c cs -> has_column X c = true) ->
     exists M, predict self X = score self M
       /\ column_names M = cs /\ nrows M = nrows X
       /\ forall c, In c cs ->
            exists s, getitem X c = Ok s /\ getitem M c = Ok (fillna0_series s)
              /\ forall i v, cells s !! i = Some v ->
                   cells (fillna0_series s) !! i
                   = Some (if isna v then zero_of (sdtype s) else v))
  /\ (forall c, In c cs -> has_column X c = false ->
        exists c', In c' cs /\ has_column X c' = false
                   /\ predict self X = Raise (KeyError c')).
Proof.
  intros Htrained Hcs. rewrite (predict_trained _ _ Htrained).
  unfold predict_input. rewrite Hcs. split.
  - intros Hall. destruct (select_present X cs Hall) as [D HD]. rewrite HD. simpl.
    exists (fillna0 D). split; [reflexivity|].
    apply select_Ok in HD as (Hrows & Hnames & Hget).
    split; [rewrite column_names_fillna0; exact Hnames|]. split; [exact Hrows|].
    intros c Hc. destruct (Hget c Hc) as (s & HX & HDc).
    exists s. split; [exact HX|]. split; [apply getitem_fillna0; exact HDc|].
    intros i v Hv. unfold fillna0_series. simpl.
    rewrite list_lookup_fmap, Hv. reflexivity.
  - intros c Hc Hmiss. destruct (select_absent X cs c Hc Hmiss) as (c' & Hin & Hc' & Hsel).
    exists c'. split; [exact Hin|]. split; [exact Hc'|]. rewrite Hsel. reflexivity.
Qed.

End Predict.

(** ** The reference classifier keeps the library's promises *)

Lemma ok_unit_in_unit (p : float) : Float.in_unit (Reference.ok_unit p) = true.
Proof.
  unfold Reference.ok_unit. destruct (Float.in_unit p) eqn:Hp; [exact Hp | reflexivity].
Qed.

Lemma score_rows_unit (m : float) X ps :
  Reference.score_rows m X = Ok ps ->
  length ps = nrows X /\ Forall (fun p => Float.in_unit p = true) ps.
Proof.
  unfold Reference.score_rows. intros [= <-]. split.
  - apply repeat_length.
  - apply List.Forall_forall. intros p Hp. apply repeat_spec in Hp as ->.
    apply ok_unit_in_unit.
Qed.

Lemma reference_contract : scoring_contract (H := Reference.ml).
Proof.
  split; [exact score_rows_unit|]. split; [exact score_rows_unit|].
  intros s X X' [= <-]. reflexivity.
Qed.



(** The theorem [unknown_model_type_deferred] at the type [svm]. *)
Lemma unknown_model_type_deferred_witness :
  mem_string "svm" known_model_types = false
  /\ create_model (Examples.fresh "svm")
     = (Examples.fresh "svm", Raise (ValueError "Unsupported model type: svm")).
Proof.
  split; [reflexivity|].
  apply (unknown_model_type_deferred (H := Reference.ml) "svm" eq_refl). reflexivity.
Defined.

(** C6 as stated fails: the constructor returns an instance for the
    unknown type [svm]. *)
Lemma init_accepts_unknown_type :
  ~ (forall t, mem_string t known_model_types = false ->
       exists msg, init (H := Reference.ml) t = Raise (ValueError msg)).
Proof.
  intros Hclaim. destruct (Hclaim "svm" eq_refl) as [msg Hmsg]. discriminate Hmsg.
Qed.

(** The theorem [predict_selects_and_fills] at the trained example: on
    the table that lacks [age], a key error. *)
Lemma predict_selects_and_fills_witness :
  is_trained Examples.trained = true
  /\ feature_columns Examples.trained
     = Some (default [] (feature_columns Examples.trained))
  /\ exists c, predict Examples.trained Examples.features_without_age = Raise (KeyError c).
Proof.
  assert (Htr : is_trained Examples.trained = true) by (vm_compute; reflexivity).
  assert (Hcs : feature_columns Examples.trained
                = Some (default [] (feature_columns Examples.trained)))
    by (vm_compute; reflexivity).
  split; [exact Htr|]. split; [exact Hcs|].
  destruct (predict_selects_and_fills Examples.trained _ Examples.features_without_age
              Htr Hcs) as [_ Hreject].
  destruct (Hreject "age") as (c & _ & _ & Hc).
  - vm_compute. left. reflexivity.
  - vm_compute. reflexivity.
  - exists c. exact Hc.
Defined.

(** C8 as stated fails: a trained instance rejects a table that lacks a
    training feature column instead of filling it with zeros. *)
Lemma predict_rejects_missing_column :
  is_trained Examples.trained = true
  /\ In "age" (default [] (feature_columns Examples.trained))
  /\ has_column Examples.features_without_age "age" = false
  /\ predict Examples.trained Examples.features_without_age = Raise (KeyError "age").
Proof. vm_compute. repeat split. left. reflexivity. Qed.

(** ** Assignment into a column *)

Lemma assoc_set_eq {A} (k : string) (a : A) l : assoc k (assoc_set k a l) = Some a.
Proof.
  induction l as [|[k' a'] l IH]; simpl.
  - rewrite String.eqb_refl. reflexivity.
  - destruct (String.eqb k' k) eqn:Hk; simpl; rewrite Hk; [reflexivity | exact IH].
Qed.

Lemma assoc_set_ne {A} (k k' : string) (a : A) l :
  k <> k' -> assoc k' (assoc_set k a l) = assoc k' l.
Proof.
  intros Hne. induction l as [|[k0 a0] l IH]; simpl.
  - destruct (String.eqb_spec k k'); [contradiction | reflexivity].
  - destruct (String.eqb_spec k0 k) as [-> | Hk0]; simpl.
    + destruct (String.eqb_spec k k'); [contradiction | reflexivity].
    + destruct (String.eqb k0 k'); [reflexivity | exact IH].
Qed.

Lemma getitem_setitem_eq df c s : getitem (setitem df c s) c = Ok s.
Proof. unfold getitem, setitem. simpl. rewrite assoc_set_eq. reflexivity. Qed.

Lemma getitem_setitem_ne df c c' s :
  c <> c' -> getitem (setitem df c s) c' = getitem df c'.
Proof. intros Hne. unfold getitem, setitem. simpl. rewrite assoc_set_ne by exact Hne. reflexivity. Qed.

Lemma assoc_set_names_new {A} (k : string) (a : A) l :
  assoc k l = None -> (assoc_set k a l).*1 = l.*1 ++ [k].
Proof.
  induction l as [|[k' a'] l IH]; simpl; [reflexivity|].
  destruct (String.eqb k' k); [discriminate|]. intros Hl. simpl. f_equal. apply IH, Hl.
Qed.

Lemma assoc_set_names_old {A} (k : string) (a : A) l :
  assoc k l <> None -> (assoc_set k a l).*1 = l.*1.
Proof.
  induction l as [|[k' a'] l IH]; simpl; [congruence|].
  destruct (String.eqb k' k); [reflexivity|]. intros Hl. simpl. f_equal. apply IH, Hl.
Qed.

(** ** C10: the caller's tables *)

Section CallerTables.
Context `{Pandas}.

Lemma to_datetime_dtype s d : to_datetime s = Ok d -> sdtype d = datetime64.
Proof. unfold to_datetime. intros Hd. apply fmap_Ok in Hd as (vs & _ & ->). reflexivity. Qed.

(** C10. When the customer table has a [signup_date] column that
    [to_datetime] converts, then after the call - whether it returns or
    raises later - the caller's customer table is the table it was with
    [signup_date] replaced by the converted column and [tenure_days] set to
    the whole days since signup (a new last column when the table had
    none), and every other table of the caller, so the usage table when it
    is another object, is as it was. *)
Theorem transform_features_mutates_customers (now : Z) (customer_df usage_df : loc)
    (h : heap) (c : DataFrame) (s d : Series) :
  h !! customer_df = Some c ->
  getitem c "signup_date" = Ok s ->
  to_datetime s = Ok d ->
  let c' := setitem (setitem c "signup_date" d) "tenure_days" (days_since now d) in
  let h' := (transform_features now customer_df usage_df h).1 in
  h' !! customer_df = Some c'
  /\ sdtype d = datetime64
  /\ getitem c' "signup_date" = Ok d
  /\ getitem c' "tenure_days" = Ok (days_since now d)
  /\ (forall k, k <> "signup_date" -> k <> "tenure_days" -> getitem c' k = getitem c k)
  /\ (has_column c "tenure_days" = false ->
      column_names c' = column_names c ++ ["tenure_days"])
  /\ (forall l, l <> customer_df -> h' !! l = h !! l)
  /\ (usage_df <> customer_df -> h' !! usage_df = h !! usage_df).
Proof.
  intros Hc Hs Hd c' h'.
  assert (Hh' : h' = <[customer_df := c']> (<[customer_df := setitem c "signup_date" d]> h)).
  { unfold h', transform_features, deref. rewrite Hc. cbn [mbind result_bind].
    unfold convert_signup. rewrite Hs. cbn [mbind result_bind]. rewrite Hd.
    cbn [mbind result_bind]. unfold add_tenure. rewrite getitem_setitem_eq.
    cbn [mbind result_bind]. reflexivity. }
  assert (Hframe : forall l, l <> customer_df -> h' !! l = h !! l).
  { intros l Hl. rewrite Hh'. rewrite !lookup_insert_ne by congruence. reflexivity. }
  split; [rewrite Hh'; apply lookup_insert_eq|].
  split; [eapply to_datetime_dtype; eauto|].
  split; [unfold c'; rewrite getitem_setitem_ne by discriminate; apply getitem_setitem_eq|].
  split; [apply getitem_setitem_eq|].
  split; [intros k Hk1 Hk2; unfold c';
          rewrite !getitem_setitem_ne by congruence; reflexivity|].
  split; [|split; [exact Hframe | apply Hframe]].
  intros Hnew. unfold c', column_names, setitem. simpl.
  rewrite assoc_set_names_new.
  - rewrite assoc_set_names_old; [reflexivity|].
    unfold getitem in Hs. destruct (assoc "signup_date" (columns c)); [discriminate|discriminate].
  - rewrite assoc_set_ne by discriminate.
    unfold has_column in Hnew. destruct (assoc "tenure_days" (columns c)); [discriminate|reflexivity].
Qed.

End CallerTables.

(** The theorem [transform_features_mutates_customers] at the example
    tables: the usage table is as it was. *)
Lemma transform_features_mutates_customers_witness :
  Examples.objects !! 0%nat = Some Examples.customer_df1
  /\ (transform_features (H := Reference.pandas) Examples.now 0%nat 1%nat
      Examples.objects).1 !! 1%nat
     = Some Examples.usage_df.
Proof.
  assert (Hc : Examples.objects !! 0%nat = Some Examples.customer_df1)
    by (vm_compute; reflexivity).
  split; [exact Hc|].
  assert (Hs : exists s d, getitem Examples.customer_df1 "signup_date" = Ok s
                           /\ to_datetime (H := Reference.pandas) s = Ok d)
    by (do 2 eexists; split; [vm_compute; reflexivity | vm_compute; reflexivity]).
  destruct Hs as (s & d & Hs & Hd).
  destruct (transform_features_mutates_customers (H := Reference.pandas) Examples.now 0%nat 1%nat
              Examples.objects Examples.customer_df1 s d Hc Hs Hd)
    as (_ & _ & _ & _ & _ & _ & _ & Husage).
  rewrite Husage by discriminate. vm_compute. reflexivity.
Defined.

(** ** C2: the aggregates *)

Section Aggregates.
Context `{Pandas}.

Lemma getitem_column_of df c s : getitem df c = Ok s -> column_of df c = s.
Proof.
  unfold getitem, column_of. destruct (assoc c (columns df)); [|discriminate].
  intros [= ->]. reflexivity.
Qed.

Lemma agg_columns_Ok df keys ks spec cols :
  traverse
    (fun cf : string * list aggfn =>
       s ← getitem df cf.1;
       if is_arith (sdtype s)
       then Ok (map (fun f => ((cf.1, f), agg_series keys ks s f)) cf.2)
       else Raise (TypeError "agg function failed"))
    spec = Ok cols ->
  concat cols
  = map (fun p => (p, agg_series keys ks (column_of df p.1) p.2))
        (flat_map (fun cf => map (pair cf.1) cf.2) spec)
  /\ forall cf, In cf spec -> exists s, getitem df cf.1 = Ok s /\ is_arith (sdtype s) = true.
Proof.
  revert cols. induction spec as [|[c fns] spec IH]; intros cols; simpl.
  - intros [= <-]. split; [reflexivity | intros cf []].
  - destruct (getitem df c) as [s|] eqn:Hc; [|discriminate]. simpl.
    destruct (is_arith (sdtype s)) eqn:Hs; [|discriminate]. simpl.
    destruct (traverse _ spec) as [cols'|]; [|discriminate]. simpl.
    intros [= <-]. destruct (IH cols' eq_refl) as [Hcat Hall]. split.
    + simpl. rewrite Hcat, List.map_app, List.map_map. f_equal.
      apply map_ext. intros f. simpl. rewrite (getitem_column_of _ _ _ Hc). reflexivity.
    + intros cf [<- | Hin]; [eauto | apply Hall, Hin].
Qed.

(** [usage_agg], column by column. *)
Lemma aggregate_usage_table usage A :
  aggregate_usage usage = Ok A ->
  exists keys,
    getitem usage "customer_id" = Ok keys
    /\ (forall c f, In (c, f) agg_pairs -> getitem usage c = Ok (column_of usage c))
    /\ A = mkDF (length (distinct_keys (cells keys)))
             (("customer_id", mkSeries (sdtype keys) (distinct_keys (cells keys)))
              :: map (fun p => (flatten_name p,
                                round_series (agg_series (cells keys)
                                                (distinct_keys (cells keys))
                                                (column_of usage p.1) p.2)))
                     agg_pairs).
Proof.
  unfold aggregate_usage, groupby_agg. intros HA.
  apply bind_Ok in HA as (g & Hg & [= <-]).
  apply bind_Ok in Hg as (keys & Hkeys & Hg).
  apply bind_Ok in Hg as (cols & Hcols & [= <-]).
  apply agg_columns_Ok in Hcols as [Hcat Hall].
  exists keys. split; [exact Hkeys|]. split.
  - intros c f Hin. unfold agg_pairs in Hin. apply in_flat_map in Hin as (cf & Hcf & Hin).
    apply in_map_iff in Hin as (f' & [= <- <-] & _).
    destruct (Hall cf Hcf) as (s & Hs & _). rewrite Hs.
    rewrite (getitem_column_of _ _ _ Hs). reflexivity.
  - unfold flatten_reset, round_grouped. simpl. rewrite Hcat.
    rewrite !List.map_map. reflexivity.
Qed.

(** C2, as the code has it. For each customer_id group of the usage
    table, [usage_agg] holds, rounded to 4 decimals: the mean, sum and
    standard deviation of login_count, of session_duration_minutes and of
    data_usage_gb; the mean, max and standard deviation of features_used;
    and the sum and mean of support_tickets. It has no sum of features_used
    and no standard deviation of support_tickets. *)
Theorem aggregate_usage_columns (usage A : DataFrame) :
  aggregate_usage usage = Ok A ->
  agg_pairs
  = [ ("login_count", Mean); ("login_count", Sum); ("login_count", Std);
      ("session_duration_minutes", Mean); ("session_duration_minutes", Sum);
      ("session_duration_minutes", Std);
      ("features_used", Mean); ("features_used", Max); ("features_used", Std);
      ("support_tickets", Sum); ("support_tickets", Mean);
      ("data_usage_gb", Mean); ("data_usage_gb", Sum); ("data_usage_gb", Std) ]
  /\ column_names A = "customer_id" :: map flatten_name agg_pairs
  /\ has_column A "features_used_sum" = false
  /\ has_column A "support_tickets_std" = false
  /\ exists keys,
       getitem usage "customer_id" = Ok keys
       /\ column_cells A "customer_id" = distinct_keys (cells keys)
       /\ forall c f, In (c, f) agg_pairs ->
            exists s, getitem usage c = Ok s
              /\ forall g k, distinct_keys (cells keys) !! g = Some k ->
                   cell A (flatten_name (c, f)) g
                   = Some (round_cell (reduce f (group_cells (cells keys) k (cells s)))).
Proof.
  intros HA. apply aggregate_usage_table in HA as (keys & Hkeys & Hcols & ->).
  split; [reflexivity|]. split; [reflexivity|].
  split; [reflexivity|]. split; [reflexivity|].
  exists keys. split; [exact Hkeys|]. split; [reflexivity|].
  intros c f Hin. exists (column_of usage c). split; [apply (Hcols c f Hin)|].
  intros g k Hk. unfold cell.
  assert (Hget : assoc (flatten_name (c, f))
                   (("customer_id", mkSeries (sdtype keys) (distinct_keys (cells keys)))
                    :: map (fun p => (flatten_name p,
                                      round_series (agg_series (cells keys)
                                                      (distinct_keys (cells keys))
                                                      (column_of usage p.1) p.2)))
                           agg_pairs)
                 = Some (round_series (agg_series (cells keys) (distinct_keys (cells keys))
                                         (column_of usage c) f))).
  { unfold agg_pairs in Hin. cbn in Hin.
    repeat (destruct Hin as [[= <- <-] | Hin]; [reflexivity|]). destruct Hin. }
  cbn [columns]. rewrite Hget. cbn [mbind option_bind].
  unfold round_series, agg_series. cbn [cells].
  rewrite !list_lookup_fmap, Hk. reflexivity.
Qed.

End Aggregates.

(** The theorem [aggregate_usage_columns] at the example usage table:
    the first group is customer 1, whose login_count has mean 10. *)
Lemma aggregate_usage_columns_witness :
  aggregate_usage (H := Reference.pandas) Examples.usage_df = Ok Examples.usage_agg
  /\ cell Examples.usage_agg "login_count_mean" 0 = Some (VFloat 10).
Proof.
  assert (HA : aggregate_usage (H := Reference.pandas) Examples.usage_df
               = Ok Examples.usage_agg) by (vm_compute; reflexivity).
  split; [exact HA|].
  destruct (aggregate_usage_columns (H := Reference.pandas) Examples.usage_df _ HA)
    as (_ & _ & _ & _ & keys & Hkeys & _ & Hcells).
  destruct (Hcells "login_count" Mean) as (s & Hs & Hcell).
  - unfold agg_pairs. cbn. left. reflexivity.
  - vm_compute in Hkeys. injection Hkeys as <-.
    vm_compute in Hs. injection Hs as <-.
    change (cell Examples.usage_agg (flatten_name ("login_count", Mean)) 0
            = Some (VFloat 10)).
    rewrite (Hcell 0%nat (VInt 1)) by (vm_compute; reflexivity).
    vm_compute. reflexivity.
Defined.

(** C2 as stated fails: [usage_agg] has no sum of features_used. *)
Lemma aggregate_usage_no_features_used_sum :
  ~ (forall A, aggregate_usage (H := Reference.pandas) Examples.usage_df = Ok A ->
       forall c f, In c metric_columns -> In f [Mean; Sum; Std] ->
         has_column A (flatten_name (c, f)) = true).
Proof.
  intros Hclaim.
  assert (Hex : exists A, aggregate_usage (H := Reference.pandas) Examples.usage_df = Ok A
                          /\ has_column A (flatten_name ("features_used", Sum)) = false)
    by (eexists; split; [vm_compute; reflexivity | vm_compute; reflexivity]).
  destruct Hex as (A & HA & Hno).
  rewrite (Hclaim A HA "features_used" Sum) in Hno.
  - discriminate.
  - unfold metric_columns. cbn. auto.
  - cbn. auto.
Qed.

(** ** Columns through the join, the filling and the encoding *)

Lemma assoc_app {A} (k : string) (l1 l2 : list (string * A)) :
  assoc k (l1 ++ l2) = match assoc k l1 with Some a => Some a | None => assoc k l2 end.
Proof.
  induction l1 as [|[k' a] l1 IH]; simpl; [reflexivity|].
  destruct (String.eqb k' k); [reflexivity | exact IH].
Qed.

Lemma last_ascii_suffix (n : string) (a b : ascii) :
  last_ascii (n ++ String a (String b EmptyString)) = b.
Proof.
  induction n as [|c n IH]; [reflexivity|].
  change (last_ascii (String c (n ++ String a (String b EmptyString))) = b).
  destruct n as [|c' n]; [reflexivity|]. exact IH.
Qed.

Lemma suffix_ne (n t : string) (a b : ascii) :
  last_ascii t <> b -> (n ++ String a (String b EmptyString))%string <> t.
Proof. intros Hlast <-. apply Hlast, last_ascii_suffix. Qed.

Lemma assoc_suffixed {A} (ov : string -> bool) (sfx : string) (g : A -> Series)
    (t : string) (l : list (string * A)) :
  (forall n, (n ++ sfx)%string <> t) ->
  assoc t (suffixed ov sfx g l) = if ov t then None else g <$> assoc t l.
Proof.
  intros Hsfx. unfold suffixed. induction l as [|[k a] l IH]; simpl.
  - destruct (ov t); reflexivity.
  - destruct (String.eqb_spec k t) as [-> | Hne].
    + destruct (ov t) eqn:Hov.
      * destruct (String.eqb_spec (t ++ sfx) t) as [Heq | _];
          [exfalso; eapply Hsfx; exact Heq | exact IH].
      * rewrite String.eqb_refl. reflexivity.
    + destruct (ov k).
      * destruct (String.eqb_spec (k ++ sfx) t) as [Heq | _];
          [exfalso; eapply Hsfx; exact Heq | exact IH].
      * destruct (String.eqb_spec k t) as [Heq | _]; [contradiction | exact IH].
Qed.

Lemma mem_string_assoc {A} (t : string) (l : list (string * A)) :
  mem_string t l.*1 = false -> assoc t l = None.
Proof.
  unfold mem_string. induction l as [|[k a] l IH]; simpl; [reflexivity|].
  rewrite (String.eqb_sym t k). destruct (String.eqb k t); simpl; [discriminate | exact IH].
Qed.

(** The column of the joined table under a name that is no suffixed name:
    absent when both tables have it, else the left table's column, else the
    right table's. *)
Lemma merge_left_assoc (left right : DataFrame) (on : string) (M : DataFrame) (t : string) :
  merge_left left right on = Ok M ->
  (forall n, (n ++ "_x")%string <> t) ->
  (forall n, (n ++ "_y")%string <> t) ->
  let rcols := List.filter (fun c => negb (String.eqb c.1 on)) (columns right) in
  exists rows : list (nat * option nat),
    assoc t (columns M)
    = if overlaps on (column_names left) rcols.*1 t then None
      else match assoc t (columns left) with
           | Some s => Some (mkSeries (sdtype s) (take_cells (cells s) (Some <$> rows.*1)))
           | None => (fun s => take_right s rows.*2) <$> assoc t rcols
           end.
Proof.
  intros HM Hx Hy rcols. unfold merge_left in HM.
  apply bind_Ok in HM as (lk & _ & HM). apply bind_Ok in HM as (rk & _ & HM).
  injection HM as <-. exists (left_pairs (cells lk) (cells rk)). cbn [columns].
  rewrite assoc_app, !assoc_suffixed by assumption. fold rcols.
  destruct (overlaps on (column_names left) rcols.*1 t); [reflexivity|].
  destruct (assoc t (columns left)); reflexivity.
Qed.

Lemma take_right_float64 (s : Series) rows :
  sdtype s = float64 -> sdtype (take_right s rows) = float64.
Proof. unfold take_right. intros Hs. destruct (forallb _ rows); rewrite Hs; exact Hs || reflexivity. Qed.

Lemma fill_if_number_dtype s : sdtype (fill_if_number s) = sdtype s.
Proof. unfold fill_if_number. destruct (is_number (sdtype s)); reflexivity. Qed.

Lemma getitem_fill_numeric df t s :
  getitem (fill_numeric df) t = Ok s ->
  exists s0, getitem df t = Ok s0 /\ s = fill_if_number s0.
Proof.
  unfold getitem, fill_numeric. cbn [columns]. rewrite assoc_map_snd.
  destruct (assoc t (columns df)) as [s0|]; [|discriminate].
  intros [= <-]. eauto.
Qed.

Lemma assoc_filter_names {A} (P : string -> bool) (t : string) (l : list (string * A)) :
  P t = true -> assoc t (List.filter (fun c => P c.1) l) = assoc t l.
Proof.
  intros HP. induction l as [|[k a] l IH]; simpl; [reflexivity|].
  destruct (String.eqb_spec k t) as [-> | Hne].
  - rewrite HP. simpl. rewrite String.eqb_refl. reflexivity.
  - destruct (P k); simpl; [|exact IH].
    destruct (String.eqb_spec k t); [contradiction | exact IH].
Qed.

Lemma getitem_bools_to_int df t s :
  getitem df t = Ok s -> getitem (bools_to_int df) t = Ok (int_of_bool_series s).
Proof.
  unfold getitem, bools_to_int. cbn [columns]. rewrite assoc_map_snd.
  destruct (assoc t (columns df)); [|discriminate]. intros [= ->]. reflexivity.
Qed.

Lemma int_of_bool_series_number s : sdtype s <> bool_ -> int_of_bool_series s = s.
Proof. unfold int_of_bool_series. destruct (sdtype s); congruence. Qed.

Lemma to_float_int_of_bool v : to_float (int_of_bool_cell v) = to_float v.
Proof. destruct v as [| | |[]| | |]; reflexivity. Qed.

Lemma int_of_bool_series_lookup s i v :
  cells (int_of_bool_series s) !! i = Some v ->
  exists v0, cells s !! i = Some v0 /\ to_float v = to_float v0.
Proof.
  unfold int_of_bool_series. destruct (sdtype s); cbn [cells]; eauto.
  rewrite list_lookup_fmap. destruct (cells s !! i) as [v0|]; [|discriminate].
  intros [= <-]. exists v0. split; [reflexivity | apply to_float_int_of_bool].
Qed.

Section Encoding.
Context `{Pandas}.

Lemma getitem_get_dummies df cs G t s :
  get_dummies df cs = Ok G -> mem_string t cs = false ->
  getitem df t = Ok s -> getitem G t = Ok s.
Proof.
  unfold get_dummies, getitem. intros HG Ht.
  apply bind_Ok in HG as (enc & _ & [= <-]). cbn [columns].
  rewrite assoc_app.
  rewrite (assoc_filter_names (fun n => negb (mem_string n cs))) by (rewrite Ht; reflexivity).
  destruct (assoc t (columns df)); [|discriminate]. intros [= ->]. reflexivity.
Qed.

End Encoding.

(** ** Column arithmetic, cell by cell *)

Lemma series_op2_lookup op a b q i x y :
  series_op2 op a b = Ok q ->
  cells a !! i = Some x -> cells b !! i = Some y ->
  cells q !! i = Some (VFloat (op (to_float x) (to_float y))).
Proof.
  unfold series_op2. destruct (is_arith (sdtype a) && is_arith (sdtype b)); [|discriminate].
  intros [= <-] Hx Hy. cbn [cells].
  rewrite list_lookup_fmap.
  rewrite (proj2 (lookup_zip_Some (cells a) (cells b) i x y) (conj Hx Hy)). reflexivity.
Qed.

Lemma series_op1_lookup op a q i x :
  series_op1 op a = Ok q ->
  cells a !! i = Some x ->
  cells q !! i = Some (VFloat (op (to_float x))).
Proof.
  unfold series_op1. destruct (is_arith (sdtype a)); [|discriminate].
  intros [= <-] Hx. cbn [cells]. rewrite list_lookup_fmap, Hx. reflexivity.
Qed.

Lemma series_op2_dtype op a b q : series_op2 op a b = Ok q -> sdtype q = float64.
Proof.
  unfold series_op2. destruct (is_arith (sdtype a) && is_arith (sdtype b)); [|discriminate].
  intros [= <-]. reflexivity.
Qed.

Lemma series_op1_dtype op a q : series_op1 op a = Ok q -> sdtype q = float64.
Proof.
  unfold series_op1. destruct (is_arith (sdtype a)); [|discriminate].
  intros [= <-]. reflexivity.
Qed.

Lemma replace01_lookup s i x :
  cells s !! i = Some x -> cells (replace01 s) !! i = Some (replace_0_1 x).
Proof. intros Hx. unfold replace01. cbn [cells]. rewrite list_lookup_fmap, Hx. reflexivity. Qed.

Lemma round_series_lookup s i f :
  cells s !! i = Some (VFloat f) ->
  cells (round_series s) !! i = Some (VFloat (Float.round4 f)).
Proof. intros Hx. unfold round_series. cbn [cells]. rewrite list_lookup_fmap, Hx. reflexivity. Qed.

Lemma derive_features_Ok `{Pandas} D0 D3 : derive_features D0 = Ok D3 -> derived D0 D3.
Proof.
  unfold derive_features. intros HD.
  apply bind_Ok in HD as (S & HS & HD).
  apply bind_Ok in HD as (L & HL & HD).
  apply bind_Ok in HD as (q1 & Hq1 & HD).
  apply bind_Ok in HD as (T & HT & HD).
  apply bind_Ok in HD as (Dn & HDn & HD).
  apply bind_Ok in HD as (q2 & Hq2 & HD).
  apply bind_Ok in HD as (r & Hr & HD).
  apply bind_Ok in HD as (L' & HL' & HD).
  apply bind_Ok in HD as (a & Ha & HD).
  apply bind_Ok in HD as (S' & HS' & HD).
  apply bind_Ok in HD as (s60 & Hs60 & HD).
  apply bind_Ok in HD as (b & Hb & HD).
  apply bind_Ok in HD as (ab & Hab & HD).
  apply bind_Ok in HD as (Fm & HFm & HD).
  apply bind_Ok in HD as (c & Hc & HD).
  apply bind_Ok in HD as (e & He & HD).
  injection HD as <-.
  rewrite getitem_setitem_ne in HT, HDn by discriminate.
  do 2 rewrite getitem_setitem_ne in HL', HS', HFm by discriminate.
  rewrite HL in HL'. injection HL' as <-. rewrite HS in HS'. injection HS' as <-.
  refine (derived_intro D0 _ S L T Dn Fm (round_series q1) (round_series r) (round_series e)
            HS HL HT HDn HFm eq_refl _ _ _ _ _ _).
  - exact (series_op2_dtype _ _ _ _ Hq1).
  - exact (series_op1_dtype _ _ _ Hr).
  - exact (series_op2_dtype _ _ _ _ He).
  - intros i s l Hs Hl. apply round_series_lookup.
    exact (series_op2_lookup _ _ _ _ _ _ _ Hq1 Hs (replace01_lookup _ _ _ Hl)).
  - intros i t d Ht Hd. apply round_series_lookup.
    pose proof (series_op2_lookup _ _ _ _ _ _ _ Hq2 Ht (replace01_lookup _ _ _ Hd)) as Hq.
    exact (series_op1_lookup _ _ _ _ _ Hr Hq).
  - intros i l s f Hl Hs Hf. apply round_series_lookup.
    pose proof (series_op1_lookup _ _ _ _ _ Ha Hl) as Hai.
    pose proof (series_op1_lookup _ _ _ _ _ Hs60 Hs) as Hsi.
    pose proof (series_op1_lookup _ _ _ _ _ Hb Hsi) as Hbi.
    pose proof (series_op2_lookup _ _ _ _ _ _ _ Hab Hai Hbi) as Habi.
    pose proof (series_op1_lookup _ _ _ _ _ Hc Hf) as Hci.
    exact (series_op2_lookup _ _ _ _ _ _ _ He Habi Hci).
Qed.

(** ** C5 and C7: the derived features of the returned table *)

Section DerivedFeatures.
Context `{Pandas}.

(** The columns of [usage_agg] other than the key. *)
Lemma usage_agg_columns (keys : Series) (col : string -> Series) :
  let U := mkDF (length (distinct_keys (cells keys)))
             (("customer_id", mkSeries (sdtype keys) (distinct_keys (cells keys)))
              :: map (fun p => (flatten_name p,
                                round_series (agg_series (cells keys)
                                                (distinct_keys (cells keys)) (col p.1) p.2)))
                     agg_pairs) in
  let rcols := List.filter (fun c => negb (String.eqb c.1 "customer_id")) (columns U) in
  mem_string "login_count_mean" rcols.*1 = true
  /\ (exists s, assoc "login_count_mean" rcols = Some s /\ sdtype s = float64)
  /\ mem_string "tenure_days" rcols.*1 = false
  /\ assoc "tenure_days" rcols = None.
Proof.
  intros U rcols. split; [reflexivity|]. split; [|split; reflexivity].
  eexists. split; reflexivity.
Qed.

Lemma not_suffixed_x (n : string) :
  (n ++ "_x")%string <> "login_count_mean" /\ (n ++ "_x")%string <> "tenure_days".
Proof. split; apply suffix_ne; vm_compute; discriminate. Qed.

Lemma not_suffixed_y (n : string) :
  (n ++ "_y")%string <> "login_count_mean" /\ (n ++ "_y")%string <> "tenure_days".
Proof. split; apply suffix_ne; vm_compute; discriminate. Qed.

(** In the joined table, [login_count_mean] is the float column of
    [usage_agg] and [tenure_days] has the dtype of the customer table's. *)
Lemma merged_dtypes (c2 u U M : DataFrame) :
  aggregate_usage u = Ok U ->
  merge_left c2 U "customer_id" = Ok M ->
  (forall s, getitem M "login_count_mean" = Ok s -> sdtype s = float64)
  /\ (forall s, getitem M "tenure_days" = Ok s ->
        exists s0, getitem c2 "tenure_days" = Ok s0 /\ sdtype s = sdtype s0).
Proof.
  intros HU HM. apply aggregate_usage_table in HU as (keys & _ & _ & ->).
  destruct (usage_agg_columns keys (column_of u)) as (Hmem & (sl & Hsl & Hfloat) & Hnomem & Hno).
  split.
  - intros s Hs.
    destruct (merge_left_assoc _ _ _ _ "login_count_mean" HM
                (fun n => proj1 (not_suffixed_x n)) (fun n => proj1 (not_suffixed_y n)))
      as [rows Hassoc].
    unfold getitem in Hs. rewrite Hassoc in Hs. unfold overlaps in Hs.
    rewrite Hmem, andb_true_r in Hs. cbn [String.eqb Ascii.eqb Bool.eqb negb andb] in Hs.
    destruct (mem_string "login_count_mean" (column_names c2)) eqn:Hleft; [discriminate|].
    rewrite (mem_string_assoc _ _ Hleft), Hsl in Hs. cbn in Hs. injection Hs as <-.
    apply take_right_float64, Hfloat.
  - intros s Hs.
    destruct (merge_left_assoc _ _ _ _ "tenure_days" HM
                (fun n => proj2 (not_suffixed_x n)) (fun n => proj2 (not_suffixed_y n)))
      as [rows Hassoc].
    unfold getitem in Hs |- *. rewrite Hassoc in Hs. unfold overlaps in Hs.
    rewrite Hnomem, andb_false_r, Hno in Hs.
    destruct (assoc "tenure_days" (columns c2)) as [s0|]; [|discriminate].
    injection Hs as <-. eauto.
Qed.

(** A column of the table before the encoding that is not encoded is in
    the returned table with its booleans as integers. *)
Lemma encoded_getitem (D3 G : DataFrame) (t : string) (s : Series) :
  get_dummies D3 encoded_columns = Ok G ->
  mem_string t encoded_columns = false ->
  getitem D3 t = Ok s ->
  getitem (bools_to_int G) t = Ok (int_of_bool_series s).
Proof.
  intros HG Ht Hs. apply getitem_bools_to_int. eapply getitem_get_dummies; eauto.
Qed.

(** The derived features of the returned table, row by row. *)
Lemma build_features_rows (c2 u F : DataFrame) (tenure : Series) :
  build_features c2 u = Ok F ->
  getitem c2 "tenure_days" = Ok tenure -> sdtype tenure <> bool_ ->
  exists S L T D Fm,
    getitem F "session_duration_minutes_mean" = Ok S
    /\ getitem F "login_count_mean" = Ok L
    /\ getitem F "support_tickets_sum" = Ok T
    /\ getitem F "tenure_days" = Ok D
    /\ getitem F "features_used_mean" = Ok Fm
    /\ (forall i s l,
          cells S !! i = Some s -> cells L !! i = Some l ->
          cell F "avg_session_per_login" i = Some (avg_session_per_login_of s l))
    /\ (forall i t d,
          cells T !! i = Some t -> cells D !! i = Some d ->
          cell F "support_ticket_rate" i = Some (support_ticket_rate_of t d))
    /\ (forall i l s f,
          cells L !! i = Some l -> cells S !! i = Some s -> cells Fm !! i = Some f ->
          cell F "engagement_score" i = Some (engagement_score_of l s f)).
Proof.
  unfold build_features. intros HF Htenure Hnotbool.
  apply bind_Ok in HF as (U & HU & HF).
  apply bind_Ok in HF as (M & HM & HF).
  apply bind_Ok in HF as (D3 & HD3 & HF).
  apply bind_Ok in HF as (G & HG & [= <-]).
  destruct (merged_dtypes _ _ _ _ HU HM) as [Hlogin Hten].
  apply derive_features_Ok in HD3
    as [S0 L0 T0 Dn0 Fm0 A R E HS HL HT HDn HFm -> HA HR HE HAc HRc HEc].
  (* the dtypes of the two denominators *)
  assert (HL0 : sdtype L0 <> bool_).
  { apply getitem_fill_numeric in HL as (l0 & Hl0 & ->).
    rewrite fill_if_number_dtype, (Hlogin _ Hl0). discriminate. }
  assert (HD0 : sdtype Dn0 <> bool_).
  { apply getitem_fill_numeric in HDn as (d0 & Hd0 & ->).
    rewrite fill_if_number_dtype. destruct (Hten _ Hd0) as (s0 & Hs0 & ->).
    rewrite Htenure in Hs0. injection Hs0 as <-. exact Hnotbool. }
  (* the columns of the returned table *)
  set (D3 := setitem (setitem (setitem (fill_numeric M) "avg_session_per_login" A)
                        "support_ticket_rate" R) "engagement_score" E) in *.
  assert (Hread : forall t X, getitem (fill_numeric M) t = Ok X ->
            t <> "avg_session_per_login" -> t <> "support_ticket_rate" ->
            t <> "engagement_score" -> mem_string t encoded_columns = false ->
            getitem (bools_to_int G) t = Ok (int_of_bool_series X)).
  { intros t X HX H1 H2 H3 Henc. eapply encoded_getitem; eauto.
    unfold D3. rewrite !getitem_setitem_ne by congruence. exact HX. }
  assert (HFA : getitem (bools_to_int G) "avg_session_per_login" = Ok A).
  { replace (Ok A) with (Ok (int_of_bool_series A))
      by (rewrite int_of_bool_series_number; [reflexivity | rewrite HA; discriminate]).
    eapply encoded_getitem; eauto. unfold D3.
    rewrite !getitem_setitem_ne by discriminate. apply getitem_setitem_eq. }
  assert (HFR : getitem (bools_to_int G) "support_ticket_rate" = Ok R).
  { replace (Ok R) with (Ok (int_of_bool_series R))
      by (rewrite int_of_bool_series_number; [reflexivity | rewrite HR; discriminate]).
    eapply encoded_getitem; eauto. unfold D3.
    rewrite getitem_setitem_ne by discriminate. apply getitem_setitem_eq. }
  assert (HFE : getitem (bools_to_int G) "engagement_score" = Ok E).
  { replace (Ok E) with (Ok (int_of_bool_series E))
      by (rewrite int_of_bool_series_number; [reflexivity | rewrite HE; discriminate]).
    eapply encoded_getitem; eauto. unfold D3. apply getitem_setitem_eq. }
  exists (int_of_bool_series S0), L0, (int_of_bool_series T0), Dn0, (int_of_bool_series Fm0).
  split; [apply Hread; [exact HS | discriminate ..| reflexivity]|].
  split; [replace (Ok L0) with (Ok (int_of_bool_series L0))
            by (rewrite (int_of_bool_series_number L0 HL0); reflexivity);
          apply Hread; [exact HL | discriminate ..| reflexivity]|].
  split; [apply Hread; [exact HT | discriminate ..| reflexivity]|].
  split; [replace (Ok Dn0) with (Ok (int_of_bool_series Dn0))
            by (rewrite (int_of_bool_series_number Dn0 HD0); reflexivity);
          apply Hread; [exact HDn | discriminate ..| reflexivity]|].
  split; [apply Hread; [exact HFm | discriminate ..| reflexivity]|].
  assert (Hcell : forall t X i, getitem (bools_to_int G) t = Ok X ->
            cell (bools_to_int G) t i = cells X !! i).
  { intros t X i HX. unfold cell. unfold getitem in HX.
    destruct (assoc t (columns (bools_to_int G))); [|discriminate].
    injection HX as ->. reflexivity. }
  split; [|split].
  - intros i s l Hs Hl. rewrite (Hcell _ _ _ HFA).
    apply int_of_bool_series_lookup in Hs as (s0 & Hs0 & Hfs).
    rewrite (HAc i s0 l Hs0 Hl). unfold avg_session_per_login_of. rewrite Hfs. reflexivity.
  - intros i t d Ht Hd. rewrite (Hcell _ _ _ HFR).
    apply int_of_bool_series_lookup in Ht as (t0 & Ht0 & Hft).
    rewrite (HRc i t0 d Ht0 Hd). unfold support_ticket_rate_of. rewrite Hft. reflexivity.
  - intros i l s f Hl Hs Hf. rewrite (Hcell _ _ _ HFE).
    apply int_of_bool_series_lookup in Hs as (s0 & Hs0 & Hfs).
    apply int_of_bool_series_lookup in Hf as (f0 & Hf0 & Hff).
    rewrite (HEc i l s0 f0 Hl Hs0 Hf0). unfold engagement_score_of.
    rewrite Hfs, Hff. reflexivity.
Qed.

Lemma days_since_dtype now s : sdtype (days_since now s) <> bool_.
Proof. unfold days_since. destruct (forallb _ _); discriminate. Qed.

(** A call that returns has built the table from the customer table with
    its tenure column. *)
Lemma transform_features_Ok now customer_df usage_df h h' F :
  transform_features now customer_df usage_df h = (h', Ok F) ->
  exists c2 u s,
    build_features c2 u = Ok F
    /\ getitem c2 "tenure_days" = Ok (days_since now s).
Proof.
  unfold transform_features.
  destruct (deref h customer_df ≫= convert_signup) as [c1|]; [|discriminate].
  destruct (add_tenure now c1) as [c2|] eqn:Hc2; [|discriminate].
  intros [= _ HF]. apply bind_Ok in HF as (u & _ & HF).
  unfold add_tenure in Hc2. apply bind_Ok in Hc2 as (s & _ & [= <-]).
  exists (setitem c1 "tenure_days" (days_since now s)), u, s.
  split; [exact HF | apply getitem_setitem_eq].
Qed.

Lemma transform_features_rows now customer_df usage_df h h' F :
  transform_features now customer_df usage_df h = (h', Ok F) ->
  exists S L T D Fm,
    getitem F "session_duration_minutes_mean" = Ok S
    /\ getitem F "login_count_mean" = Ok L
    /\ getitem F "support_tickets_sum" = Ok T
    /\ getitem F "tenure_days" = Ok D
    /\ getitem F "features_used_mean" = Ok Fm
    /\ (forall i s l,
          cells S !! i = Some s -> cells L !! i = Some l ->
          cell F "avg_session_per_login" i = Some (avg_session_per_login_of s l))
    /\ (forall i t d,
          cells T !! i = Some t -> cells D !! i = Some d ->
          cell F "support_ticket_rate" i = Some (support_ticket_rate_of t d))
    /\ (forall i l s f,
          cells L !! i = Some l -> cells S !! i = Some s -> cells Fm !! i = Some f ->
          cell F "engagement_score" i = Some (engagement_score_of l s f)).
Proof.
  intros HF. apply transform_features_Ok in HF as (c2 & u & s & HF & Hten).
  eapply build_features_rows; [exact HF | exact Hten | apply days_since_dtype].
Qed.

End DerivedFeatures.

(** Multiplication of binary64 numbers commutes. *)
Lemma float_mul_comm (x y : float) : (x * y)%float = (y * x)%float.
Proof.
  apply Prim2SF_inj. rewrite !mul_spec. unfold SF64mul, SFmul.
  destruct (Prim2SF x) as [sx|sx| |sx mx ex], (Prim2SF y) as [sy|sy| |sy my ey];
    try reflexivity; rewrite (xorb_comm sx sy); try reflexivity.
  rewrite (Pos.mul_comm mx my), (Z.add_comm ex ey). reflexivity.
Qed.

Section DerivedFeatureClaims.
Context `{Pandas}.

(** C5, as the code has it. In every row of the returned table,
    avg_session_per_login is session_duration_minutes_mean divided by
    login_count_mean, and support_ticket_rate is support_tickets_sum divided
    by tenure_days and multiplied by 30, both rounded to 4 decimals, where a
    denominator that is 0 is replaced by 1 and any other denominator is
    taken as it is (also one below 1). *)
Theorem derived_ratios (now : Z) (customer_df usage_df : loc) (h h' : heap) (F : DataFrame) :
  transform_features now customer_df usage_df h = (h', Ok F) ->
  (exists S L T D,
      getitem F "session_duration_minutes_mean" = Ok S
      /\ getitem F "login_count_mean" = Ok L
      /\ getitem F "support_tickets_sum" = Ok T
      /\ getitem F "tenure_days" = Ok D
      /\ (forall i s l,
            cells S !! i = Some s -> cells L !! i = Some l ->
            cell F "avg_session_per_login" i
            = Some (VFloat (Float.round4 (to_float s / to_float (replace_0_1 l)))))
      /\ (forall i t d,
            cells T !! i = Some t -> cells D !! i = Some d ->
            cell F "support_ticket_rate" i
            = Some (VFloat (Float.round4 (to_float t / to_float (replace_0_1 d) * 30)))))
  /\ (forall f, to_float (replace_0_1 (VFloat f)) = if PrimFloat.eqb f 0 then 1%float else f)
  /\ (forall z, to_float (replace_0_1 (VInt z)) = if z =? 0 then 1%float else Float.of_Z z).
Proof.
  intros HF. split; [|split].
  - destruct (transform_features_rows _ _ _ _ _ _ HF)
      as (S & L & T & D & Fm & HS & HL & HT & HD & _ & Havg & Hrate & _).
    exists S, L, T, D. exact (conj HS (conj HL (conj HT (conj HD (conj Havg Hrate))))).
  - intros f. simpl. destruct (PrimFloat.eqb f 0); reflexivity.
  - intros [|p|p]; reflexivity.
Qed.

(** C7. In every row of the returned table, engagement_score is
    0.3 times login_count_mean, plus 0.4 times session_duration_minutes_mean
    over 60, plus 0.3 times features_used_mean, in binary64 arithmetic,
    summed from the left and rounded to 4 decimals: a function of the three
    means, which is 4.7 at (10, 30, 5). *)
Theorem engagement_score_formula (now : Z) (customer_df usage_df : loc) (h h' : heap)
    (F : DataFrame) :
  transform_features now customer_df usage_df h = (h', Ok F) ->
  (exists L S Fm,
      getitem F "login_count_mean" = Ok L
      /\ getitem F "session_duration_minutes_mean" = Ok S
      /\ getitem F "features_used_mean" = Ok Fm
      /\ forall i l s f,
           cells L !! i = Some l -> cells S !! i = Some s -> cells Fm !! i = Some f ->
           cell F "engagement_score" i
           = Some (VFloat (Float.round4 (0.3 * to_float l + 0.4 * (to_float s / 60)
                                         + 0.3 * to_float f))))
  /\ Float.round4 (0.3 * 10 + 0.4 * (30 / 60) + 0.3 * 5) = 4.7%float.
Proof.
  intros HF. split; [|vm_compute; reflexivity].
  destruct (transform_features_rows _ _ _ _ _ _ HF)
    as (S & L & T & D & Fm & HS & HL & _ & _ & HFm & _ & _ & Hscore).
  exists L, S, Fm. split; [exact HL|]. split; [exact HS|]. split; [exact HFm|].
  intros i l s f Hl Hs Hf. rewrite (Hscore i l s f Hl Hs Hf).
  unfold engagement_score_of.
  rewrite (float_mul_comm (to_float l)), (float_mul_comm (to_float s / 60)),
    (float_mul_comm (to_float f)).
  reflexivity.
Qed.

End DerivedFeatureClaims.

(** The theorem [derived_ratios] at the example tables: customer 1 has
    session mean 30 and login mean 10, so 3 minutes per login. *)
Lemma derived_ratios_witness :
  transform_features (H := Reference.pandas) Examples.now 0%nat 1%nat Examples.objects
  = ((transform_features (H := Reference.pandas) Examples.now 0%nat 1%nat
        Examples.objects).1, Ok Examples.features_df)
  /\ cell Examples.features_df "avg_session_per_login" 0 = Some (VFloat 3).
Proof.
  assert (Hrun : transform_features (H := Reference.pandas) Examples.now 0%nat 1%nat
                   Examples.objects
                 = ((transform_features (H := Reference.pandas) Examples.now 0%nat 1%nat
                       Examples.objects).1, Ok Examples.features_df))
    by (vm_compute; reflexivity).
  split; [exact Hrun|].
  destruct (derived_ratios _ _ _ _ _ _ Hrun)
    as [(S & L & T & D & HS & HL & _ & _ & Havg & _) _].
  vm_compute in HS. injection HS as <-. vm_compute in HL. injection HL as <-.
  rewrite (Havg 0%nat (VFloat 30) (VFloat 10) eq_refl eq_refl).
  vm_compute. reflexivity.
Defined.

(** C5 as stated fails: with login_count_mean 0.5 and session mean 10 the
    code divides by 0.5 and gets 20, not by max(0.5, 1). *)
Lemma avg_session_not_divided_by_max :
  ~ (forall i s l,
       cell Examples.features_half "session_duration_minutes_mean" i = Some s ->
       cell Examples.features_half "login_count_mean" i = Some l ->
       cell Examples.features_half "avg_session_per_login" i
       = Some (avg_session_per_login_spec s l)).
Proof.
  intros Hclaim.
  assert (Hs : cell Examples.features_half "session_duration_minutes_mean" 0
               = Some (VFloat 10)) by (vm_compute; reflexivity).
  assert (Hl : cell Examples.features_half "login_count_mean" 0 = Some (VFloat 0.5))
    by (vm_compute; reflexivity).
  specialize (Hclaim 0%nat _ _ Hs Hl).
  apply (f_equal (fun o => match o with
                           | Some (VFloat x) => PrimFloat.ltb x 15
                           | _ => false
                           end)) in Hclaim.
  vm_compute in Hclaim. discriminate.
Qed.

(** The theorem [engagement_score_formula] at the example tables:
    customer 1 has the means (10, 30, 5) and the score 4.7. *)
Lemma engagement_score_formula_witness :
  transform_features (H := Reference.pandas) Examples.now 0%nat 1%nat Examples.objects
  = ((transform_features (H := Reference.pandas) Examples.now 0%nat 1%nat
        Examples.objects).1, Ok Examples.features_df)
  /\ cell Examples.features_df "engagement_score" 0 = Some (VFloat 4.7).
Proof.
  assert (Hrun : transform_features (H := Reference.pandas) Examples.now 0%nat 1%nat
                   Examples.objects
                 = ((transform_features (H := Reference.pandas) Examples.now 0%nat 1%nat
                       Examples.objects).1, Ok Examples.features_df))
    by (vm_compute; reflexivity).
  split; [exact Hrun|].
  destruct (engagement_score_formula _ _ _ _ _ _ Hrun)
    as [(L & S & Fm & HL & HS & HFm & Hscore) _].
  vm_compute in HL. injection HL as <-. vm_compute in HS. injection HS as <-.
  vm_compute in HFm. injection HFm as <-.
  rewrite (Hscore 0%nat (VFloat 10) (VFloat 30) (VFloat 5) eq_refl eq_refl eq_refl).
  vm_compute. reflexivity.
Defined.

(** * Further properties of the code *)

(** ** The usage extract *)

Lemma usage_le_total a b : usage_le a b = false -> usage_le b a = true.
Proof. unfold usage_le. intros Hab. lia. Qed.

Lemma usage_le_trans a b c :
  usage_le a b = true -> usage_le b c = true -> usage_le a c = true.
Proof. unfold usage_le. intros Hab Hbc. lia. Qed.

Lemma insert_usage_perm u l : Permutation (insert_usage u l) (u :: l).
Proof.
  induction l as [|v l IH]; simpl; [reflexivity|].
  destruct (usage_le u v); [reflexivity|].
  rewrite IH. apply perm_swap.
Qed.

Lemma order_usage_perm l : Permutation (order_usage l) l.
Proof.
  unfold order_usage. induction l as [|u l IH]; simpl; [reflexivity|].
  rewrite insert_usage_perm. constructor. exact IH.
Qed.

Lemma insert_usage_sorted u l :
  StronglySorted (fun a b => usage_le a b = true) l ->
  StronglySorted (fun a b => usage_le a b = true) (insert_usage u l).
Proof.
  induction 1 as [|v l Hl IH Hv]; simpl; [repeat constructor|].
  destruct (usage_le u v) eqn:Huv.
  - constructor; [constructor; assumption|]. constructor; [exact Huv|].
    eapply List.Forall_impl; [|exact Hv]. intros w Hw. eapply usage_le_trans; eauto.
  - constructor; [exact IH|].
    eapply Permutation_Forall; [symmetry; apply insert_usage_perm|].
    constructor; [apply usage_le_total, Huv | exact Hv].
Qed.

Lemma order_usage_sorted l : StronglySorted (fun a b => usage_le a b = true) (order_usage l).
Proof.
  unfold order_usage. induction l as [|u l IH]; simpl; [constructor|].
  apply insert_usage_sorted, IH.
Qed.

Lemma strongly_sorted_lookup {A} (R : A -> A -> Prop) (l : list A) i j x y :
  StronglySorted R l -> (i < j)%nat -> l !! i = Some x -> l !! j = Some y -> R x y.
Proof.
  intros Hs. revert i j. induction Hs as [|a l Hl IH Ha]; intros i j Hij Hi Hj; [discriminate|].
  destruct j as [|j]; [lia|]. destruct i as [|i]; simpl in *.
  - injection Hi as <-. eapply List.Forall_forall; [exact Ha|].
    apply list_elem_of_In. eapply list_elem_of_lookup_2. exact Hj.
  - eapply (IH i j); [lia | assumption | assumption].
Qed.

Lemma filter_length_perm {A} (P : A -> bool) l l' :
  Permutation l l' -> length (List.filter P l) = length (List.filter P l').
Proof.
  induction 1 as [|x l l' _ IH|x y l|l l' l'' _ IH1 _ IH2]; simpl.
  - reflexivity.
  - destruct (P x); simpl; rewrite IH; reflexivity.
  - destruct (P x), (P y); reflexivity.
  - rewrite IH1. exact IH2.
Qed.

Lemma infer_series_same (vs : list value) :
  Forall (fun v => as_float_cell v = v) vs -> cells (infer_series vs) = vs.
Proof.
  intros Hvs. unfold infer_series. destruct (infer_dtype vs); try reflexivity.
  cbn [cells]. induction Hvs as [|v vs Hv _ IH]; simpl; [reflexivity|].
  rewrite Hv, IH. reflexivity.
Qed.

Lemma usage_id_cells (us : list usage_metric) :
  column_cells (frame_of_records usage_fields us) "customer_id"
  = map (fun u => VInt (u_customer_id u)) us.
Proof.
  unfold column_cells, frame_of_records. simpl.
  apply (infer_series_ints_map u_customer_id).
Qed.

Lemma usage_date_cells (us : list usage_metric) :
  column_cells (frame_of_records usage_fields us) "metric_date"
  = map (fun u => VDate (u_metric_date u)) us.
Proof.
  unfold column_cells, frame_of_records. simpl. apply infer_series_same.
  induction us; simpl; constructor; [reflexivity | assumption].
Qed.

(** The rows of [usage_metrics] that [extract_usage_data] selects. *)
Lemma extract_usage_data_rows customer_ids db :
  exists rows,
    rows = match customer_ids with
           | Some ((_ :: _) as ids) =>
               List.filter (fun u => existsb (Z.eqb (u_customer_id u)) ids) (usage_metrics db)
           | _ => usage_metrics db
           end
    /\ extract_usage_data customer_ids db = frame_of_records usage_fields (order_usage rows).
Proof. eexists. split; reflexivity. Qed.

(** X1. The usage extract is in the order of the query: along its rows
    the customer id never decreases, and within one customer the metric
    date never decreases. *)
Theorem extract_usage_data_ordered (customer_ids : option (list Z)) (db : Store)
    (i j : nat) (a b da db' : Z) :
  let df := extract_usage_data customer_ids db in
  (i < j)%nat ->
  cell df "customer_id" i = Some (VInt a) -> cell df "metric_date" i = Some (VDate da) ->
  cell df "customer_id" j = Some (VInt b) -> cell df "metric_date" j = Some (VDate db') ->
  a < b \/ (a = b /\ da <= db').
Proof.
  intros df Hij Hai Hdi Hbj Hdj. subst df.
  destruct (extract_usage_data_rows customer_ids db) as (rows & _ & Hdf).
  rewrite Hdf in *. rewrite cell_column_cells in *.
  rewrite usage_id_cells in Hai, Hbj. rewrite usage_date_cells in Hdi, Hdj.
  rewrite list_lookup_fmap in *.
  destruct (order_usage rows !! i) as [u|] eqn:Hu; [|discriminate].
  destruct (order_usage rows !! j) as [v|] eqn:Hv; [|discriminate].
  simpl in *. injection Hai as <-. injection Hdi as <-.
  injection Hbj as <-. injection Hdj as <-.
  pose proof (strongly_sorted_lookup _ _ _ _ _ _ (order_usage_sorted rows) Hij Hu Hv) as Hle.
  unfold usage_le in Hle. lia.
Qed.

(** X2. The usage extract has every usage row of the store once, or, for
    a non-empty id list, every usage row of a listed customer and no other.
    An empty id list restricts nothing: the extract is the one of the call
    without a list. *)
Theorem extract_usage_data_selects (customer_ids : option (list Z)) (db : Store) (z : Z) :
  extract_usage_data (Some []) db = extract_usage_data None db
  /\ nrows (extract_usage_data None db) = length (usage_metrics db)
  /\ rows_of_customer (extract_usage_data customer_ids db) z
     = match customer_ids with
       | Some ((_ :: _) as ids) =>
           if existsb (Z.eqb z) ids
           then length (List.filter (fun u => u_customer_id u =? z) (usage_metrics db))
           else 0%nat
       | _ => length (List.filter (fun u => u_customer_id u =? z) (usage_metrics db))
       end.
Proof.
  split; [reflexivity|]. split.
  - unfold extract_usage_data, frame_of_records. cbn [nrows].
    apply Permutation_length, order_usage_perm.
  - destruct (extract_usage_data_rows customer_ids db) as (rows & Hrows & ->).
    unfold rows_of_customer. rewrite usage_id_cells.
    assert (Hcount : forall us,
      length (List.filter (key_eqb (VInt z)) (map (fun u => VInt (u_customer_id u)) us))
      = length (List.filter (fun u => u_customer_id u =? z) us)).
    { induction us as [|u us IH]; simpl; [reflexivity|].
      rewrite (Z.eqb_sym z). destruct (u_customer_id u =? z); simpl; rewrite IH; reflexivity. }
    rewrite Hcount, (filter_length_perm _ _ _ (order_usage_perm rows)), Hrows.
    clear Hrows Hcount rows.
    destruct customer_ids as [[|id ids]|]; try reflexivity.
    generalize (id :: ids). intros l.
    assert (Hboth : forall us,
      List.filter (fun u => u_customer_id u =? z)
        (List.filter (fun u => existsb (Z.eqb (u_customer_id u)) l) us)
      = if existsb (Z.eqb z) l
        then List.filter (fun u => u_customer_id u =? z) us else []).
    { induction us as [|u us IH]; cbn [List.filter].
      - destruct (existsb (Z.eqb z) l); reflexivity.
      - destruct (u_customer_id u =? z) eqn:Huz.
        + apply Z.eqb_eq in Huz. rewrite Huz.
          destruct (existsb (Z.eqb z) l); cbn [List.filter].
          * rewrite Huz, Z.eqb_refl, IH. reflexivity.
          * exact IH.
        + destruct (existsb (Z.eqb (u_customer_id u)) l); cbn [List.filter].
          * rewrite Huz. exact IH.
          * exact IH. }
    rewrite Hboth. destruct (existsb (Z.eqb z) l); reflexivity.
Qed.

(** The theorem [extract_usage_data_ordered] at the example store: the
    first two rows are of customer 1, on days 19100 and 19101. *)
Lemma extract_usage_data_ordered_witness :
  cell (extract_usage_data None Examples.store) "customer_id" 0 = Some (VInt 1)
  /\ cell (extract_usage_data None Examples.store) "metric_date" 1 = Some (VDate 19101)
  /\ (1 < 1 \/ (1 = 1 /\ 19100 <= 19101)).
Proof.
  split; [vm_compute; reflexivity|]. split; [vm_compute; reflexivity|].
  apply (extract_usage_data_ordered None Examples.store 0 1 1 1 19100 19101);
    [lia | vm_compute; reflexivity ..].
Defined.

(** ** The customer extract with both bounds *)

Lemma signup_date_cells (js : list joined) :
  column_cells (frame_of_records customer_fields js) "signup_date"
  = map (fun j => date_cell (c_signup_date j.1)) js.
Proof.
  unfold column_cells, frame_of_records. simpl. apply infer_series_same.
  induction js as [|j js IH]; simpl; constructor; [|exact IH].
  destruct (c_signup_date j.1); reflexivity.
Qed.

Lemma rows_of_customer_extract s e db js id :
  extract_customer_rows s e db = Ok js ->
  rows_of_customer (frame_of_records customer_fields js) id
  = list_sum (map (fun c => if c_customer_id c =? id then rows_due db s e c else 0%nat)
                  (customers db)).
Proof.
  intros Hrows. apply extract_customer_rows_blocks in Hrows.
  unfold rows_of_customer. rewrite customer_id_cells, Hrows.
  rewrite count_ids_blocks by (apply due_block_customer).
  f_equal. apply map_ext. intros c. rewrite due_block_length. reflexivity.
Qed.

Lemma list_sum_ge {A} (f : A -> nat) (l : list A) (a : A) :
  In a l -> (f a <= list_sum (map f l))%nat.
Proof.
  induction l as [|b l IH]; simpl; [intros []|].
  intros [-> | Hin]; [lia|]. specialize (IH Hin). lia.
Qed.

Lemma list_sum_zero {A} (f : A -> nat) (l : list A) :
  (forall a, In a l -> f a = 0%nat) -> list_sum (map f l) = 0%nat.
Proof.
  induction l as [|b l IH]; simpl; [reflexivity|]. intros Hf.
  rewrite (Hf b) by (left; reflexivity). apply IH. intros a Ha. apply Hf. right. exact Ha.
Qed.

(** X3. With both bounds given as date literals, every row of the
    customer extract has a signup date within the bounds, both included; a
    customer whose signup date is within the bounds has a row, and a
    customer id whose customers are all outside the bounds or without a
    signup date has none. *)
Theorem extract_customer_data_between (s e : string) (lo hi : Z) (db : Store)
    (df : DataFrame) :
  Calendar.date_of_literal s = Some lo ->
  Calendar.date_of_literal e = Some hi ->
  extract_customer_data (Some s) (Some e) db = Ok df ->
  (forall i, (i < nrows df)%nat ->
     exists d, cell df "signup_date" i = Some (VDate d) /\ lo <= d <= hi)
  /\ (forall c d, In c (customers db) -> c_signup_date c = Some d -> lo <= d <= hi ->
        (1 <= rows_of_customer df (c_customer_id c))%nat)
  /\ (forall id,
        (forall c, In c (customers db) -> c_customer_id c = id ->
           match c_signup_date c with
           | Some d => d < lo \/ hi < d
           | None => True
           end) ->
        rows_of_customer df id = 0%nat).
Proof.
  intros Hlo Hhi Hex.
  assert (Hs : truthy (Some s) && truthy (Some e) = true).
  { cbn [truthy]. destruct s; [discriminate Hlo|]. destruct e; [discriminate Hhi|]. reflexivity. }
  assert (Hsel : forall c, selected (Some s) (Some e) c
                           = match c_signup_date c with
                             | Some d => (lo <=? d) && (d <=? hi)
                             | None => false
                             end).
  { intros c. unfold selected. rewrite Hs.
    change (default EmptyString (Some s)) with s. change (default EmptyString (Some e)) with e.
    rewrite Hlo, Hhi. reflexivity. }
  unfold extract_customer_data in Hex. apply fmap_Ok in Hex as (js & Hrows & ->).
  pose proof (fun id => rows_of_customer_extract _ _ _ _ id Hrows) as Hcount.
  split; [|split].
  - intros i Hi. change (nrows (frame_of_records customer_fields js)) with (length js) in Hi.
    destruct (lookup_lt_is_Some_2 js i Hi) as [j Hj].
    rewrite cell_column_cells, signup_date_cells, list_lookup_fmap, Hj. cbn [fmap option_fmap option_map].
    apply extract_customer_rows_blocks in Hrows.
    apply list_elem_of_lookup_2, list_elem_of_In in Hj. rewrite Hrows in Hj.
    apply in_flat_map in Hj as (c & _ & Hc).
    pose proof (due_block_customer _ _ _ _ _ Hc) as Hjc. subst c.
    unfold due_block in Hc. rewrite Hsel in Hc. unfold date_cell.
    destruct (c_signup_date j.1) as [d|]; [|exfalso; exact Hc].
    exists d. split; [reflexivity|].
    destruct ((lo <=? d) && (d <=? hi)) eqn:Hd; [lia | exfalso; exact Hc].
  - intros c d Hc Hd Hrange. rewrite Hcount.
    etransitivity; [|apply (list_sum_ge _ _ c Hc)]. cbv beta.
    rewrite Z.eqb_refl. unfold rows_due. rewrite Hsel, Hd.
    replace ((lo <=? d) && (d <=? hi)) with true by lia. lia.
  - intros id Hout. rewrite Hcount. apply list_sum_zero. intros c Hc.
    destruct (Z.eqb_spec (c_customer_id c) id) as [Hid|]; [|reflexivity].
    unfold rows_due. rewrite Hsel. specialize (Hout c Hc Hid).
    destruct (c_signup_date c) as [d|]; [|reflexivity].
    replace ((lo <=? d) && (d <=? hi)) with false by lia. reflexivity.
Qed.

(** The theorem [extract_customer_data_between] at the example store and
    the year 2022: one row, of customer 1, who signed up on day 19000. *)
Lemma extract_customer_data_between_witness :
  Calendar.date_of_literal "2022-01-01" = Some 18993
  /\ Calendar.date_of_literal "2022-12-31" = Some 19357
  /\ is_ok (extract_customer_data (Some "2022-01-01") (Some "2022-12-31") Examples.store) = true
  /\ forall df,
       extract_customer_data (Some "2022-01-01") (Some "2022-12-31") Examples.store = Ok df ->
       (1 <= rows_of_customer df 1)%nat.
Proof.
  split; [reflexivity|]. split; [reflexivity|]. split; [vm_compute; reflexivity|].
  intros df Hdf.
  destruct (extract_customer_data_between "2022-01-01" "2022-12-31" 18993 19357
              Examples.store df eq_refl eq_refl Hdf) as (_ & Hin & _).
  apply (Hin (Examples.a_customer 1 (Some 19000) "F") 19000);
    [left; reflexivity | reflexivity | lia].
Defined.

(** ** Loading the feature store *)

Lemma assoc_row df i k :
  assoc k (row df i) = (fun s => default VNull (cells s !! i)) <$> assoc k (columns df).
Proof.
  unfold row. induction (columns df) as [|[k' s] l IH]; [reflexivity|].
  cbn [map assoc fst snd]. destruct (String.eqb k' k); [reflexivity | exact IH].
Qed.

Lemma row_getitem_missing df i k :
  has_column df k = false -> row_getitem (row df i) k = Raise (KeyError k).
Proof.
  unfold has_column, row_getitem. rewrite assoc_row.
  destruct (assoc k (columns df)); [discriminate | reflexivity].
Qed.

Lemma row_get_missing df i k d :
  has_column df k = false -> row_get (row df i) k d = d.
Proof.
  unfold has_column, row_get. rewrite assoc_row.
  destruct (assoc k (columns df)); [discriminate | reflexivity].
Qed.

Lemma row_getitem_present df i k :
  has_column df k = true -> exists v, row_getitem (row df i) k = Ok v.
Proof.
  unfold has_column, row_getitem. rewrite assoc_row.
  destruct (assoc k (columns df)); [eauto | discriminate].
Qed.

(** The first row decides: a record that cannot be built ends the loop. *)
Lemma feature_record_missing date df i k :
  In k required_feature_columns -> has_column df k = false ->
  exists e, feature_record date (row df i) = Raise e
    /\ (e = arith_error
        \/ exists k', In k' required_feature_columns /\ has_column df k' = false
                      /\ e = KeyError k').
Proof.
  intros Hk Hmiss.
  assert (Hkey : forall k', In k' required_feature_columns -> has_column df k' = false ->
            exists e, Raise (A := snapshot) (KeyError k') = Raise e
              /\ (e = arith_error
                  \/ exists k'', In k'' required_feature_columns /\ has_column df k'' = false
                                /\ e = KeyError k'')).
  { intros k' Hin Hf. eexists. split; [reflexivity|]. right. eauto. }
  unfold feature_record.
  destruct (has_column df "customer_id") eqn:H1;
    [|rewrite (row_getitem_missing _ _ _ H1); apply Hkey; [simpl; tauto | exact H1]].
  destruct (row_getitem_present df i _ H1) as [v1 ->]. cbn [mbind result_bind].
  destruct (has_column df "tenure_days") eqn:H2;
    [|rewrite (row_getitem_missing _ _ _ H2); apply Hkey; [simpl; tauto | exact H2]].
  destruct (row_getitem_present df i _ H2) as [v2 ->]. cbn [mbind result_bind].
  destruct (has_column df "support_ticket_rate") eqn:H3;
    [|rewrite (row_getitem_missing _ _ _ H3); apply Hkey; [simpl; tauto | exact H3]].
  destruct (row_getitem_present df i _ H3) as [v3 ->]. cbn [mbind result_bind].
  destruct (scalar_div (row_get (row df i) "features_used_mean" (VInt 0)) 10) as [v4|e] eqn:H4.
  2:{ exists e. split; [reflexivity|]. left.
      unfold scalar_div in H4.
      destruct (row_get (row df i) "features_used_mean" (VInt 0)); congruence. }
  cbn [mbind result_bind].
  destruct (has_column df "engagement_score") eqn:H5;
    [|rewrite (row_getitem_missing _ _ _ H5); apply Hkey; [simpl; tauto | exact H5]].
  destruct (row_getitem_present df i _ H5) as [v5 ->]. cbn [mbind result_bind].
  destruct (has_column df "total_charges") eqn:H6;
    [|rewrite (row_getitem_missing _ _ _ H6); apply Hkey; [simpl; tauto | exact H6]].
  exfalso. simpl in Hk. destruct Hk as [<- | [<- | [<- | [<- | [<- | []]]]]]; congruence.
Qed.

(** X4. A features table with a row that lacks one of the columns read
    as [row[...]] (customer_id, tenure_days, support_ticket_rate,
    engagement_score, total_charges) is not loaded: the call raises while
    the records are built, before the store is touched, with the KeyError
    of a missing column, or with the error of the division by 10. *)
Theorem load_features_missing_column (date : Z) (df : DataFrame) (db : Store) (k : string) :
  (0 < nrows df)%nat ->
  In k required_feature_columns ->
  has_column df k = false ->
  exists e, load_features date df db = Raise e
    /\ (e = arith_error
        \/ exists k', In k' required_feature_columns /\ has_column df k' = false
                      /\ e = KeyError k').
Proof.
  intros Hrows Hk Hmiss. unfold load_features, iterrows.
  destruct (nrows df) as [|n]; [lia|]. cbn [seq map traverse].
  destruct (feature_record_missing date df 0 k Hk Hmiss) as (e & -> & He).
  exists e. split; [reflexivity | exact He].
Qed.

(** The theorem [load_features_missing_column] at the example table
    without its engagement_score column. *)
Lemma load_features_missing_column_witness :
  exists e,
    load_features Examples.today
      (mkDF 1 [("customer_id", mkSeries int64 [VInt 1]);
               ("tenure_days", mkSeries int64 [VInt 3]);
               ("support_ticket_rate", mkSeries float64 [VFloat 0]);
               ("total_charges", mkSeries float64 [VFloat 10])])
      Examples.store = Raise e.
Proof.
  destruct (load_features_missing_column Examples.today
              (mkDF 1 [("customer_id", mkSeries int64 [VInt 1]);
                       ("tenure_days", mkSeries int64 [VInt 3]);
                       ("support_ticket_rate", mkSeries float64 [VFloat 0]);
                       ("total_charges", mkSeries float64 [VFloat 10])])
              Examples.store "engagement_score") as (e & He & _).
  - simpl. lia.
  - simpl. tauto.
  - reflexivity.
  - exists e. exact He.
Defined.

Lemma delete_snapshots_app date l r :
  Forall (fun s => fs_feature_date s = date) r ->
  delete_snapshots date (l ++ r) = delete_snapshots date l.
Proof.
  intros Hr. unfold delete_snapshots. rewrite List.filter_app.
  rewrite (filter_none _ r), List.app_nil_r; [reflexivity|].
  eapply List.Forall_impl; [|exact Hr]. intros s Hs. simpl in Hs. rewrite Hs, Z.eqb_refl. reflexivity.
Qed.

Lemma delete_snapshots_idem date l :
  delete_snapshots date (delete_snapshots date l) = delete_snapshots date l.
Proof. apply filter_idem. Qed.

(** X5. Loading is idempotent on a date: a second call with the same
    table on the same date returns, and leaves the store exactly as the
    first call left it. *)
Theorem load_features_idempotent (date : Z) (df : DataFrame) (db db' : Store) :
  load_features date df db = Ok db' ->
  load_features date df db' = Ok db'.
Proof.
  unfold load_features. intros Hload.
  apply bind_Ok in Hload as (records & Htr & Hload). injection Hload as <-.
  rewrite Htr. cbn [mbind result_bind customers churn_events usage_metrics feature_store].
  rewrite delete_snapshots_app, delete_snapshots_idem; [reflexivity|].
  eapply traverse_Forall; [|exact Htr].
  intros r s Hs. apply feature_record_keys in Hs as [Hd _]. exact Hd.
Qed.

(** The theorem [load_features_idempotent] at the example run. *)
Lemma load_features_idempotent_witness :
  load_features Examples.today Examples.features_df Examples.store1 = Ok Examples.loaded
  /\ load_features Examples.today Examples.features_df Examples.loaded = Ok Examples.loaded.
Proof.
  split; [vm_compute; reflexivity|].
  apply (load_features_idempotent Examples.today Examples.features_df Examples.store1).
  vm_compute. reflexivity.
Defined.

Lemma feature_record_constants date df i s :
  feature_record date (row df i) = Ok s ->
  fs_payment_delay_days s = VInt 0 /\ fs_churn_risk_score s = VInt 0
  /\ (has_column df "data_usage_gb_mean" = false -> fs_avg_monthly_usage s = VInt 0)
  /\ (has_column df "features_used_mean" = false -> fs_feature_adoption_score s = VFloat 0).
Proof.
  unfold feature_record. intros Hs.
  apply bind_Ok in Hs as (cid & _ & Hs).
  apply bind_Ok in Hs as (tenure & _ & Hs).
  apply bind_Ok in Hs as (rate & _ & Hs).
  apply bind_Ok in Hs as (adoption & Had & Hs).
  apply bind_Ok in Hs as (eng & _ & Hs).
  apply bind_Ok in Hs as (ltv & _ & Hs).
  injection Hs as <-. simpl. repeat split.
  - intros Hm. apply row_get_missing. exact Hm.
  - intros Hm. rewrite (row_get_missing _ _ _ _ Hm) in Had.
    vm_compute in Had. injection Had as <-. reflexivity.
Qed.

(** X6. After a load every snapshot of the date has payment_delay_days 0
    and churn_risk_score 0, whatever the store held for that date before;
    avg_monthly_usage is 0 when the table has no data_usage_gb_mean column,
    and feature_adoption_score is 0.0 when it has no features_used_mean
    column. *)
Theorem load_features_resets_scores (date : Z) (df : DataFrame) (db db' : Store) (s : snapshot) :
  load_features date df db = Ok db' ->
  In s (snapshots_on date (feature_store db')) ->
  fs_payment_delay_days s = VInt 0 /\ fs_churn_risk_score s = VInt 0
  /\ (has_column df "data_usage_gb_mean" = false -> fs_avg_monthly_usage s = VInt 0)
  /\ (has_column df "features_used_mean" = false -> fs_feature_adoption_score s = VFloat 0).
Proof.
  intros Hload Hs.
  apply load_features_store in Hload as (records & Htr & _ & Hon & _). rewrite Hon in Hs.
  assert (Hall : Forall (fun s =>
      fs_payment_delay_days s = VInt 0 /\ fs_churn_risk_score s = VInt 0
      /\ (has_column df "data_usage_gb_mean" = false -> fs_avg_monthly_usage s = VInt 0)
      /\ (has_column df "features_used_mean" = false -> fs_feature_adoption_score s = VFloat 0))
      records).
  { clear Hs Hon. unfold iterrows in Htr. revert records Htr.
    induction (seq 0 (nrows df)) as [|i l IH]; intros records; cbn [map traverse].
    - intros [= <-]. constructor.
    - intros Htr. apply bind_Ok in Htr as (r & Hr & Htr).
      apply bind_Ok in Htr as (rs & Hrs & Htr). injection Htr as <-.
      constructor; [eapply feature_record_constants; exact Hr | apply IH; exact Hrs]. }
  rewrite List.Forall_forall in Hall. apply Hall. exact Hs.
Qed.

(** The theorem [load_features_resets_scores] at the example run. *)
Lemma load_features_resets_scores_witness :
  exists s, In s (snapshots_on Examples.today (feature_store Examples.loaded))
    /\ fs_churn_risk_score s = VInt 0.
Proof.
  assert (Hin : { s | In s (snapshots_on Examples.today (feature_store Examples.loaded)) }).
  { vm_compute. eexists. left. reflexivity. }
  destruct Hin as [s Hs]. exists s. split; [exact Hs|].
  apply (load_features_resets_scores Examples.today Examples.features_df Examples.store1
           Examples.loaded s); [vm_compute; reflexivity | exact Hs].
Defined.

(** ** The customer table across calls of the transformer *)

Lemma assoc_set_same {A} (k : string) (a : A) l :
  assoc k l = Some a -> assoc_set k a l = l.
Proof.
  induction l as [|[k' a'] l IH]; simpl; [discriminate|].
  destruct (String.eqb k' k).
  - intros [= ->]. reflexivity.
  - intros Hl. rewrite (IH Hl). reflexivity.
Qed.

Lemma setitem_same df c s : getitem df c = Ok s -> setitem df c s = df.
Proof.
  unfold getitem, setitem. destruct (assoc c (columns df)) as [s'|] eqn:Hs; [|discriminate].
  intros [= ->]. rewrite (assoc_set_same _ _ _ Hs). destruct df; reflexivity.
Qed.

Section Retransform.
Context `{Pandas}.

Lemma traverse_to_datetime_cell_Raise vs e :
  traverse to_datetime_cell vs = Raise e ->
  e = ValueError "Unknown datetime string format".
Proof.
  induction vs as [|v vs IH]; simpl; [discriminate|].
  destruct (to_datetime_cell v) as [t|e'] eqn:Hv; simpl.
  - destruct (traverse to_datetime_cell vs) as [ts|e'']; simpl; [discriminate|].
    intros [= <-]. apply IH. reflexivity.
  - intros [= <-]. unfold to_datetime_cell in Hv.
    destruct v; try discriminate; destruct (parse_datetime _); congruence.
Qed.

Lemma to_datetime_Raise s e :
  to_datetime s = Raise e -> e = ValueError "Unknown datetime string format".
Proof.
  unfold to_datetime.
  destruct (traverse to_datetime_cell (cells s)) as [ts|e'] eqn:Hs; simpl; [discriminate|].
  intros [= <-]. eapply traverse_to_datetime_cell_Raise. exact Hs.
Qed.

Lemma traverse_to_datetime_cell_again vs ts :
  traverse to_datetime_cell vs = Ok ts -> traverse to_datetime_cell ts = Ok ts.
Proof.
  revert ts. induction vs as [|v vs IH]; intros ts; simpl.
  - intros [= <-]. reflexivity.
  - destruct (to_datetime_cell v) as [t|] eqn:Hv; [|discriminate]. simpl.
    destruct (traverse to_datetime_cell vs) as [ts'|]; [|discriminate]. simpl.
    intros [= <-]. simpl. rewrite (IH ts' eq_refl).
    assert (Ht : to_datetime_cell t = Ok t).
    { unfold to_datetime_cell in Hv.
      destruct v; try (injection Hv as <-; reflexivity);
        destruct (parse_datetime _); try discriminate; injection Hv as <-; reflexivity. }
    rewrite Ht. reflexivity.
Qed.

Lemma to_datetime_again s d : to_datetime s = Ok d -> to_datetime d = Ok d.
Proof.
  unfold to_datetime. intros Hd. apply fmap_Ok in Hd as (ts & Hts & ->). simpl.
  rewrite (traverse_to_datetime_cell_again _ _ Hts). reflexivity.
Qed.

(** X7. A customer table without a [signup_date] column, or with one
    that [to_datetime] cannot convert, makes the call raise on its first
    line, the KeyError of the column or the ValueError of the conversion,
    and no table of the caller is changed. *)
Theorem transform_features_fails_unchanged (now : Z) (customer_df usage_df : loc)
    (h : heap) (c : DataFrame) :
  h !! customer_df = Some c ->
  (has_column c "signup_date" = false
   \/ exists s, getitem c "signup_date" = Ok s /\ is_ok (to_datetime s) = false) ->
  exists e,
    transform_features now customer_df usage_df h = (h, Raise e)
    /\ (e = KeyError "signup_date" \/ e = ValueError "Unknown datetime string format").
Proof.
  intros Hc Hbad. unfold transform_features, deref. rewrite Hc. cbn [mbind result_bind].
  unfold convert_signup. destruct Hbad as [Hmiss | (s & Hs & Hconv)].
  - rewrite (getitem_missing _ _ Hmiss). cbn [mbind result_bind]. eauto.
  - rewrite Hs. cbn [mbind result_bind].
    destruct (to_datetime s) as [d|e] eqn:Hd; [discriminate Hconv|].
    cbn [mbind result_bind]. exists e. split; [reflexivity|]. right.
    eapply to_datetime_Raise. exact Hd.
Qed.

(** X8. The change to the caller's customer table is made once: a
    second call on the same objects at the same clock reading leaves every
    table as the first call left it and gives the same outcome, the table
    returned or the exception raised. *)
Theorem transform_features_again (now : Z) (customer_df usage_df : loc)
    (h h' : heap) (c : DataFrame) (s d : Series) (r : result DataFrame) :
  h !! customer_df = Some c ->
  getitem c "signup_date" = Ok s ->
  to_datetime s = Ok d ->
  transform_features now customer_df usage_df h = (h', r) ->
  transform_features now customer_df usage_df h' = (h', r).
Proof.
  intros Hc Hs Hd. unfold transform_features at 1. unfold deref at 1. rewrite Hc.
  cbn [mbind result_bind]. unfold convert_signup at 1. rewrite Hs. cbn [mbind result_bind].
  rewrite Hd. cbn [mbind result_bind]. unfold add_tenure at 1. rewrite getitem_setitem_eq.
  cbn [mbind result_bind].
  set (c1 := setitem c "signup_date" d).
  set (c2 := setitem c1 "tenure_days" (days_since now d)).
  rewrite insert_insert_eq. intros [= <- <-].
  assert (Hsd : getitem c2 "signup_date" = Ok d).
  { unfold c2. rewrite getitem_setitem_ne by discriminate. apply getitem_setitem_eq. }
  assert (Htd : getitem c2 "tenure_days" = Ok (days_since now d))
    by apply getitem_setitem_eq.
  unfold transform_features, deref at 1. rewrite lookup_insert_eq. cbn [mbind result_bind].
  unfold convert_signup. rewrite Hsd. cbn [mbind result_bind].
  rewrite (to_datetime_again _ _ Hd). cbn [mbind result_bind].
  rewrite (setitem_same _ _ _ Hsd). unfold add_tenure. rewrite Hsd. cbn [mbind result_bind].
  rewrite (setitem_same _ _ _ Htd). rewrite !insert_insert_eq. reflexivity.
Qed.

End Retransform.

(** The theorem [transform_features_fails_unchanged] at a customer table
    of one column. *)
Lemma transform_features_fails_unchanged_witness :
  exists e,
    transform_features (H := Reference.pandas) Examples.now 0%nat 1%nat
      (<[0%nat := mkDF 1 [("customer_id", mkSeries int64 [VInt 1])]]> Examples.objects)
    = (<[0%nat := mkDF 1 [("customer_id", mkSeries int64 [VInt 1])]]> Examples.objects, Raise e).
Proof.
  destruct (transform_features_fails_unchanged (H := Reference.pandas) Examples.now 0%nat 1%nat
              (<[0%nat := mkDF 1 [("customer_id", mkSeries int64 [VInt 1])]]> Examples.objects)
              (mkDF 1 [("customer_id", mkSeries int64 [VInt 1])]))
    as (e & He & _).
  - apply lookup_insert_eq.
  - left. reflexivity.
  - exists e. exact He.
Defined.

(** The theorem [transform_features_again] at the example tables. *)
Lemma transform_features_again_witness :
  exists h' F,
    transform_features (H := Reference.pandas) Examples.now 0%nat 1%nat Examples.objects
    = (h', Ok F)
    /\ transform_features (H := Reference.pandas) Examples.now 0%nat 1%nat h' = (h', Ok F).
Proof.
  assert (Hrun : { hF : heap * DataFrame |
             transform_features (H := Reference.pandas) Examples.now 0%nat 1%nat Examples.objects
             = (hF.1, Ok hF.2) }).
  { eexists (_, _). vm_compute. reflexivity. }
  destruct Hrun as [[h' F] Hrun]. exists h', F. split; [exact Hrun|].
  assert (Hs : { sd : Series * Series |
             getitem Examples.customer_df1 "signup_date" = Ok sd.1
             /\ to_datetime (H := Reference.pandas) sd.1 = Ok sd.2 }).
  { eexists (_, _). split; [vm_compute; reflexivity | vm_compute; reflexivity]. }
  destruct Hs as [[s d] [Hs Hd]].
  apply (transform_features_again (H := Reference.pandas) Examples.now 0%nat 1%nat
           Examples.objects h' Examples.customer_df1 s d (Ok F));
    [vm_compute; reflexivity | exact Hs | exact Hd | exact Hrun].
Defined.

(** ** The churn predictor: bundles, columns and training *)

Lemma has_column_In df c : In c (column_names df) -> has_column df c = true.
Proof.
  unfold column_names, has_column. induction (columns df) as [|[k s] l IH]; simpl; [intros []|].
  destruct (String.eqb_spec k c) as [_|Hne]; [reflexivity|].
  intros [Hk | Hin]; [contradiction | apply IH; exact Hin].
Qed.

Lemma select_own_columns df (P : string -> bool) :
  exists X, select df (List.filter P (column_names df)) = Ok X.
Proof.
  apply select_present. intros c Hc. apply filter_In in Hc as [Hc _].
  apply has_column_In. exact Hc.
Qed.

Lemma select_setitem_other df cs c s :
  mem_string c cs = false -> select (setitem df c s) cs = select df cs.
Proof.
  unfold select. intros Hc.
  assert (Htr : traverse (fun c0 => s0 ← getitem (setitem df c s) c0; Ok (c0, s0)) cs
                = traverse (fun c0 => s0 ← getitem df c0; Ok (c0, s0)) cs).
  { induction cs as [|a cs IH]; [reflexivity|]. simpl in Hc.
    apply orb_false_elim in Hc as [Hca Hcs]. simpl.
    rewrite getitem_setitem_ne by (intros ->; rewrite String.eqb_refl in Hca; discriminate).
    rewrite (IH Hcs). reflexivity. }
  rewrite Htr. reflexivity.
Qed.

Lemma column_names_fillna_by m df : column_names (fillna_by m df) = column_names df.
Proof.
  unfold column_names, fillna_by. simpl. induction (columns df) as [|[k a] l IH]; simpl;
    [reflexivity | f_equal; exact IH].
Qed.

(** One step of a method that returned, taken apart. *)
Ltac settle_step E :=
  repeat (match type of E with
          | context [match ?x with _ => _ end] => destruct x eqn:?; try discriminate E
          end);
  injection E as ? ?.

Section PredictorFurther.
Context `{MLLibrary}.

(** X9. A bundle saved by a trained instance and loaded into any
    instance makes that instance the saved one: same model, scaler, feature
    columns and type, and trained, so [predict] answers as the saved
    instance does. Saving changes no other path of the disk. *)
Theorem save_load_round_trip (self other : ChurnPredictor) (filepath : string)
    (disk : gmap string model_data) :
  is_trained self = true ->
  exists disk',
    save_model self filepath disk = Ok disk'
    /\ load_model filepath disk' other = (self, Ok tt)
    /\ (forall X, predict (load_model filepath disk' other).1 X = predict self X)
    /\ (forall p, p <> filepath -> disk' !! p = disk !! p).
Proof.
  intros Htrained. unfold save_model. rewrite Htrained. cbn [negb].
  eexists. split; [reflexivity|].
  assert (Hload : load_model filepath
            (<[filepath := mkModelData (model self) (scaler_ self) (feature_columns self)
                             (model_type self)]> disk) other = (self, Ok tt)).
  { unfold load_model. rewrite lookup_insert_eq. unfold update. simpl.
    destruct self as [t m sc cs tr]. simpl in Htrained. subst tr. reflexivity. }
  split; [exact Hload|]. split.
  - intros X. rewrite Hload. reflexivity.
  - intros p Hp. apply lookup_insert_ne. congruence.
Qed.

(** X10. [predict] reads the feature columns only: setting any other
    column of the input, new or already there, does not change what it
    returns or raises. *)
Theorem predict_ignores_other_columns (self : ChurnPredictor) (cs : list string)
    (X : DataFrame) (c : string) (s : Series) :
  feature_columns self = Some cs ->
  mem_string c cs = false ->
  predict self (setitem X c s) = predict self X.
Proof.
  intros Hcs Hc. unfold predict, predict_input. rewrite Hcs.
  rewrite (select_setitem_other _ _ _ _ Hc). reflexivity.
Qed.

Lemma prepare_features_run df self s1 r :
  prepare_features df self = (s1, r) ->
  let fc := List.filter (fun col => negb (mem_string col exclude_cols)) (column_names df) in
  match r with
  | Ok (X, y) =>
      s1 = set_feature_columns fc self
      /\ y = match getitem df "churned" with Ok s => Some s | Raise _ => None end
      /\ column_names X = fc /\ nrows X = nrows df
  | Raise _ => s1 = self
  end.
Proof.
  intros Hrun fc. unfold prepare_features, bind, lift, ret, update in Hrun. fold fc in Hrun.
  destruct (select df fc) as [X0|e] eqn:Hsel; [|injection Hrun as <- <-; reflexivity].
  apply select_Ok in Hsel as (Hrows & Hnames & _).
  destruct (existsb _ (columns X0)).
  - destruct (frame_median X0) as [m|e]; simpl in Hrun; injection Hrun as <- <-; [|reflexivity].
    rewrite column_names_fillna_by. simpl. auto.
  - injection Hrun as <- <-. rewrite column_names_fillna0. simpl. auto.
Qed.

(** X11. What [prepare_features] returns: the feature table has the
    columns of the input that are not in the exclusion list, in the input's
    order, and the input's row count; none of the six excluded names is a
    feature; the target is the [churned] column when the input has one and
    None otherwise; the instance's feature columns are set to the feature
    names and nothing else of it changes. When no feature is numeric the
    call cannot raise. *)
Theorem prepare_features_columns (df : DataFrame) (self : ChurnPredictor) :
  NoDup (column_names df) ->
  let fc := List.filter (fun col => negb (mem_string col exclude_cols)) (column_names df) in
  (forall self' X y,
     prepare_features df self = (self', Ok (X, y)) ->
     column_names X = fc /\ nrows X = nrows df
     /\ (forall c, In c exclude_cols -> ~ In c (column_names X))
     /\ y = (if has_column df "churned"
             then Some (column_of df "churned") else None)
     /\ self' = set_feature_columns fc self)
  /\ (forall self' e, prepare_features df self = (self', Raise e) ->
        self' = self
        /\ exists X, select df fc = Ok X
             /\ existsb (fun c => is_number (sdtype c.2)) (columns X) = true).
Proof.
  intros _ fc. split.
  - intros self' X y Hrun. apply prepare_features_run in Hrun as (-> & -> & Hnames & Hrows).
    fold fc in Hnames. split; [exact Hnames|]. split; [exact Hrows|].
    split; [|split; [|reflexivity]].
    + intros c Hc Hin. rewrite Hnames in Hin. apply filter_In in Hin as [_ Hin].
      assert (Hmem : mem_string c exclude_cols = true).
      { unfold mem_string. apply existsb_exists. exists c. split; [exact Hc|].
        apply String.eqb_refl. }
      rewrite Hmem in Hin. discriminate.
    + unfold has_column, getitem, column_of.
      destruct (assoc "churned" (columns df)); reflexivity.
  - intros self' e Hrun. pose proof (prepare_features_run _ _ _ _ Hrun) as Hself.
    simpl in Hself. split; [exact Hself|].
    unfold prepare_features, bind, lift, ret, update in Hrun. fold fc in Hrun.
    destruct (select_own_columns df (fun col => negb (mem_string col exclude_cols)))
      as [X HX].
    fold fc in HX. rewrite HX in Hrun. exists X. split; [exact HX|].
    destruct (existsb _ (columns X)); [reflexivity | discriminate].
Qed.

Lemma train_body_without_target df test_size self s r :
  has_column df "churned" = false ->
  train_body df test_size self = (s, r) ->
  (exists e, r = Raise e)
  /\ (s = self
      \/ s = set_feature_columns
               (List.filter (fun col => negb (mem_string col exclude_cols)) (column_names df))
               self).
Proof.
  intros Hno Hbody. unfold train_body in Hbody. unfold bind at 1 in Hbody.
  destruct (prepare_features df self) as [s1 [[X y]|e]] eqn:Hp.
  - apply prepare_features_run in Hp as (-> & -> & _ & _).
    rewrite (getitem_missing _ _ Hno) in Hbody. cbn [snd] in Hbody.
    unfold bind at 1 in Hbody. unfold raise in Hbody. injection Hbody as <- <-.
    split; [eauto | right; reflexivity].
  - apply prepare_features_run in Hp. simpl in Hp. subst s1.
    injection Hbody as <- <-. split; [eauto | left; reflexivity].
Qed.

(** X12. Training on a table without a [churned] column never returns.
    The instance keeps its model, scaler, type and trained flag, but its
    feature columns may have been replaced by the feature names of the
    rejected table. *)
Theorem train_without_target (df : DataFrame) (test_size : float)
    (self self' : ChurnPredictor) (r : result results) :
  has_column df "churned" = false ->
  train df test_size self = (self', r) ->
  (exists e, r = Raise e)
  /\ is_trained self' = is_trained self
  /\ model self' = model self
  /\ scaler_ self' = scaler_ self
  /\ model_type self' = model_type self
  /\ (feature_columns self' = feature_columns self
      \/ feature_columns self'
         = Some (List.filter (fun col => negb (mem_string col exclude_cols))
                   (column_names df))).
Proof.
  intros Hno. unfold train, with_run.
  destruct (mlflow "start_run") as [[]|e].
  2:{ intros [= <- <-]. repeat split; eauto. }
  destruct (train_body df test_size self) as [s r0] eqn:Hbody.
  destruct (train_body_without_target _ _ _ _ _ Hno Hbody) as [[e0 ->] Hs].
  assert (Hstate : is_trained s = is_trained self /\ model s = model self
                   /\ scaler_ s = scaler_ self /\ model_type s = model_type self
                   /\ (feature_columns s = feature_columns self
                       \/ feature_columns s
                          = Some (List.filter (fun col => negb (mem_string col exclude_cols))
                                    (column_names df)))).
  { destruct Hs as [-> | ->]; repeat split; auto. }
  destruct (mlflow "end_run") as [[]|e]; intros [= <- <-]; (split; [eauto | exact Hstate]).
Qed.

Lemma create_model_state self s r : create_model self = (s, r) -> s = self.
Proof.
  unfold create_model, _create_neural_network, bind, get, ret, raise.
  repeat match goal with
         | |- context [if ?b then _ else _] => destruct b
         | |- context [match ?x with _ => _ end] => destruct x
         end; intros [= <- _]; reflexivity.
Qed.

Lemma the_model_state self s m : the_model self = (s, Ok m) -> s = self /\ model self = Some m.
Proof.
  unfold the_model, bind, get, ret, raise. destruct (model self) as [m'|]; [|discriminate].
  intros [= <- <-]. split; reflexivity.
Qed.

(** X13. A [train] that returns was given a table with a [churned]
    column and leaves the instance with the feature names of that table, a
    model, the type it had, and the scaler it had unless the type is one of
    the two that are scaled. For the neural network the cross-validation
    mean and deviation of the result are both 0. *)
Theorem train_returns_state (df : DataFrame) (test_size : float)
    (self self' : ChurnPredictor) (res : results) :
  train df test_size self = (self', Ok res) ->
  has_column df "churned" = true
  /\ feature_columns self'
     = Some (List.filter (fun col => negb (mem_string col exclude_cols)) (column_names df))
  /\ model self' <> None
  /\ model_type self' = model_type self
  /\ (scales (model_type self) = false -> scaler_ self' = scaler_ self)
  /\ (model_type self = "neural_network" -> cv_mean res = 0%float /\ cv_std res = 0%float).
Proof.
  intros Htrain. apply train_Ok in Htrain. unfold train_body in Htrain.
  unfold bind at 1 in Htrain.
  destruct (prepare_features df self) as [s1 [[X y]|e]] eqn:Hp; [|discriminate].
  apply prepare_features_run in Hp as (-> & -> & _ & _).
  cbn [fst snd] in Htrain.
  unfold bind, lift, get, ret, raise, update in Htrain.
  repeat match type of Htrain with
         | context [match ?x with _ => _ end] => destruct x eqn:?; try discriminate
         end.
  injection Htrain as <- <-.
  repeat match goal with
         | E : create_model _ = (_, _) |- _ => apply create_model_state in E
         | E : the_model _ = (_, Ok _) |- _ => apply the_model_state in E as [? ?]
         end.
  repeat match goal with
         | E : ?l = (_, Ok _) |- _ =>
             lazymatch l with context [match _ with _ => _ end] => settle_step E end
         end.
  all: subst.
  all: split;
    [match goal with
     | E : match getitem ?d "churned" with _ => _ end = Some _ |- _ =>
         unfold has_column; unfold getitem in E;
         destruct (assoc "churned" (columns d)); [reflexivity | discriminate E]
     end|].
  all: split; [reflexivity|].
  all: split; [simpl; discriminate|].
  all: split; [reflexivity|].
  all: split; [intros Hsc; simpl in *; first [reflexivity | congruence]|].
  all: intros Hnn; simpl in *; rewrite Hnn in *; simpl in *.
  all: try discriminate.
  all: split; reflexivity.
Qed.

End PredictorFurther.

(** The theorem [save_load_round_trip] at the example instance. *)
Lemma save_load_round_trip_witness :
  exists disk',
    save_model Examples.trained "models/churn_model.joblib" ∅ = Ok disk'
    /\ load_model "models/churn_model.joblib" disk' (Examples.fresh "xgboost")
       = (Examples.trained, Ok tt).
Proof.
  destruct (save_load_round_trip Examples.trained (Examples.fresh "xgboost")
              "models/churn_model.joblib" ∅) as (disk' & Hsave & Hload & _).
  - vm_compute. reflexivity.
  - exists disk'. split; [exact Hsave | exact Hload].
Defined.

(** The theorem [predict_ignores_other_columns] at the example instance
    and the column [customer_id]. *)
Lemma predict_ignores_other_columns_witness :
  predict Examples.trained
    (setitem Examples.features_df "customer_id" (mkSeries int64 []))
  = predict Examples.trained Examples.features_df.
Proof.
  apply (predict_ignores_other_columns Examples.trained
           (default [] (feature_columns Examples.trained))).
  - vm_compute. reflexivity.
  - vm_compute. reflexivity.
Defined.

(** The theorem [prepare_features_columns] at the example table. *)
Lemma prepare_features_columns_witness :
  NoDup (column_names Examples.features_df)
  /\ forall self' X y,
       prepare_features Examples.features_df (Examples.fresh "random_forest")
       = (self', Ok (X, y)) ->
       nrows X = nrows Examples.features_df.
Proof.
  assert (Hnodup : NoDup (column_names Examples.features_df)).
  { apply NoDup_ListNoDup. vm_compute. repeat constructor; vm_compute; intuition discriminate. }
  split; [exact Hnodup|]. intros self' X y Hrun.
  destruct (prepare_features_columns Examples.features_df (Examples.fresh "random_forest")
              Hnodup) as [Hok _].
  exact (proj1 (proj2 (Hok self' X y Hrun))).
Defined.

(** The theorem [train_without_target] at the example table without its
    target. *)
Lemma train_without_target_witness :
  exists e,
    (train (mkDF 1 [("age", mkSeries int64 [VInt 30])]) 0.2 Examples.trained).2 = Raise e.
Proof.
  destruct (train_without_target (mkDF 1 [("age", mkSeries int64 [VInt 30])]) 0.2
              Examples.trained
              (train (mkDF 1 [("age", mkSeries int64 [VInt 30])]) 0.2 Examples.trained).1
              (train (mkDF 1 [("age", mkSeries int64 [VInt 30])]) 0.2 Examples.trained).2)
    as [[e He] _].
  - reflexivity.
  - apply surjective_pairing.
  - exists e. exact He.
Defined.

(** The theorem [train_returns_state] at the example run. *)
Lemma train_returns_state_witness :
  exists res,
    train Examples.features_df 0.2 (Examples.fresh "random_forest") = (Examples.trained, Ok res)
    /\ model Examples.trained <> None.
Proof.
  assert (Hex : { res | train Examples.features_df 0.2 (Examples.fresh "random_forest")
                        = (Examples.trained, Ok res) })
    by (eexists; vm_compute; reflexivity).
  destruct Hex as [res Hres]. exists res. split; [exact Hres|].
  exact (proj1 (proj2 (proj2 (train_returns_state _ _ _ _ _ Hres)))).
Defined.

(** ** The lifetime value predictor *)

Section LifetimeFurther.
Context `{RegressionLibrary}.

Lemma lifetime_prepare_features_run df self :
  let fc := List.filter (fun col => negb (mem_string col Lifetime.exclude_cols))
              (column_names df) in
  exists X,
    Lifetime.prepare_features df self
    = (Lifetime.set_feature_columns fc self,
       Ok (X, match getitem df "total_charges" with Ok s => Some s | Raise _ => None end))
    /\ column_names X = fc /\ nrows X = nrows df.
Proof.
  intros fc.
  destruct (select_own_columns df (fun col => negb (mem_string col Lifetime.exclude_cols)))
    as [X0 HX0].
  fold fc in HX0. exists (fillna0 X0).
  unfold Lifetime.prepare_features, Lifetime.bind, Lifetime.lift, Lifetime.ret, Lifetime.update.
  fold fc. rewrite HX0. simpl. split; [reflexivity|].
  apply select_Ok in HX0 as (Hrows & Hnames & _).
  rewrite column_names_fillna0. auto.
Qed.

(** X14. Training the lifetime value predictor on a table without a
    [total_charges] column raises the ValueError of the missing target, and
    the only change to the instance is that its feature columns are the
    feature names of the rejected table. *)
Theorem lifetime_train_without_target (df : DataFrame)
    (self : Lifetime.LifetimeValuePredictor) :
  has_column df "total_charges" = false ->
  Lifetime.train df self
  = (Lifetime.set_feature_columns
       (List.filter (fun col => negb (mem_string col Lifetime.exclude_cols)) (column_names df))
       self,
     Raise (ValueError "Target variable 'total_charges' not found")).
Proof.
  intros Hno. unfold Lifetime.train. unfold Lifetime.bind at 1.
  destruct (lifetime_prepare_features_run df self) as (X & -> & _).
  rewrite (getitem_missing _ _ Hno). reflexivity.
Qed.

(** X15. Whatever [train] of the lifetime value predictor does, it
    leaves the feature names of its table as the instance's feature
    columns, and [total_charges], the target, is never one of them. When it
    returns, the table had the target, and the instance is trained and has a
    model; when it raises, the trained flag is as before, so an untrained
    instance still refuses to predict. *)
Theorem lifetime_train_state (df : DataFrame) (self self' : Lifetime.LifetimeValuePredictor)
    (r : result (float * float)) :
  Lifetime.train df self = (self', r) ->
  let fc := List.filter (fun col => negb (mem_string col Lifetime.exclude_cols))
              (column_names df) in
  Lifetime.feature_columns self' = Some fc
  /\ ~ In "total_charges" fc
  /\ match r with
     | Ok _ =>
         has_column df "total_charges" = true
         /\ Lifetime.is_trained self' = true /\ Lifetime.model self' <> None
     | Raise _ =>
         Lifetime.is_trained self' = Lifetime.is_trained self
         /\ (Lifetime.is_trained self = false ->
             forall X, Lifetime.predict self' X
                       = Raise (ValueError "Model must be trained before making predictions"))
     end.
Proof.
  intros Htrain fc.
  assert (Hnot : ~ In "total_charges" fc).
  { intros Hin. apply filter_In in Hin as [_ Hin]. vm_compute in Hin. discriminate. }
  assert (Hguard : forall s X, Lifetime.is_trained s = false ->
            Lifetime.predict s X
            = Raise (ValueError "Model must be trained before making predictions")).
  { intros s X Hs. unfold Lifetime.predict. rewrite Hs. reflexivity. }
  unfold Lifetime.train in Htrain. unfold Lifetime.bind at 1 in Htrain.
  destruct (lifetime_prepare_features_run df self) as (X & Hp & _).
  fold fc in Hp. rewrite Hp in Htrain. cbn [fst snd] in Htrain.
  unfold Lifetime.bind, Lifetime.lift, Lifetime.get, Lifetime.ret, Lifetime.raise,
    Lifetime.update in Htrain.
  destruct (getitem df "total_charges") as [y|e] eqn:Hy.
  2:{ injection Htrain as <- <-. split; [reflexivity|]. split; [exact Hnot|].
      split; [reflexivity|]. intros Hun X'. apply Hguard. exact Hun. }
  assert (Hhas : has_column df "total_charges" = true)
    by (apply has_column_getitem; eauto).
  repeat match type of Htrain with
         | context [match ?x with _ => _ end] => destruct x eqn:?; try discriminate
         end.
  all: injection Htrain as <- <-.
  all: split; [reflexivity|].
  all: split; [exact Hnot|].
  all: try (split; [exact Hhas | split; [reflexivity | simpl; discriminate]]).
  all: split; [reflexivity|].
  all: intros Hun X'; apply Hguard; exact Hun.
Qed.

End LifetimeFurther.

(** The theorem [lifetime_train_without_target] at a table of one
    column and a new instance. *)
Lemma lifetime_train_without_target_witness :
  (Lifetime.train (H0 := ReferenceRegression.regression)
     (mkDF 1 [("age", mkSeries int64 [VInt 30])]) Lifetime.init).2
  = Raise (ValueError "Target variable 'total_charges' not found").
Proof.
  rewrite (lifetime_train_without_target (H0 := ReferenceRegression.regression)
             (mkDF 1 [("age", mkSeries int64 [VInt 30])]) Lifetime.init eq_refl).
  reflexivity.
Defined.

(** The theorem [lifetime_train_state] at the example features. *)
Lemma lifetime_train_state_witness :
  Lifetime.is_trained
    (Lifetime.train (H0 := ReferenceRegression.regression) Examples.features_df
       Lifetime.init).1 = true.
Proof.
  assert (Hex : { sr : Lifetime.LifetimeValuePredictor * (float * float) |
            Lifetime.train (H0 := ReferenceRegression.regression) Examples.features_df
              Lifetime.init = (sr.1, Ok sr.2) })
    by (eexists (_, _); vm_compute; reflexivity).
  destruct Hex as [[s res] Hres]. simpl in Hres. rewrite Hres.
  destruct (lifetime_train_state (H0 := ReferenceRegression.regression)
              Examples.features_df Lifetime.init s (Ok res) Hres) as (_ & _ & _ & Htr & _).
  exact Htr.
Defined.

(** ** One feature row per customer row *)

Lemma filter_notna_ints zs : List.filter (fun v => negb (isna v)) (map VInt zs) = map VInt zs.
Proof. induction zs; simpl; congruence. Qed.

Lemma filter_map_ints (f : value -> bool) ks :
  List.filter f (map VInt ks) = map VInt (List.filter (fun k => f (VInt k)) ks).
Proof.
  induction ks as [|k ks IH]; simpl; [reflexivity|].
  destruct (f (VInt k)); simpl; rewrite IH; reflexivity.
Qed.

Lemma dedup_keys_ints zs :
  exists ks, dedup_keys (map VInt zs) = map VInt ks /\ List.NoDup ks
             /\ forall z, In z ks <-> In z zs.
Proof.
  induction zs as [|z zs (ks & Hks & Hnodup & Hin)]; simpl.
  - exists []. split; [reflexivity|]. split; [constructor | tauto].
  - rewrite Hks, filter_map_ints.
    exists (z :: List.filter (fun k => negb (key_eqb (VInt z) (VInt k))) ks).
    split; [reflexivity|]. split.
    + constructor.
      * intros Hz. apply filter_In in Hz as [_ Hz].
        simpl in Hz. rewrite Z.eqb_refl in Hz. discriminate.
      * apply List.NoDup_filter. exact Hnodup.
    + intros x. simpl. rewrite filter_In, Hin. simpl.
      destruct (Z.eqb_spec z x) as [-> | Hne]; [tauto|].
      split; [tauto|]. intros [? | ?]; [tauto|]. right. split; [assumption | reflexivity].
Qed.

Lemma insert_key_ints z ks :
  exists ks', insert_key (VInt z) (map VInt ks) = map VInt ks' /\ Permutation ks' (z :: ks).
Proof.
  induction ks as [|k ks (ks' & Hks & Hperm)]; simpl.
  - exists [z]. split; reflexivity.
  - destruct (z <=? k).
    + exists (z :: k :: ks). split; reflexivity.
    + rewrite Hks. exists (k :: ks'). split; [reflexivity|].
      rewrite Hperm. apply perm_swap.
Qed.

Lemma sort_keys_ints ks :
  exists ks', sort_keys (map VInt ks) = map VInt ks' /\ Permutation ks' ks.
Proof.
  unfold sort_keys. induction ks as [|k ks (ks' & Hks & Hperm)]; simpl.
  - exists []. split; reflexivity.
  - rewrite Hks. destruct (insert_key_ints k ks') as (ks'' & -> & Hperm').
    exists ks''. split; [reflexivity|]. rewrite Hperm', Hperm. reflexivity.
Qed.

Lemma distinct_keys_ints zs :
  exists ks, distinct_keys (map VInt zs) = map VInt ks /\ List.NoDup ks
             /\ forall z, In z ks <-> In z zs.
Proof.
  unfold distinct_keys. rewrite filter_notna_ints.
  destruct (dedup_keys_ints zs) as (ks & -> & Hnodup & Hin).
  destruct (sort_keys_ints ks) as (ks' & -> & Hperm).
  exists ks'. split; [reflexivity|]. split.
  - eapply Permutation_NoDup; [symmetry; exact Hperm | exact Hnodup].
  - intros z. rewrite <- Hin. split; apply Permutation_in; [exact Hperm | symmetry; exact Hperm].
Qed.

Lemma length_le_one {A} (l : list A) :
  List.NoDup l -> (forall x y, In x l -> In y l -> x = y) -> (length l <= 1)%nat.
Proof.
  intros Hnodup Hall. destruct l as [|a [|b l]]; simpl; [lia | lia |].
  exfalso. inversion Hnodup as [|? ? Hnotin _]; subst. apply Hnotin.
  rewrite (Hall a b); [left; reflexivity | left; reflexivity | right; left; reflexivity].
Qed.

Lemma key_match_ints z rs j :
  key_eqb (VInt z) (default VNull (map VInt rs !! j)) = true <-> rs !! j = Some z.
Proof.
  rewrite list_lookup_fmap. destruct (rs !! j) as [r|]; simpl.
  - rewrite Z.eqb_eq. split; [intros ->; reflexivity | intros [= ->]; reflexivity].
  - split; discriminate.
Qed.

Lemma matches_ints z rs :
  List.NoDup rs ->
  (length (List.filter (fun j => key_eqb (VInt z) (default VNull (map VInt rs !! j)))
             (seq 0 (length (map VInt rs)))) <= 1)%nat.
Proof.
  intros Hnodup. apply length_le_one.
  - apply List.NoDup_filter, seq_NoDup.
  - intros x y Hx Hy. apply filter_In in Hx as [_ Hx]. apply filter_In in Hy as [_ Hy].
    apply key_match_ints in Hx, Hy. apply NoDup_ListNoDup in Hnodup.
    eapply NoDup_lookup; eauto.
Qed.

Lemma flat_map_singletons {A B} (f : A -> list B) (g : A -> B) l :
  (forall a, In a l -> f a = [g a]) -> flat_map f l = map g l.
Proof.
  induction l as [|a l IH]; simpl; [reflexivity|]. intros Hf.
  rewrite (Hf a) by (left; reflexivity). simpl. f_equal. apply IH.
  intros b Hb. apply Hf. right. exact Hb.
Qed.

Lemma left_pairs_ints ls rs :
  List.NoDup rs ->
  left_pairs (map VInt ls) (map VInt rs)
  = map (fun i => (i, matched (map VInt ls) (map VInt rs) i)) (seq 0 (length ls)).
Proof.
  intros Hnodup. unfold left_pairs. rewrite (length_map VInt ls).
  apply flat_map_singletons. intros i Hi. apply in_seq in Hi as [_ Hi]. simpl in Hi.
  unfold matched. cbv zeta.
  destruct (lookup_lt_is_Some_2 ls i Hi) as [z Hz].
  rewrite list_lookup_fmap, Hz. simpl default.
  pose proof (matches_ints z rs Hnodup) as Hlen.
  destruct (List.filter _ (seq 0 (length (map VInt rs)))) as [|j [|j' js]];
    simpl in Hlen |- *; [reflexivity | reflexivity | lia].
Qed.

Lemma take_cells_all vs : take_cells vs (Some <$> seq 0 (length vs)) = vs.
Proof.
  unfold take_cells. apply list_eq. intros i.
  rewrite !list_lookup_fmap.
  destruct (vs !! i) as [v|] eqn:Hv.
  - rewrite (lookup_seq_lt 0 (length vs) i) by (eapply lookup_lt_Some; exact Hv).
    simpl. rewrite Hv. reflexivity.
  - rewrite lookup_seq_ge by (apply lookup_ge_None; exact Hv). reflexivity.
Qed.

Lemma merge_left_ints (left right : DataFrame) (on : string) (M : DataFrame)
    (lk rk : Series) (ls rs : list Z) :
  merge_left left right on = Ok M ->
  getitem left on = Ok lk -> getitem right on = Ok rk ->
  cells lk = map VInt ls -> cells rk = map VInt rs -> List.NoDup rs ->
  nrows M = length ls
  /\ forall t, (forall n, (n ++ "_x")%string <> t) -> (forall n, (n ++ "_y")%string <> t) ->
       let rcols := List.filter (fun c => negb (String.eqb c.1 on)) (columns right) in
       assoc t (columns M)
       = if overlaps on (column_names left) rcols.*1 t then None
         else match assoc t (columns left) with
              | Some s =>
                  Some (mkSeries (sdtype s)
                          (take_cells (cells s) (Some <$> seq 0 (length ls))))
              | None =>
                  (fun s => take_right s (map (matched (cells lk) (cells rk))
                                            (seq 0 (length ls))))
                  <$> assoc t rcols
              end.
Proof.
  intros HM Hlk Hrk Hls Hrs Hnodup. unfold merge_left in HM.
  rewrite Hlk, Hrk in HM. cbn [mbind result_bind] in HM. injection HM as <-.
  rewrite Hls, Hrs, (left_pairs_ints _ _ Hnodup).
  assert (H1 : (map (fun i => (i, matched (map VInt ls) (map VInt rs) i))
                  (seq 0 (length ls))).*1 = seq 0 (length ls)).
  { rewrite <- list_fmap_compose. apply list_fmap_id. }
  assert (H2 : (map (fun i => (i, matched (map VInt ls) (map VInt rs) i))
                  (seq 0 (length ls))).*2
               = map (matched (map VInt ls) (map VInt rs)) (seq 0 (length ls))).
  { rewrite <- list_fmap_compose. reflexivity. }
  split; [cbn [nrows]; rewrite length_map, length_seq; reflexivity|].
  intros t Hx Hy rcols. cbn [columns].
  rewrite assoc_app, !assoc_suffixed by assumption. fold rcols. rewrite H1, H2.
  destruct (overlaps on (column_names left) rcols.*1 t); [reflexivity|].
  destruct (assoc t (columns left)); reflexivity.
Qed.

Lemma cells_fill_ints s zs : cells s = map VInt zs -> cells (fill_if_number s) = map VInt zs.
Proof.
  intros Hs. unfold fill_if_number. destruct (is_number (sdtype s)); [|exact Hs].
  unfold fillna0_series. cbn [cells]. rewrite Hs. clear Hs.
  induction zs as [|z zs IH]; simpl; [reflexivity | f_equal; exact IH].
Qed.

Lemma cells_int_of_bool_ints s zs :
  cells s = map VInt zs -> cells (int_of_bool_series s) = map VInt zs.
Proof.
  intros Hs. unfold int_of_bool_series. destruct (sdtype s); try exact Hs.
  cbn [cells]. rewrite Hs. clear Hs.
  induction zs as [|z zs IH]; simpl; [reflexivity | f_equal; exact IH].
Qed.

Lemma getitem_fill_numeric_of df t s :
  getitem df t = Ok s -> getitem (fill_numeric df) t = Ok (fill_if_number s).
Proof.
  unfold getitem, fill_numeric. cbn [columns]. rewrite assoc_map_snd.
  destruct (assoc t (columns df)); [|discriminate]. intros [= ->]. reflexivity.
Qed.

Section FeatureRows.
Context `{Pandas}.

Lemma get_dummies_rows df cs G : get_dummies df cs = Ok G -> nrows G = nrows df.
Proof.
  unfold get_dummies. intros HG. apply bind_Ok in HG as (enc & _ & [= <-]). reflexivity.
Qed.

(** A column of the joined table that is neither derived nor encoded is
    in the returned table, with its missing numbers filled and its booleans
    as integers. *)
Lemma build_features_column (c2 u F : DataFrame) :
  build_features c2 u = Ok F ->
  exists U M,
    aggregate_usage u = Ok U /\ merge_left c2 U "customer_id" = Ok M
    /\ nrows F = nrows M
    /\ forall t s,
         getitem M t = Ok s ->
         t <> "avg_session_per_login" -> t <> "support_ticket_rate" ->
         t <> "engagement_score" -> mem_string t encoded_columns = false ->
         getitem F t = Ok (int_of_bool_series (fill_if_number s)).
Proof.
  unfold build_features. intros HF.
  apply bind_Ok in HF as (U & HU & HF). apply bind_Ok in HF as (M & HM & HF).
  apply bind_Ok in HF as (D3 & HD3 & HF). apply bind_Ok in HF as (G & HG & [= <-]).
  exists U, M. split; [exact HU|]. split; [exact HM|].
  destruct (derive_features_Ok _ _ HD3) as [? ? ? ? ? ? ? ? _ _ _ _ _ -> _ _ _ _ _ _].
  split.
  - cbn [nrows bools_to_int]. rewrite (get_dummies_rows _ _ _ HG). reflexivity.
  - intros t s Hs H1 H2 H3 Henc.
    eapply encoded_getitem; [exact HG | exact Henc|].
    rewrite !getitem_setitem_ne by congruence.
    apply getitem_fill_numeric_of. exact Hs.
Qed.

End FeatureRows.

Lemma getitem_column_cells df c s : getitem df c = Ok s -> column_cells df c = cells s.
Proof.
  unfold getitem, column_cells. destruct (assoc c (columns df)); [|discriminate].
  intros [= ->]. reflexivity.
Qed.

Lemma getitem_assoc df c s : getitem df c = Ok s -> assoc c (columns df) = Some s.
Proof.
  unfold getitem. destruct (assoc c (columns df)); [|discriminate]. intros [= ->]. reflexivity.
Qed.

Section RowPerCustomer.
Context `{Pandas}.

Lemma transform_features_build now customer_df usage_df h h' F c u :
  h !! customer_df = Some c -> h !! usage_df = Some u -> usage_df <> customer_df ->
  transform_features now customer_df usage_df h = (h', Ok F) ->
  exists s d,
    getitem c "signup_date" = Ok s /\ to_datetime s = Ok d
    /\ build_features
         (setitem (setitem c "signup_date" d) "tenure_days" (days_since now d)) u = Ok F.
Proof.
  intros Hc Hu Hne. unfold transform_features, deref. rewrite Hc. cbn [mbind result_bind].
  unfold convert_signup. destruct (getitem c "signup_date") as [s|] eqn:Hs; [|discriminate].
  cbn [mbind result_bind]. destruct (to_datetime s) as [d|] eqn:Hd; [|discriminate].
  cbn [mbind result_bind]. unfold add_tenure. rewrite getitem_setitem_eq.
  cbn [mbind result_bind]. rewrite !lookup_insert_ne by congruence. rewrite Hu.
  cbn [mbind result_bind]. intros [= _ HF]. eauto.
Qed.

Lemma build_features_ids (c2 u F : DataFrame) (ck uk : Series) (ls rs : list Z) :
  build_features c2 u = Ok F ->
  getitem c2 "customer_id" = Ok ck -> cells ck = map VInt ls ->
  getitem u "customer_id" = Ok uk -> cells uk = map VInt rs ->
  nrows F = length ls /\ column_cells F "customer_id" = map VInt ls.
Proof.
  intros HF Hck Hls Huk Hrs.
  apply build_features_column in HF as (U & M & HU & HM & Hrows & Hcol).
  apply aggregate_usage_table in HU as (keys & Hkeys & _ & ->).
  rewrite Huk in Hkeys. injection Hkeys as <-.
  destruct (distinct_keys_ints rs) as (ks & Hks & Hnodup & _).
  rewrite Hrs, Hks in HM.
  destruct (merge_left_ints _ _ _ _ ck (mkSeries (sdtype uk) (map VInt ks)) ls ks HM Hck)
    as [HMrows HMcol]; [reflexivity | exact Hls | reflexivity | exact Hnodup |].
  split; [rewrite Hrows; exact HMrows|].
  assert (HMid : getitem M "customer_id"
                 = Ok (mkSeries (sdtype ck) (map VInt ls))).
  { unfold getitem. rewrite HMcol by (intros n; apply suffix_ne; vm_compute; discriminate).
    unfold overlaps. cbn [String.eqb Ascii.eqb Bool.eqb negb andb].
    rewrite (getitem_assoc _ _ _ Hck).
    rewrite <- (length_map VInt ls), <- Hls, take_cells_all. reflexivity. }
  rewrite (getitem_column_cells _ _ _
             (Hcol _ _ HMid ltac:(discriminate) ltac:(discriminate) ltac:(discriminate)
                   eq_refl)).
  apply cells_int_of_bool_ints, cells_fill_ints. reflexivity.
Qed.

(** X16. When the customer ids of both tables are integers, the
    returned table has one row for each row of the customer table, in the
    same order and with that row's customer id: joining the usage
    aggregates neither drops nor repeats a customer row. *)
Theorem transform_features_row_per_customer (now : Z) (customer_df usage_df : loc)
    (h h' : heap) (F c u : DataFrame) (ck uk : Series) (ls rs : list Z) :
  h !! customer_df = Some c -> h !! usage_df = Some u -> usage_df <> customer_df ->
  getitem c "customer_id" = Ok ck -> cells ck = map VInt ls ->
  getitem u "customer_id" = Ok uk -> cells uk = map VInt rs ->
  transform_features now customer_df usage_df h = (h', Ok F) ->
  nrows F = length ls /\ column_cells F "customer_id" = map VInt ls.
Proof.
  intros Hc Hu Hne Hck Hls Huk Hrs HF.
  destruct (transform_features_build _ _ _ _ _ _ _ _ Hc Hu Hne HF) as (s & d & _ & _ & Hb).
  eapply build_features_ids; [exact Hb | | exact Hls | exact Huk | exact Hrs].
  rewrite !getitem_setitem_ne by discriminate. exact Hck.
Qed.

End RowPerCustomer.

Lemma traverse_map {A B C} (f : A -> result B) (g : B -> C) (k : A -> C) l l' :
  (forall a b, f a = Ok b -> g b = k a) ->
  traverse f l = Ok l' -> map g l' = map k l.
Proof.
  intros Hf. revert l'. induction l as [|x l IH]; intros l'; simpl.
  - intros [= <-]. reflexivity.
  - destruct (f x) as [y|] eqn:Hx; [|discriminate]. simpl.
    destruct (traverse f l) as [ys|]; [|discriminate]. simpl.
    intros [= <-]. simpl. rewrite (Hf _ _ Hx), (IH ys eq_refl). reflexivity.
Qed.

Lemma row_get_column_cells df i c :
  row_get (row df i) c VNull = default VNull (column_cells df c !! i).
Proof.
  unfold row_get, column_cells. rewrite assoc_row.
  destruct (assoc c (columns df)); reflexivity.
Qed.

Lemma lookup_all (vs : list value) :
  map (fun i => default VNull (vs !! i)) (seq 0 (length vs)) = vs.
Proof.
  apply list_eq. intros i. rewrite list_lookup_fmap.
  destruct (vs !! i) as [v|] eqn:Hv.
  - rewrite (lookup_seq_lt 0 (length vs) i) by (eapply lookup_lt_Some; exact Hv).
    simpl. rewrite Hv. reflexivity.
  - rewrite lookup_seq_ge by (apply lookup_ge_None; exact Hv). reflexivity.
Qed.

Lemma getitem_frame_of_records {A} (fields : list (string * (A -> value))) (rs : list A) c f :
  assoc c fields = Some f ->
  getitem (frame_of_records fields rs) c = Ok (infer_series (map f rs)).
Proof.
  unfold getitem, frame_of_records. cbn [columns]. intros Hf.
  induction fields as [|[k g] fields IH]; simpl in *; [discriminate|].
  destruct (String.eqb k c); [injection Hf as ->; reflexivity | apply IH; exact Hf].
Qed.

Section PipelineRows.
Context `{Pandas}.

(** X17. A pipeline run that returns gives a features table with one
    row for each row of the customer query (a customer once, or once per
    churn event), with the customer ids in the order of the query, and
    leaves in the feature store, for the date of the run, one snapshot per
    such row with the same ids in the same order. The snapshots of other
    dates and the three other tables are as they were. *)
Theorem run_etl_pipeline_snapshots (now date : Z) (db db' : Store) (F : DataFrame) :
  run_etl_pipeline now date db = Ok (db', F) ->
  let ids := map (fun j : joined => VInt (c_customer_id j.1))
               (left_join (customers db) (churn_events db)) in
  nrows F = length ids
  /\ column_cells F "customer_id" = ids
  /\ map fs_customer_id (snapshots_on date (feature_store db')) = ids
  /\ delete_snapshots date (feature_store db') = delete_snapshots date (feature_store db)
  /\ customers db' = customers db /\ churn_events db' = churn_events db
  /\ usage_metrics db' = usage_metrics db.
Proof.
  intros Hrun ids. unfold run_etl_pipeline in Hrun.
  change (extract_customer_data None None db)
    with (Ok (A := DataFrame)
            (frame_of_records customer_fields (left_join (customers db) (churn_events db))))
    in Hrun.
  cbn [mbind result_bind] in Hrun.
  set (js := left_join (customers db) (churn_events db)) in *.
  set (cdf := frame_of_records customer_fields js) in *.
  set (udf := extract_usage_data None db) in *.
  set (h := <[1%nat := udf]> (<[0%nat := cdf]> ∅) : heap) in *.
  destruct (transform_features now 0%nat 1%nat h) as [h' [F0|e]] eqn:HT; [|discriminate].
  cbn [snd mbind result_bind] in Hrun.
  apply bind_Ok in Hrun as (db1 & Hload & [= <- <-]).
  assert (Hids : nrows F0 = length (map (fun j : joined => c_customer_id j.1) js)
                 /\ column_cells F0 "customer_id"
                    = map VInt (map (fun j : joined => c_customer_id j.1) js)).
  { destruct (extract_usage_data_rows None db) as (rows & _ & Hu).
    assert (Hc0 : h !! 0%nat = Some cdf)
      by (unfold h; rewrite lookup_insert_ne by discriminate; apply lookup_insert_eq).
    assert (Hu0 : h !! 1%nat = Some udf) by (unfold h; apply lookup_insert_eq).
    destruct (transform_features_build _ _ _ _ _ _ _ _ Hc0 Hu0 ltac:(discriminate) HT)
      as (s & d & _ & _ & Hb).
    eapply (build_features_ids _ _ _
              (infer_series (map (fun j : joined => VInt (c_customer_id j.1)) js))
              (infer_series (map (fun u => VInt (u_customer_id u)) (order_usage rows)))
              _ (map u_customer_id (order_usage rows)) Hb).
    - rewrite !getitem_setitem_ne by discriminate.
      apply (getitem_frame_of_records customer_fields). reflexivity.
    - rewrite List.map_map. apply (infer_series_ints_map (fun j : joined => c_customer_id j.1)).
    - unfold udf. rewrite Hu. apply (getitem_frame_of_records usage_fields). reflexivity.
    - rewrite List.map_map. apply (infer_series_ints_map u_customer_id). }
  rewrite List.map_map in Hids. fold ids in Hids. rewrite length_map in Hids.
  destruct Hids as [Hrows Hcells].
  apply load_features_store in Hload
    as (records & Htr & Hstore & Hon & _ & Hc & Hch & Hu).
  split; [unfold ids; rewrite length_map; exact Hrows|]. split; [exact Hcells|].
  split; [|split; [|auto]].
  - rewrite Hon.
    rewrite (traverse_map _ fs_customer_id (fun r => row_get r "customer_id" VNull) _ _
               (fun r s Hs => proj2 (feature_record_keys _ _ _ Hs)) Htr).
    unfold iterrows. rewrite List.map_map.
    rewrite (map_ext _ (fun i => default VNull (ids !! i)))
      by (intros i; rewrite row_get_column_cells, Hcells; reflexivity).
    rewrite Hrows, <- (length_map (fun j : joined => VInt (c_customer_id j.1)) js).
    apply lookup_all.
  - rewrite Hstore. rewrite delete_snapshots_app; [apply delete_snapshots_idem|].
    eapply traverse_Forall; [|exact Htr].
    intros r s Hs. apply feature_record_keys in Hs as [Hd _]. exact Hd.
Qed.

End PipelineRows.

Lemma take_cells_lookup vs n i :
  (i < n)%nat -> take_cells vs (Some <$> seq 0 n) !! i = Some (default VNull (vs !! i)).
Proof.
  intros Hi. unfold take_cells. rewrite !list_lookup_fmap.
  rewrite (lookup_seq_lt 0 n i Hi). reflexivity.
Qed.

Lemma cell_getitem df c s i : getitem df c = Ok s -> cell df c i = cells s !! i.
Proof.
  unfold getitem, cell. destruct (assoc c (columns df)); [|discriminate].
  intros [= ->]. reflexivity.
Qed.

Lemma has_column_mem_string df t :
  has_column df t = false -> mem_string t (column_names df) = false.
Proof.
  unfold has_column, column_names, mem_string.
  induction (columns df) as [|[k s] l IH]; simpl; [reflexivity|].
  rewrite (String.eqb_sym t k). destruct (String.eqb k t); [discriminate | exact IH].
Qed.

Section Tenure.
Context `{Pandas}.

Lemma to_datetime_cell_present v t :
  to_datetime_cell v = Ok t -> isna v = false -> exists ns, t = VTime ns.
Proof.
  unfold to_datetime_cell. intros Ht Hv.
  destruct v; try discriminate Hv; try (injection Ht as <-; eauto);
    destruct (parse_datetime _); try discriminate Ht; injection Ht as <-; eauto.
Qed.

Lemma traverse_to_datetime_lookup vs ts i v :
  traverse to_datetime_cell vs = Ok ts -> vs !! i = Some v ->
  exists t, to_datetime_cell v = Ok t /\ ts !! i = Some t.
Proof.
  revert ts i. induction vs as [|x xs IH]; intros ts i; simpl.
  - intros _ Hi. discriminate Hi.
  - destruct (to_datetime_cell x) as [t|] eqn:Hx; [|discriminate]. simpl.
    destruct (traverse to_datetime_cell xs) as [ts'|]; [|discriminate]. simpl.
    intros [= <-]. destruct i as [|i]; simpl.
    + intros [= <-]. eauto.
    + apply IH. reflexivity.
Qed.

Lemma traverse_to_datetime_present now vs ts :
  traverse to_datetime_cell vs = Ok ts ->
  forallb (fun v => negb (isna v)) vs = true ->
  forallb (fun v => negb (isna v)) (map (days_cell now) ts) = true.
Proof.
  revert ts. induction vs as [|x xs IH]; intros ts; simpl.
  - intros [= <-] _. reflexivity.
  - destruct (to_datetime_cell x) as [t|] eqn:Hx; [|discriminate]. simpl.
    destruct (traverse to_datetime_cell xs) as [ts'|]; [|discriminate]. simpl.
    intros [= <-] Hall. apply andb_prop in Hall as [Hx' Hxs]. simpl.
    rewrite (IH ts' eq_refl Hxs), andb_true_r.
    destruct (to_datetime_cell_present _ _ Hx) as [ns ->]; [|reflexivity].
    destruct (isna x); [discriminate | reflexivity].
Qed.

Lemma days_since_lookup now d i t :
  cells d !! i = Some t ->
  cells (days_since now d) !! i
  = Some (if forallb (fun v => negb (isna v)) (map (days_cell now) (cells d))
          then days_cell now t else as_float_cell (days_cell now t)).
Proof.
  intros Ht. unfold days_since. cbv zeta.
  destruct (forallb _ _); cbn [cells]; rewrite !list_lookup_fmap, Ht; reflexivity.
Qed.

Lemma days_since_number now d : is_number (sdtype (days_since now d)) = true.
Proof. unfold days_since. cbv zeta. destruct (forallb _ _); reflexivity. Qed.

Lemma whole_days now dd : (now - dd * ns_per_day) / ns_per_day = now / ns_per_day - dd.
Proof.
  replace (now - dd * ns_per_day) with (now + (- dd) * ns_per_day) by lia.
  rewrite Z.div_add by (vm_compute; discriminate). lia.
Qed.

(** The tenure column of the returned table, from the table with its
    tenure column and the aggregated usage. *)
Lemma build_features_tenure (c2 u F : DataFrame) (ck uk T : Series) (ls rs : list Z) (i : nat) :
  build_features c2 u = Ok F ->
  getitem c2 "customer_id" = Ok ck -> cells ck = map VInt ls ->
  getitem u "customer_id" = Ok uk -> cells uk = map VInt rs ->
  getitem c2 "tenure_days" = Ok T -> is_number (sdtype T) = true -> (i < length ls)%nat ->
  cell F "tenure_days" i
  = Some (let v := default VNull (cells T !! i) in if isna v then zero_of (sdtype T) else v).
Proof.
  intros HF Hck Hls Huk Hrs HT Hnum Hi.
  apply build_features_column in HF as (U & M & HU & HM & Hrows & Hcol).
  apply aggregate_usage_table in HU as (keys & Hkeys & _ & ->).
  rewrite Huk in Hkeys. injection Hkeys as <-.
  destruct (distinct_keys_ints rs) as (ks & Hks & Hnodup & _).
  destruct (usage_agg_columns uk (column_of u)) as (_ & _ & Hnomem & _).
  cbv zeta in Hnomem.
  set (U := mkDF _ _) in *.
  assert (HUk : getitem U "customer_id" = Ok (mkSeries (sdtype uk) (distinct_keys (cells uk))))
    by reflexivity.
  destruct (merge_left_ints _ _ _ _ ck _ ls ks HM Hck HUk Hls)
    as [HMrows HMcol]; [cbn [cells]; rewrite Hrs; exact Hks | exact Hnodup |].
  assert (HMt : getitem M "tenure_days"
                = Ok (mkSeries (sdtype T)
                        (take_cells (cells T) (Some <$> seq 0 (length ls))))).
  { unfold getitem. rewrite HMcol by (intros n; apply suffix_ne; vm_compute; discriminate).
    unfold overlaps. rewrite Hnomem, andb_false_r.
    rewrite (getitem_assoc _ _ _ HT). reflexivity. }
  rewrite (cell_getitem _ _ _ _
             (Hcol _ _ HMt ltac:(discriminate) ltac:(discriminate) ltac:(discriminate)
                   eq_refl)).
  unfold fill_if_number. cbn [sdtype]. rewrite Hnum.
  assert (Hnb : sdtype T <> bool_) by (destruct (sdtype T); discriminate).
  rewrite int_of_bool_series_number by (cbn [fillna0_series sdtype]; exact Hnb).
  unfold fillna0_series. cbn [cells sdtype]. rewrite list_lookup_fmap.
  rewrite (take_cells_lookup _ _ _ Hi). reflexivity.
Qed.

(** X18. The tenure of a row of the returned table: when every
    customer has a signup date it is the integer number of whole days from
    the signup date to the clock reading, the day of the clock minus the day
    of the date; a customer without a signup date gets the tenure 0.0, the
    missing value filled. *)
Theorem transform_features_tenure (now : Z) (customer_df usage_df : loc)
    (h h' : heap) (F c u : DataFrame) (ck uk s : Series) (ls rs : list Z)
    (i : nat) (v : value) :
  h !! customer_df = Some c -> h !! usage_df = Some u -> usage_df <> customer_df ->
  getitem c "customer_id" = Ok ck -> cells ck = map VInt ls ->
  getitem u "customer_id" = Ok uk -> cells uk = map VInt rs ->
  getitem c "signup_date" = Ok s -> (i < length ls)%nat -> cells s !! i = Some v ->
  transform_features now customer_df usage_df h = (h', Ok F) ->
  match v with
  | VNull => cell F "tenure_days" i = Some (VFloat 0)
  | VDate dd =>
      forallb (fun v => negb (isna v)) (cells s) = true ->
      cell F "tenure_days" i = Some (VInt (now / ns_per_day - dd))
  | _ => True
  end.
Proof.
  intros Hc Hu Hne Hck Hls Huk Hrs Hs Hi Hv HF.
  destruct (transform_features_build _ _ _ _ _ _ _ _ Hc Hu Hne HF) as (s' & d & Hs' & Hd & Hb).
  rewrite Hs in Hs'. injection Hs' as <-.
  assert (Hcell : cell F "tenure_days" i
          = Some (let v := default VNull (cells (days_since now d) !! i) in
                  if isna v then zero_of (sdtype (days_since now d)) else v)).
  { eapply build_features_tenure;
      [exact Hb | | exact Hls | exact Huk | exact Hrs | apply getitem_setitem_eq
       | apply days_since_number | exact Hi].
    rewrite !getitem_setitem_ne by discriminate. exact Hck. }
  pose proof Hd as Hd'. unfold to_datetime in Hd'.
  apply fmap_Ok in Hd' as (ts & Hts & Hdts).
  destruct (traverse_to_datetime_lookup _ _ _ _ Hts Hv) as (t & Ht & Hti).
  assert (Hdi : cells d !! i = Some t) by (rewrite Hdts; exact Hti).
  rewrite (days_since_lookup _ _ _ _ Hdi) in Hcell. cbn [default] in Hcell.
  destruct v; try exact I.
  - injection Ht as <-. rewrite Hcell. unfold days_since. cbv zeta.
    assert (Hna : forallb (fun v => negb (isna v)) (map (days_cell now) (cells d)) = false).
    { apply not_true_is_false. intros Hall. rewrite forallb_forall in Hall.
      assert (Hin : In (days_cell now VNull) (map (days_cell now) (cells d))).
      { apply in_map. apply list_elem_of_In. eapply list_elem_of_lookup_2. exact Hdi. }
      specialize (Hall _ Hin). discriminate Hall. }
    rewrite Hna. reflexivity.
  - intros Hall. injection Ht as <-. rewrite Hcell.
    rewrite Hdts. cbn [cells]. rewrite (traverse_to_datetime_present now _ _ Hts Hall).
    cbn [days_cell isna]. rewrite whole_days. reflexivity.
Qed.

End Tenure.

Lemma matched_none ls ks i z :
  ls !! i = Some z -> ~ In z ks -> matched (map VInt ls) (map VInt ks) i = None.
Proof.
  intros Hz Hnot. unfold matched. rewrite list_lookup_fmap, Hz. cbn [fmap option_fmap option_map default].
  destruct (List.filter _ _) as [|j js] eqn:Hf; [reflexivity|]. exfalso.
  assert (Hj : In j (j :: js)) by (left; reflexivity).
  rewrite <- Hf in Hj. apply filter_In in Hj as [_ Hj].
  apply key_match_ints in Hj. apply Hnot.
  apply list_elem_of_In. eapply list_elem_of_lookup_2. exact Hj.
Qed.

Lemma has_column_setitem_ne df k s t :
  k <> t -> has_column (setitem df k s) t = has_column df t.
Proof.
  intros Hne. pose proof (getitem_setitem_ne df k t s Hne) as Hg.
  unfold getitem in Hg. unfold has_column.
  destruct (assoc t (columns (setitem df k s))), (assoc t (columns df));
    try reflexivity; discriminate.
Qed.

Lemma take_right_unmatched s rows i :
  rows !! i = Some None ->
  (sdtype s = int64 \/ sdtype s = float64) ->
  sdtype (take_right s rows) = float64 /\ cells (take_right s rows) !! i = Some VNull.
Proof.
  intros Hi Hd. unfold take_right. cbv zeta.
  assert (Hall : forallb (fun r : option nat => match r with Some _ => true | None => false end)
                   rows = false).
  { apply not_true_is_false. intros Hall. rewrite forallb_forall in Hall.
    assert (Hin : In None rows)
      by (apply list_elem_of_In; eapply list_elem_of_lookup_2; exact Hi).
    specialize (Hall None Hin). discriminate Hall. }
  assert (Hcell : take_cells (cells s) rows !! i = Some VNull).
  { unfold take_cells. rewrite list_lookup_fmap, Hi. reflexivity. }
  rewrite Hall. destruct Hd as [-> | ->]; cbn [sdtype cells].
  - split; [reflexivity|]. rewrite list_lookup_fmap, Hcell. reflexivity.
  - split; [reflexivity | exact Hcell].
Qed.

Section NoUsage.
Context `{Pandas}.

(** The aggregate columns of [usage_agg]: every one is there, and those
    of a mean, a sum or a deviation are integer or float columns. *)
Lemma usage_agg_column (keys : Series) (ks : list value) (col : string -> Series)
    (p : string * aggfn) :
  In p agg_pairs ->
  let U := mkDF (length ks)
             (("customer_id", mkSeries (sdtype keys) ks)
              :: map (fun p => (flatten_name p,
                                round_series (agg_series (cells keys) ks (col p.1) p.2)))
                     agg_pairs) in
  let rcols := List.filter (fun c => negb (String.eqb c.1 "customer_id")) (columns U) in
  assoc (flatten_name p) rcols
  = Some (round_series (agg_series (cells keys) ks (col p.1) p.2))
  /\ (forall n, (n ++ "_y")%string <> flatten_name p)
  /\ (p.2 <> Max -> forall n, (n ++ "_x")%string <> flatten_name p)
  /\ flatten_name p <> "avg_session_per_login"
  /\ flatten_name p <> "support_ticket_rate"
  /\ flatten_name p <> "engagement_score"
  /\ flatten_name p <> "signup_date"
  /\ flatten_name p <> "tenure_days"
  /\ mem_string (flatten_name p) encoded_columns = false.
Proof.
  intros Hp U rcols. unfold agg_pairs, usage_agg_spec in Hp. simpl in Hp.
  repeat (destruct Hp as [<- | Hp];
          [split; [reflexivity|];
           split; [intros n; apply suffix_ne; vm_compute; discriminate|];
           split; [first [intros _ n; apply suffix_ne; vm_compute; discriminate
                         | intros Hmax; contradiction Hmax; reflexivity]|];
           repeat (split; [discriminate|]); reflexivity|]).
  destruct Hp.
Qed.

(** The aggregates of a customer without usage rows, from the table with
    its tenure column and the usage table. *)
Lemma build_features_unmatched (c2 u F : DataFrame) (ck uk : Series) (ls rs : list Z)
    (i : nat) (z : Z) (p : string * aggfn) :
  build_features c2 u = Ok F ->
  getitem c2 "customer_id" = Ok ck -> cells ck = map VInt ls ->
  getitem u "customer_id" = Ok uk -> cells uk = map VInt rs ->
  ls !! i = Some z -> ~ In z rs ->
  In p agg_pairs -> p.2 <> Max -> has_column c2 (flatten_name p) = false ->
  cell F (flatten_name p) i = Some (VFloat 0).
Proof.
  intros HF Hck Hls Huk Hrs Hz Hnot Hp Hmax Hfree.
  apply build_features_column in HF as (U & M & HU & HM & Hrows & Hcol).
  apply aggregate_usage_table in HU as (keys & Hkeys & _ & ->).
  rewrite Huk in Hkeys. injection Hkeys as <-.
  destruct (distinct_keys_ints rs) as (ks & Hks & Hnodup & Hin).
  destruct (usage_agg_column uk (distinct_keys (cells uk)) (column_of u) p Hp)
    as (Hassoc & Hy & Hx & Hd1 & Hd2 & Hd3 & _ & _ & Henc).
  specialize (Hx Hmax). cbv zeta in Hassoc.
  set (U := mkDF _ _) in *.
  assert (HUk : getitem U "customer_id" = Ok (mkSeries (sdtype uk) (distinct_keys (cells uk))))
    by reflexivity.
  destruct (merge_left_ints _ _ _ _ ck _ ls ks HM Hck HUk Hls)
    as [HMrows HMcol]; [cbn [cells]; rewrite Hrs; exact Hks | exact Hnodup |].
  set (rows := map (matched _ _) (seq 0 (length ls))) in HMcol.
  set (s := round_series _) in Hassoc.
  assert (HMt : getitem M (flatten_name p) = Ok (take_right s rows)).
  { unfold getitem. rewrite (HMcol _ Hx Hy).
    unfold overlaps. rewrite (has_column_mem_string _ _ Hfree), andb_false_r. cbn [andb].
    unfold has_column in Hfree. destruct (assoc (flatten_name p) (columns c2)); [discriminate|].
    rewrite Hassoc. reflexivity. }
  assert (Hi : (i < length ls)%nat) by (eapply lookup_lt_Some; exact Hz).
  assert (Hrow : rows !! i = Some None).
  { unfold rows. rewrite list_lookup_fmap, (lookup_seq_lt 0 _ i Hi). cbn [fmap option_fmap option_map].
    f_equal. cbn [cells]. rewrite Hls, Hrs, Hks. apply (matched_none ls ks i z Hz).
    intros Hks'. apply Hnot, Hin, Hks'. }
  assert (Hdt : sdtype s = int64 \/ sdtype s = float64).
  { unfold s. cbn [round_series agg_series sdtype]. unfold agg_dtype.
    destruct (snd p); [right; reflexivity | | right; reflexivity | contradiction Hmax; reflexivity].
    destruct (sdtype (column_of u p.1)); auto. }
  destruct (take_right_unmatched s rows i Hrow Hdt) as [Hfloat Hnull].
  rewrite (cell_getitem _ _ _ _ (Hcol _ _ HMt Hd1 Hd2 Hd3 Henc)).
  unfold fill_if_number. rewrite Hfloat. cbn [is_number].
  rewrite int_of_bool_series_number by (cbn [fillna0_series sdtype]; rewrite Hfloat; discriminate).
  unfold fillna0_series. cbn [cells]. rewrite list_lookup_fmap, Hnull, Hfloat. reflexivity.
Qed.

(** X19. A customer without usage rows is kept, with 0.0 in every
    mean, sum and standard deviation column of the aggregates, so its
    avg_session_per_login and its engagement_score are 0.0 as well. *)
Theorem transform_features_no_usage (now : Z) (customer_df usage_df : loc)
    (h h' : heap) (F c u : DataFrame) (ck uk : Series) (ls rs : list Z) (i : nat) (z : Z) :
  h !! customer_df = Some c -> h !! usage_df = Some u -> usage_df <> customer_df ->
  getitem c "customer_id" = Ok ck -> cells ck = map VInt ls ->
  getitem u "customer_id" = Ok uk -> cells uk = map VInt rs ->
  forallb (fun p => negb (has_column c (flatten_name p))) agg_pairs = true ->
  ls !! i = Some z -> ~ In z rs ->
  transform_features now customer_df usage_df h = (h', Ok F) ->
  (forall p, In p agg_pairs -> p.2 <> Max -> cell F (flatten_name p) i = Some (VFloat 0))
  /\ cell F "avg_session_per_login" i = Some (VFloat 0)
  /\ cell F "engagement_score" i = Some (VFloat 0).
Proof.
  intros Hc Hu Hne Hck Hls Huk Hrs Hfree Hz Hnot HF.
  destruct (transform_features_build _ _ _ _ _ _ _ _ Hc Hu Hne HF) as (s & d & _ & _ & Hb).
  assert (Hagg : forall p, In p agg_pairs -> p.2 <> Max ->
            cell F (flatten_name p) i = Some (VFloat 0)).
  { intros p Hp Hmax.
    eapply (build_features_unmatched _ _ _ ck uk ls rs i z p Hb);
      [ | exact Hls | exact Huk | exact Hrs | exact Hz | exact Hnot | exact Hp | exact Hmax | ].
    - rewrite !getitem_setitem_ne by discriminate. exact Hck.
    - destruct (usage_agg_column uk [] (column_of u) p Hp)
        as (_ & _ & _ & _ & _ & _ & Hsd & Htd & _).
      rewrite !has_column_setitem_ne by congruence.
      rewrite forallb_forall in Hfree. specialize (Hfree p Hp).
      destruct (has_column c (flatten_name p)); [discriminate | reflexivity]. }
  split; [exact Hagg|].
  destruct (transform_features_rows _ _ _ _ _ _ HF)
    as (S & L & T & D & Fm & HS & HL & _ & _ & HFm & Havg & _ & Heng).
  assert (HSi : cells S !! i = Some (VFloat 0)).
  { rewrite <- (cell_getitem _ _ _ _ HS).
    apply (Hagg ("session_duration_minutes", Mean)); [vm_compute; tauto | discriminate]. }
  assert (HLi : cells L !! i = Some (VFloat 0)).
  { rewrite <- (cell_getitem _ _ _ _ HL).
    apply (Hagg ("login_count", Mean)); [vm_compute; tauto | discriminate]. }
  assert (HFi : cells Fm !! i = Some (VFloat 0)).
  { rewrite <- (cell_getitem _ _ _ _ HFm).
    apply (Hagg ("features_used", Mean)); [vm_compute; tauto | discriminate]. }
  split.
  - rewrite (Havg i _ _ HSi HLi). vm_compute. reflexivity.
  - rewrite (Heng i _ _ _ HLi HSi HFi). vm_compute. reflexivity.
Qed.

End NoUsage.

(** The theorem [transform_features_row_per_customer] at the example
    tables in which customer 2 has two rows: four rows. *)
Lemma transform_features_row_per_customer_witness :
  exists h' F,
    transform_features (H := Reference.pandas) Examples.now 0%nat 1%nat Examples.objects2
    = (h', Ok F)
    /\ nrows F = 4%nat.
Proof.
  assert (Hrun : { hF : heap * DataFrame |
             transform_features (H := Reference.pandas) Examples.now 0%nat 1%nat
               Examples.objects2 = (hF.1, Ok hF.2) }).
  { eexists (_, _). vm_compute. reflexivity. }
  destruct Hrun as [[h' F] Hrun]. exists h', F. split; [exact Hrun|].
  apply (transform_features_row_per_customer (H := Reference.pandas) Examples.now 0%nat 1%nat
           Examples.objects2 h' F Examples.customer_df Examples.usage_df
           (column_of Examples.customer_df "customer_id")
           (column_of Examples.usage_df "customer_id") [1; 2; 2; 3] [1; 1; 2]);
    [vm_compute; reflexivity | vm_compute; reflexivity | discriminate
     | vm_compute; reflexivity | vm_compute; reflexivity
     | vm_compute; reflexivity | vm_compute; reflexivity | exact Hrun].
Defined.

(** The theorem [run_etl_pipeline_snapshots] at the example store:
    customer 2, with two churn events, has two snapshots. *)
Lemma run_etl_pipeline_snapshots_witness :
  exists db' F,
    run_etl_pipeline (H := Reference.pandas) Examples.now Examples.today Examples.store
    = Ok (db', F)
    /\ map fs_customer_id (snapshots_on Examples.today (feature_store db'))
       = [VInt 1; VInt 2; VInt 2; VInt 3].
Proof.
  assert (Hrun : { r : Store * DataFrame |
             run_etl_pipeline (H := Reference.pandas) Examples.now Examples.today
               Examples.store = Ok r }).
  { eexists. vm_compute. reflexivity. }
  destruct Hrun as [[db' F] Hrun]. exists db', F. split; [exact Hrun|].
  exact (proj1 (proj2 (proj2 (run_etl_pipeline_snapshots (H := Reference.pandas)
                                _ _ _ _ _ Hrun)))).
Defined.

(** The theorem [transform_features_tenure] at the example tables:
    customer 3, in row 2, has no signup date. *)
Lemma transform_features_tenure_witness :
  exists h' F,
    transform_features (H := Reference.pandas) Examples.now 0%nat 1%nat Examples.objects
    = (h', Ok F)
    /\ cell F "tenure_days" 2 = Some (VFloat 0).
Proof.
  assert (Hrun : { hF : heap * DataFrame |
             transform_features (H := Reference.pandas) Examples.now 0%nat 1%nat
               Examples.objects = (hF.1, Ok hF.2) }).
  { eexists (_, _). vm_compute. reflexivity. }
  destruct Hrun as [[h' F] Hrun]. exists h', F. split; [exact Hrun|].
  apply (transform_features_tenure (H := Reference.pandas) Examples.now 0%nat 1%nat
           Examples.objects h' F Examples.customer_df1 Examples.usage_df
           (column_of Examples.customer_df1 "customer_id")
           (column_of Examples.usage_df "customer_id")
           (column_of Examples.customer_df1 "signup_date") [1; 2; 3] [1; 1; 2] 2%nat VNull);
    [vm_compute; reflexivity | vm_compute; reflexivity | discriminate
     | vm_compute; reflexivity | vm_compute; reflexivity
     | vm_compute; reflexivity | vm_compute; reflexivity
     | vm_compute; reflexivity | simpl; lia | vm_compute; reflexivity | exact Hrun].
Defined.

(** The theorem [transform_features_no_usage] at the example tables:
    customer 3, in row 2, has no usage rows. *)
Lemma transform_features_no_usage_witness :
  exists h' F,
    transform_features (H := Reference.pandas) Examples.now 0%nat 1%nat Examples.objects
    = (h', Ok F)
    /\ cell F "login_count_sum" 2 = Some (VFloat 0)
    /\ cell F "engagement_score" 2 = Some (VFloat 0).
Proof.
  assert (Hrun : { hF : heap * DataFrame |
             transform_features (H := Reference.pandas) Examples.now 0%nat 1%nat
               Examples.objects = (hF.1, Ok hF.2) }).
  { eexists (_, _). vm_compute. reflexivity. }
  destruct Hrun as [[h' F] Hrun]. exists h', F. split; [exact Hrun|].
  destruct (transform_features_no_usage (H := Reference.pandas) Examples.now 0%nat 1%nat
              Examples.objects h' F Examples.customer_df1 Examples.usage_df
              (column_of Examples.customer_df1 "customer_id")
              (column_of Examples.usage_df "customer_id") [1; 2; 3] [1; 1; 2] 2%nat 3)
    as (Hagg & _ & Heng);
    [vm_compute; reflexivity | vm_compute; reflexivity | discriminate
     | vm_compute; reflexivity | vm_compute; reflexivity
     | vm_compute; reflexivity | vm_compute; reflexivity
     | vm_compute; reflexivity | reflexivity
     | simpl; intuition discriminate | exact Hrun |].
  split; [|exact Heng].
  apply (Hagg ("login_count", Sum)); [vm_compute; tauto | discriminate].
Defined.

(** ** The indicator columns *)

Lemma filter_notna_strings ss : List.filter (fun v => negb (isna v)) (map VStr ss) = map VStr ss.
Proof. induction ss; simpl; congruence. Qed.

Lemma filter_map_strings (f : value -> bool) ks :
  List.filter f (map VStr ks) = map VStr (List.filter (fun k => f (VStr k)) ks).
Proof.
  induction ks as [|k ks IH]; simpl; [reflexivity|].
  destruct (f (VStr k)); simpl; rewrite IH; reflexivity.
Qed.

Lemma dedup_keys_strings ss :
  exists ks, dedup_keys (map VStr ss) = map VStr ks /\ List.NoDup ks
             /\ forall g, In g ks <-> In g ss.
Proof.
  induction ss as [|z zs (ks & Hks & Hnodup & Hin)]; simpl.
  - exists []. split; [reflexivity|]. split; [constructor | tauto].
  - rewrite Hks, filter_map_strings.
    exists (z :: List.filter (fun k => negb (key_eqb (VStr z) (VStr k))) ks).
    split; [reflexivity|]. split.
    + constructor.
      * intros Hz. apply filter_In in Hz as [_ Hz].
        simpl in Hz. rewrite String.eqb_refl in Hz. discriminate.
      * apply List.NoDup_filter. exact Hnodup.
    + intros x. simpl. rewrite filter_In, Hin. simpl.
      destruct (String.eqb_spec z x) as [-> | Hne]; [tauto|].
      split; [tauto|]. intros [? | ?]; [tauto|]. right. split; [assumption | reflexivity].
Qed.

Lemma insert_key_strings z ks :
  exists ks', insert_key (VStr z) (map VStr ks) = map VStr ks' /\ Permutation ks' (z :: ks).
Proof.
  induction ks as [|k ks (ks' & Hks & Hperm)]; simpl.
  - exists [z]. split; reflexivity.
  - destruct (String.leb z k).
    + exists (z :: k :: ks). split; reflexivity.
    + rewrite Hks. exists (k :: ks'). split; [reflexivity|].
      rewrite Hperm. apply perm_swap.
Qed.

Lemma sort_keys_strings ks :
  exists ks', sort_keys (map VStr ks) = map VStr ks' /\ Permutation ks' ks.
Proof.
  unfold sort_keys. induction ks as [|k ks (ks' & Hks & Hperm)]; simpl.
  - exists []. split; reflexivity.
  - rewrite Hks. destruct (insert_key_strings k ks') as (ks'' & -> & Hperm').
    exists ks''. split; [reflexivity|]. rewrite Hperm', Hperm. reflexivity.
Qed.

Lemma distinct_keys_strings ss :
  exists ks, distinct_keys (map VStr ss) = map VStr ks /\ List.NoDup ks
             /\ forall g, In g ks <-> In g ss.
Proof.
  unfold distinct_keys. rewrite filter_notna_strings.
  destruct (dedup_keys_strings ss) as (ks & -> & Hnodup & Hin).
  destruct (sort_keys_strings ks) as (ks' & -> & Hperm).
  exists ks'. split; [reflexivity|]. split.
  - eapply Permutation_NoDup; [symmetry; exact Hperm | exact Hnodup].
  - intros z. rewrite <- Hin. split; apply Permutation_in; [exact Hperm | symmetry; exact Hperm].
Qed.

Lemma append_inv_head (a b c : string) : (a ++ b)%string = (a ++ c)%string -> b = c.
Proof. induction a as [|x a IH]; simpl; [tauto|]. intros [= E]. apply IH, E. Qed.

Section Indicators.
Context `{Pandas}.

Lemma dummies_of_hit col s ss g :
  cells s = map VStr ss -> In g ss ->
  assoc (col ++ "_" ++ g)%string (dummies_of col s)
  = Some (mkSeries bool_ (map (fun v => VBool (key_eqb v (VStr g))) (cells s))).
Proof.
  intros Hs Hg. unfold dummies_of. rewrite Hs.
  destruct (distinct_keys_strings ss) as (ks & -> & _ & Hin).
  apply Hin in Hg. clear Hin. induction ks as [|k ks IH]; [destruct Hg|].
  cbn [map assoc value_str].
  destruct (String.eqb_spec (col ++ "_" ++ k) (col ++ "_" ++ g)) as [E | Hne].
  - do 2 apply append_inv_head in E. subst k. reflexivity.
  - destruct Hg as [-> | Hg]; [contradiction | apply IH, Hg].
Qed.

Lemma dummies_of_miss c s t :
  (forall x, (c ++ "_" ++ x)%string <> t) -> assoc t (dummies_of c s) = None.
Proof.
  intros Hne. unfold dummies_of. induction (distinct_keys (cells s)) as [|k ks IH];
    [reflexivity|].
  cbn [map assoc].
  destruct (String.eqb_spec (c ++ "_" ++ value_str k) t) as [E | _];
    [exfalso; eapply Hne; exact E | exact IH].
Qed.

Lemma get_dummies_blocks df cs enc t col s ss g :
  traverse (fun c => s ← getitem df c; Ok (dummies_of c s)) cs = Ok enc ->
  In col cs -> getitem df col = Ok s -> cells s = map VStr ss -> In g ss ->
  t = (col ++ "_" ++ g)%string ->
  (forall c' x, In c' cs -> c' <> col -> (c' ++ "_" ++ x)%string <> t) ->
  assoc t (concat enc)
  = Some (mkSeries bool_ (map (fun v => VBool (key_eqb v (VStr g))) (cells s))).
Proof.
  intros Htr Hcol Hs Hss Hg -> Hother. revert enc Htr.
  induction cs as [|c cs IH]; intros enc; [destruct Hcol|].
  simpl. destruct (getitem df c) as [sc|] eqn:Hc; [|discriminate]. simpl.
  destruct (traverse _ cs) as [enc'|] eqn:Hcs; [|discriminate]. simpl.
  intros [= <-]. simpl. rewrite assoc_app.
  destruct (String.eqb_spec c col) as [-> | Hne].
  - rewrite Hs in Hc. injection Hc as <-.
    rewrite (dummies_of_hit _ _ _ _ Hss Hg). reflexivity.
  - rewrite dummies_of_miss by (intros x; apply Hother; [left; reflexivity | exact Hne]).
    destruct Hcol as [-> | Hcol]; [contradiction|].
    apply IH; [exact Hcol | | reflexivity].
    intros c' x Hc' Hne'. apply Hother; [right; exact Hc' | exact Hne'].
Qed.

Lemma get_dummies_none df cs enc t :
  traverse (fun c => s ← getitem df c; Ok (dummies_of c s)) cs = Ok enc ->
  (forall c' x, In c' cs -> (c' ++ "_" ++ x)%string <> t) ->
  assoc t (concat enc) = None.
Proof.
  revert enc. induction cs as [|c cs IH]; intros enc; simpl.
  - intros [= <-] _. reflexivity.
  - destruct (getitem df c) as [sc|] eqn:Hc; [|discriminate]. simpl.
    destruct (traverse _ cs) as [enc'|] eqn:Hcs; [|discriminate]. simpl.
    intros [= <-] Hother. simpl. rewrite assoc_app.
    rewrite dummies_of_miss by (intros x; apply Hother; left; reflexivity).
    apply IH; [reflexivity|]. intros c' x Hc'. apply Hother. right. exact Hc'.
Qed.

(** The indicator column of a category, and the encoded column itself,
    after [get_dummies]. *)
Lemma get_dummies_indicator df cs G col s ss g :
  get_dummies df cs = Ok G ->
  In col cs -> getitem df col = Ok s -> cells s = map VStr ss -> In g ss ->
  has_column df (col ++ "_" ++ g)%string = false ->
  (forall c' x, In c' cs -> c' <> col -> (c' ++ "_" ++ x)%string <> (col ++ "_" ++ g)%string) ->
  getitem G (col ++ "_" ++ g)%string
  = Ok (mkSeries bool_ (map (fun v => VBool (key_eqb v (VStr g))) (cells s))).
Proof.
  unfold get_dummies. intros HG Hcol Hs Hss Hg Hfree Hother.
  apply bind_Ok in HG as (enc & Htr & [= <-]). unfold getitem. cbn [columns].
  rewrite assoc_app.
  assert (Hleft : assoc (col ++ "_" ++ g)%string
                    (List.filter (fun c => negb (mem_string c.1 cs)) (columns df)) = None).
  { unfold has_column in Hfree.
    induction (columns df) as [|[k a] l IH]; [reflexivity|]. simpl in Hfree |- *.
    destruct (String.eqb_spec k (col ++ "_" ++ g)%string) as [-> | Hne]; [discriminate|].
    destruct (negb (mem_string k cs)); simpl; [|apply IH, Hfree].
    destruct (String.eqb_spec k (col ++ "_" ++ g)%string); [contradiction | apply IH, Hfree]. }
  rewrite Hleft.
  rewrite (get_dummies_blocks _ _ _ _ _ _ _ _ Htr Hcol Hs Hss Hg eq_refl Hother). reflexivity.
Qed.

Lemma get_dummies_removed df cs G col :
  get_dummies df cs = Ok G ->
  mem_string col cs = true ->
  (forall c' x, In c' cs -> (c' ++ "_" ++ x)%string <> col) ->
  has_column G col = false.
Proof.
  unfold get_dummies. intros HG Hcol Hother.
  apply bind_Ok in HG as (enc & Htr & [= <-]). unfold has_column. cbn [columns].
  rewrite assoc_app.
  assert (Hleft : assoc col (List.filter (fun c => negb (mem_string c.1 cs)) (columns df))
                  = None).
  { induction (columns df) as [|[k a] l IH]; [reflexivity|]. simpl.
    destruct (mem_string k cs) eqn:Hk; simpl; [exact IH|].
    destruct (String.eqb_spec k col) as [-> | _]; [congruence | exact IH]. }
  rewrite Hleft, (get_dummies_none _ _ _ _ Htr Hother). reflexivity.
Qed.

End Indicators.

Lemma mem_string_In s l : mem_string s l = true -> In s l.
Proof.
  unfold mem_string. intros Hs. apply existsb_exists in Hs as (x & Hx & E).
  apply String.eqb_eq in E. subst x. exact Hx.
Qed.

Lemma assoc_suffixed_none {A} (ov : string -> bool) (sfx : string) (g : A -> Series)
    (t : string) (l : list (string * A)) :
  (forall n, In n (map fst l) -> (if ov n then (n ++ sfx)%string else n) <> t) ->
  assoc t (suffixed ov sfx g l) = None.
Proof.
  unfold suffixed. induction l as [|[k a] l IH]; simpl; [reflexivity|]. intros Hne.
  destruct (String.eqb_spec (if ov k then (k ++ sfx)%string else k) t) as [E | _].
  - exfalso. apply (Hne k); [left; reflexivity | exact E].
  - apply IH. intros n Hn. apply Hne. right. exact Hn.
Qed.

Lemma has_column_names df t : has_column df t = false -> ~ In t (map fst (columns df)).
Proof.
  unfold has_column. induction (columns df) as [|[k a] l IH]; simpl; [tauto|].
  destruct (String.eqb_spec k t) as [-> | Hne]; [discriminate|].
  intros Hl [E | Hin]; [contradiction | exact (IH Hl Hin)].
Qed.

(** A name that neither table has, also with a suffix, is no column of
    the joined table. *)
Lemma merge_left_absent (left right : DataFrame) (on : string) (M : DataFrame) (t : string) :
  merge_left left right on = Ok M ->
  has_column left t = false ->
  (forall n, In n (map fst (columns right)) ->
     n <> t /\ (n ++ "_x")%string <> t /\ (n ++ "_y")%string <> t) ->
  has_column M t = false.
Proof.
  intros HM Hleft Hright. unfold merge_left in HM.
  apply bind_Ok in HM as (lk & _ & HM). apply bind_Ok in HM as (rk & _ & HM).
  injection HM as <-. unfold has_column. cbn [columns]. rewrite assoc_app.
  set (rcols := List.filter (fun c => negb (String.eqb c.1 on)) (columns right)).
  assert (Hsub : forall n, In n (map fst rcols) -> In n (map fst (columns right))).
  { intros n Hn. apply in_map_iff in Hn as (c & <- & Hc).
    apply filter_In in Hc as [Hc _]. apply in_map. exact Hc. }
  rewrite assoc_suffixed_none.
  - rewrite assoc_suffixed_none; [reflexivity|].
    intros n Hn. apply Hsub, Hright in Hn as (H1 & _ & H3).
    destruct (overlaps _ _ _ n); assumption.
  - intros n Hn. destruct (overlaps on (column_names left) rcols.*1 n) eqn:Hov.
    + unfold overlaps in Hov. apply andb_prop in Hov as [_ Hov].
      apply mem_string_In in Hov. apply Hsub, Hright in Hov as (_ & H2 & _). exact H2.
    + intros ->. apply (has_column_names _ _ Hleft). exact Hn.
Qed.

Lemma has_column_fill_numeric df t : has_column (fill_numeric df) t = has_column df t.
Proof.
  unfold has_column, fill_numeric. cbn [columns]. rewrite assoc_map_snd.
  destruct (assoc t (columns df)); reflexivity.
Qed.

Lemma has_column_bools_to_int df t : has_column (bools_to_int df) t = has_column df t.
Proof.
  unfold has_column, bools_to_int. cbn [columns]. rewrite assoc_map_snd.
  destruct (assoc t (columns df)); reflexivity.
Qed.

Lemma cells_fill_strings s ss : cells s = map VStr ss -> cells (fill_if_number s) = map VStr ss.
Proof.
  intros Hs. unfold fill_if_number. destruct (is_number (sdtype s)); [|exact Hs].
  unfold fillna0_series. cbn [cells]. rewrite Hs. clear Hs.
  induction ss as [|z zs IH]; simpl; [reflexivity | f_equal; exact IH].
Qed.

Ltac names_differ := first [discriminate | congruence].

(** The names of the encoded columns and of their indicator columns are
    not names of the customer query, of the aggregates or of the derived
    features, with or without a suffix of the join. *)
Lemma encoded_column_names (col g : string) :
  In col encoded_columns ->
  let t := (col ++ "_" ++ g)%string in
  (col <> "signup_date" /\ col <> "tenure_days" /\ col <> "avg_session_per_login"
   /\ col <> "support_ticket_rate" /\ col <> "engagement_score")
  /\ (forall n, (n ++ "_x")%string <> col) /\ (forall n, (n ++ "_y")%string <> col)
  /\ mem_string col (map flatten_name agg_pairs) = false
  /\ ("signup_date" <> t /\ "tenure_days" <> t /\ "avg_session_per_login" <> t
      /\ "support_ticket_rate" <> t /\ "engagement_score" <> t)
  /\ (forall n, In n ("customer_id" :: map flatten_name agg_pairs) ->
        n <> t /\ (n ++ "_x")%string <> t /\ (n ++ "_y")%string <> t)
  /\ (forall c' x, In c' encoded_columns -> c' <> col -> (c' ++ "_" ++ x)%string <> t)
  /\ mem_string col encoded_columns = true
  /\ (forall c' x, In c' encoded_columns -> (c' ++ "_" ++ x)%string <> col).
Proof.
  intros Hcol t. subst t. simpl in Hcol.
  destruct Hcol as [<- | [<- | [<- | [<- | []]]]].
  all: split; [repeat split; discriminate|].
  all: split; [intros n; apply suffix_ne; vm_compute; discriminate|].
  all: split; [intros n; apply suffix_ne; vm_compute; discriminate|].
  all: split; [reflexivity|].
  all: split; [repeat split; discriminate|].
  all: split;
    [intros n Hn; vm_compute in Hn;
     repeat (destruct Hn as [<- | Hn]; [repeat split; discriminate|]); destruct Hn|].
  all: split;
    [intros c' x Hc'; simpl in Hc';
     repeat (destruct Hc' as [<- | Hc']; [names_differ|]); destruct Hc'|].
  all: split; [reflexivity|].
  all: intros c' x Hc'; simpl in Hc';
    repeat (destruct Hc' as [<- | Hc']; [discriminate|]); destruct Hc'.
Qed.

Section OneHot.
Context `{Pandas}.

(** X20. The indicator columns of an encoded column whose cells are all
    strings: in the returned table the column [col_g] of a category g holds,
    in each row, 1 when the customer's category is g and 0 otherwise, as an
    integer; the encoded column itself is not in the returned table. *)
Theorem transform_features_one_hot (now : Z) (customer_df usage_df : loc)
    (h h' : heap) (F c u : DataFrame) (ck uk s : Series) (ls rs : list Z)
    (col : string) (ss : list string) (i : nat) (gi g : string) :
  h !! customer_df = Some c -> h !! usage_df = Some u -> usage_df <> customer_df ->
  getitem c "customer_id" = Ok ck -> cells ck = map VInt ls ->
  getitem u "customer_id" = Ok uk -> cells uk = map VInt rs ->
  In col encoded_columns ->
  getitem c col = Ok s -> cells s = map VStr ss -> length ss = length ls ->
  has_column c (col ++ "_" ++ g)%string = false ->
  ss !! i = Some gi -> In g ss ->
  transform_features now customer_df usage_df h = (h', Ok F) ->
  cell F (col ++ "_" ++ g)%string i = Some (VInt (if String.eqb gi g then 1 else 0))
  /\ has_column F col = false.
Proof.
  intros Hc Hu Hne Hck Hls Huk Hrs Hcol Hs Hss Hlen Hfree Hgi Hg HF.
  destruct (encoded_column_names col g Hcol)
    as ((Hc1 & Hc2 & Hc3 & Hc4 & Hc5) & Hx & Hy & Hnoagg & (Ht1 & Ht2 & Ht3 & Ht4 & Ht5)
        & Hright & Hother & Henc & Hself).
  destruct (transform_features_build _ _ _ _ _ _ _ _ Hc Hu Hne HF) as (sd & d & _ & _ & Hb).
  set (c2 := setitem (setitem c "signup_date" d) "tenure_days" (days_since now d)) in *.
  unfold build_features in Hb.
  apply bind_Ok in Hb as (U & HU & Hb). apply bind_Ok in Hb as (M & HM & Hb).
  apply bind_Ok in Hb as (D3 & HD3 & Hb). apply bind_Ok in Hb as (G & HG & [= <-]).
  apply aggregate_usage_table in HU as (keys & Hkeys & _ & ->).
  rewrite Huk in Hkeys. injection Hkeys as <-.
  destruct (distinct_keys_ints rs) as (ks & Hks & Hnodup & _).
  set (U := mkDF _ _) in *.
  assert (HUk : getitem U "customer_id" = Ok (mkSeries (sdtype uk) (distinct_keys (cells uk))))
    by reflexivity.
  assert (Hck2 : getitem c2 "customer_id" = Ok ck)
    by (unfold c2; rewrite !getitem_setitem_ne by discriminate; exact Hck).
  destruct (merge_left_ints _ _ _ _ ck _ ls ks HM Hck2 HUk Hls)
    as [HMrows HMcol]; [cbn [cells]; rewrite Hrs; exact Hks | exact Hnodup |].
  destruct (derive_features_Ok _ _ HD3) as [? ? ? ? ? ? ? ? _ _ _ _ _ HD3eq _ _ _ _ _ _].
  assert (Hs2 : getitem c2 col = Ok s)
    by (unfold c2; rewrite !getitem_setitem_ne by congruence; exact Hs).
  assert (HMs : getitem M col = Ok (mkSeries (sdtype s) (map VStr ss))).
  { unfold getitem. rewrite (HMcol col Hx Hy). unfold overlaps.
    change ((List.filter (fun c0 : string * Series => negb (String.eqb c0.1 "customer_id"))
               (columns U)).*1) with (map flatten_name agg_pairs).
    rewrite Hnoagg, andb_false_r, (getitem_assoc _ _ _ Hs2).
    rewrite <- Hlen, <- (length_map VStr ss), <- Hss, take_cells_all. reflexivity. }
  assert (HD3s : getitem D3 col = Ok (fill_if_number (mkSeries (sdtype s) (map VStr ss)))).
  { rewrite HD3eq, !getitem_setitem_ne by congruence.
    apply getitem_fill_numeric_of. exact HMs. }
  assert (HD3free : has_column D3 (col ++ "_" ++ g)%string = false).
  { rewrite HD3eq, !has_column_setitem_ne by assumption.
    rewrite has_column_fill_numeric.
    apply (merge_left_absent _ _ _ _ _ HM).
    - unfold c2. rewrite !has_column_setitem_ne by assumption. exact Hfree.
    - intros n Hn. apply Hright. exact Hn. }
  assert (Hcells : cells (fill_if_number (mkSeries (sdtype s) (map VStr ss))) = map VStr ss)
    by (apply cells_fill_strings; reflexivity).
  split.
  - rewrite (cell_getitem _ _ _ _
               (getitem_bools_to_int _ _ _
                  (get_dummies_indicator _ _ _ _ _ ss g HG Hcol HD3s Hcells Hg HD3free
                     Hother))).
    unfold int_of_bool_series. cbn [sdtype cells].
    rewrite Hcells, !list_lookup_fmap, Hgi. reflexivity.
  - rewrite has_column_bools_to_int.
    apply (get_dummies_removed _ _ _ _ HG Henc Hself).
Qed.

End OneHot.

(** ** The groups of the usage aggregates *)

Lemma insert_key_ints_sorted z ks :
  StronglySorted Z.le ks ->
  exists ks', insert_key (VInt z) (map VInt ks) = map VInt ks'
              /\ Permutation ks' (z :: ks) /\ StronglySorted Z.le ks'.
Proof.
  induction 1 as [|k ks Hs (ks' & Hks & Hperm & Hsorted) Hall]; simpl.
  - exists [z]. split; [reflexivity|]. split; [reflexivity|]. constructor; constructor.
  - destruct (Z.leb_spec z k) as [Hle | Hgt].
    + exists (z :: k :: ks). split; [reflexivity|]. split; [reflexivity|].
      constructor; [constructor; assumption|].
      constructor; [exact Hle|]. eapply List.Forall_impl; [|exact Hall]. intros a ?. lia.
    + rewrite Hks. exists (k :: ks'). split; [reflexivity|].
      split; [rewrite Hperm; apply perm_swap|].
      constructor; [exact Hsorted|].
      apply List.Forall_forall. intros x Hx.
      apply (Permutation_in _ Hperm) in Hx. destruct Hx as [<- | Hx]; [lia|].
      rewrite List.Forall_forall in Hall. apply Hall, Hx.
Qed.

Lemma sort_keys_ints_sorted ks :
  exists ks', sort_keys (map VInt ks) = map VInt ks'
              /\ Permutation ks' ks /\ StronglySorted Z.le ks'.
Proof.
  unfold sort_keys. induction ks as [|k ks (ks' & Hks & Hperm & Hsorted)]; simpl.
  - exists []. split; [reflexivity|]. split; [reflexivity | constructor].
  - rewrite Hks. destruct (insert_key_ints_sorted k ks' Hsorted) as (l & -> & Hperm' & Hl).
    exists l. split; [reflexivity|]. split; [rewrite Hperm', Hperm; reflexivity | exact Hl].
Qed.

Lemma distinct_keys_ints_sorted zs :
  exists ks, distinct_keys (map VInt zs) = map VInt ks /\ List.NoDup ks
             /\ (forall z, In z ks <-> In z zs) /\ StronglySorted Z.le ks.
Proof.
  unfold distinct_keys. rewrite filter_notna_ints.
  destruct (dedup_keys_ints zs) as (ks & -> & Hnodup & Hin).
  destruct (sort_keys_ints_sorted ks) as (ks' & -> & Hperm & Hsorted).
  exists ks'. split; [reflexivity|]. split.
  - eapply Permutation_NoDup; [symmetry; exact Hperm | exact Hnodup].
  - split; [|exact Hsorted].
    intros z. rewrite <- Hin. split; apply Permutation_in; [exact Hperm | symmetry; exact Hperm].
Qed.

Lemma sorted_nodup_lt ks :
  StronglySorted Z.le ks -> List.NoDup ks -> StronglySorted Z.lt ks.
Proof.
  induction 1 as [|k ks Hs IH Hall]; intros Hnodup; [constructor|].
  inversion Hnodup as [|? ? Hnotin Hnodup']; subst.
  constructor; [apply IH, Hnodup'|].
  apply List.Forall_forall. intros x Hx. rewrite List.Forall_forall in Hall.
  specialize (Hall x Hx). assert (x <> k) by (intros ->; contradiction). lia.
Qed.

Section Groups.
Context `{Pandas}.

(** X21. With integer customer ids in the usage table, the aggregated
    usage table has one row for each customer id that has usage rows, and
    its rows are in strictly ascending order of the id; every aggregate
    column has one cell per row. *)
Theorem aggregate_usage_groups (usage A : DataFrame) (uk : Series) (rs : list Z) :
  aggregate_usage usage = Ok A ->
  getitem usage "customer_id" = Ok uk -> cells uk = map VInt rs ->
  exists ks,
    column_cells A "customer_id" = map VInt ks
    /\ nrows A = length ks
    /\ StronglySorted Z.lt ks
    /\ (forall z, In z ks <-> In z rs)
    /\ forall p, In p agg_pairs -> length (column_cells A (flatten_name p)) = length ks.
Proof.
  intros HA Huk Hrs. apply aggregate_usage_table in HA as (keys & Hkeys & _ & ->).
  rewrite Huk in Hkeys. injection Hkeys as <-.
  destruct (distinct_keys_ints_sorted rs) as (ks & Hks & Hnodup & Hin & Hsorted).
  exists ks. rewrite Hrs, Hks.
  split; [reflexivity|]. split; [cbn [nrows]; apply length_map|].
  split; [apply sorted_nodup_lt; [exact Hsorted | exact Hnodup]|].
  split; [exact Hin|].
  intros p Hp. unfold column_cells. cbn [columns].
  destruct (usage_agg_column uk (map VInt ks) (column_of usage) p Hp) as (Hassoc & _).
  cbv zeta in Hassoc.
  assert (Hne : String.eqb "customer_id" (flatten_name p) = false).
  { unfold agg_pairs, usage_agg_spec in Hp. simpl in Hp.
    repeat (destruct Hp as [<- | Hp]; [reflexivity|]). destruct Hp. }
  cbn [assoc]. rewrite Hne.
  rewrite <- (assoc_filter_names (fun n => negb (String.eqb n "customer_id")))
    by (rewrite String.eqb_sym, Hne; reflexivity).
  cbn [columns] in Hassoc.
  match type of Hassoc with
  | assoc _ (List.filter _ (_ :: ?l)) = _ =>
      change (assoc (flatten_name p)
                (List.filter (fun c => negb (String.eqb c.1 "customer_id")) l)
              = Some (round_series (agg_series (cells uk) (map VInt ks)
                                      (column_of usage p.1) p.2))) in Hassoc
  end.
  rewrite Hrs in Hassoc. rewrite Hassoc. cbn [round_series agg_series cells].
  rewrite !length_map. reflexivity.
Qed.

End Groups.

(** The theorem [transform_features_one_hot] at the example tables:
    customer 1, in row 0, has gender F. *)
Lemma transform_features_one_hot_witness :
  exists h' F,
    transform_features (H := Reference.pandas) Examples.now 0%nat 1%nat Examples.objects
    = (h', Ok F)
    /\ cell F "gender_F" 0 = Some (VInt 1)
    /\ cell F "gender_M" 0 = Some (VInt 0)
    /\ has_column F "gender" = false.
Proof.
  assert (Hrun : { hF : heap * DataFrame |
             transform_features (H := Reference.pandas) Examples.now 0%nat 1%nat
               Examples.objects = (hF.1, Ok hF.2) }).
  { eexists (_, _). vm_compute. reflexivity. }
  destruct Hrun as [[h' F] Hrun]. exists h', F. split; [exact Hrun|].
  assert (Hone : forall g, In g ["F"; "M"; "F"] ->
            cell F ("gender" ++ "_" ++ g)%string 0
            = Some (VInt (if String.eqb "F" g then 1 else 0))
            /\ has_column F "gender" = false).
  { intros g Hg.
    apply (transform_features_one_hot (H := Reference.pandas) Examples.now 0%nat 1%nat
             Examples.objects h' F Examples.customer_df1 Examples.usage_df
             (column_of Examples.customer_df1 "customer_id")
             (column_of Examples.usage_df "customer_id")
             (column_of Examples.customer_df1 "gender") [1; 2; 3] [1; 1; 2]
             "gender" ["F"; "M"; "F"] 0%nat "F" g);
      [vm_compute; reflexivity | vm_compute; reflexivity | discriminate
       | vm_compute; reflexivity | vm_compute; reflexivity
       | vm_compute; reflexivity | vm_compute; reflexivity
       | left; reflexivity | vm_compute; reflexivity | vm_compute; reflexivity
       | reflexivity
       | simpl in Hg; destruct Hg as [<- | [<- | [<- | []]]]; vm_compute; reflexivity
       | reflexivity | exact Hg | exact Hrun]. }
  split; [apply (Hone "F"); left; reflexivity|].
  split; [apply (Hone "M"); right; left; reflexivity|].
  apply (Hone "F"). left. reflexivity.
Defined.

(** The theorem [aggregate_usage_groups] at the example usage table:
    customers 1 and 2. *)
Lemma aggregate_usage_groups_witness :
  exists ks,
    column_cells Examples.usage_agg "customer_id" = map VInt ks
    /\ nrows Examples.usage_agg = length ks.
Proof.
  destruct (aggregate_usage_groups (H := Reference.pandas) Examples.usage_df
              Examples.usage_agg (column_of Examples.usage_df "customer_id") [1; 1; 2])
    as (ks & Hcells & Hrows & _);
    [vm_compute; reflexivity | vm_compute; reflexivity | vm_compute; reflexivity |].
  exists ks. split; [exact Hcells | exact Hrows].
Defined.

(** ** The training endpoint *)

Section TrainingFurther.
Context `{Pandas} `{RegressionLibrary}.

(** A column of the customer table that is neither an aggregate, nor
    derived, nor encoded is a column of the returned table. *)
Lemma build_features_keeps (c2 u F : DataFrame) (ck uk s : Series) (ls rs : list Z)
    (t : string) :
  build_features c2 u = Ok F ->
  getitem c2 "customer_id" = Ok ck -> cells ck = map VInt ls ->
  getitem u "customer_id" = Ok uk -> cells uk = map VInt rs ->
  getitem c2 t = Ok s ->
  (forall n, (n ++ "_x")%string <> t) -> (forall n, (n ++ "_y")%string <> t) ->
  mem_string t (map flatten_name agg_pairs) = false ->
  t <> "avg_session_per_login" -> t <> "support_ticket_rate" -> t <> "engagement_score" ->
  mem_string t encoded_columns = false ->
  has_column F t = true.
Proof.
  intros HF Hck Hls Huk Hrs Hs Hx Hy Hagg Hd1 Hd2 Hd3 Henc.
  apply build_features_column in HF as (U & M & HU & HM & _ & Hcol).
  apply aggregate_usage_table in HU as (keys & Hkeys & _ & ->).
  rewrite Huk in Hkeys. injection Hkeys as <-.
  destruct (distinct_keys_ints rs) as (ks & Hks & Hnodup & _).
  set (U := mkDF _ _) in *.
  assert (HUk : getitem U "customer_id" = Ok (mkSeries (sdtype uk) (distinct_keys (cells uk))))
    by reflexivity.
  destruct (merge_left_ints _ _ _ _ ck _ ls ks HM Hck HUk Hls)
    as [_ HMcol]; [cbn [cells]; rewrite Hrs; exact Hks | exact Hnodup |].
  apply has_column_getitem. eexists. apply (Hcol t); [|assumption ..].
  unfold getitem. rewrite (HMcol t Hx Hy). unfold overlaps.
  change ((List.filter (fun c0 : string * Series => negb (String.eqb c0.1 "customer_id"))
             (columns U)).*1) with (map flatten_name agg_pairs).
  rewrite Hagg, andb_false_r, (getitem_assoc _ _ _ Hs). reflexivity.
Qed.

Lemma run_etl_pipeline_total_charges (now date : Z) (db db' : Store) (F : DataFrame) :
  run_etl_pipeline now date db = Ok (db', F) -> has_column F "total_charges" = true.
Proof.
  intros Hrun. unfold run_etl_pipeline in Hrun.
  change (extract_customer_data None None db)
    with (Ok (A := DataFrame)
            (frame_of_records customer_fields (left_join (customers db) (churn_events db))))
    in Hrun.
  cbn [mbind result_bind] in Hrun.
  set (js := left_join (customers db) (churn_events db)) in *.
  set (cdf := frame_of_records customer_fields js) in *.
  set (udf := extract_usage_data None db) in *.
  set (h := <[1%nat := udf]> (<[0%nat := cdf]> ∅) : heap) in *.
  destruct (transform_features now 0%nat 1%nat h) as [h' [F0|e]] eqn:HT; [|discriminate].
  cbn [snd mbind result_bind] in Hrun.
  apply bind_Ok in Hrun as (db1 & _ & [= _ <-]).
  assert (Hc : h !! 0%nat = Some cdf)
    by (unfold h; rewrite lookup_insert_ne by discriminate; apply lookup_insert_eq).
  assert (Hu : h !! 1%nat = Some udf) by (unfold h; apply lookup_insert_eq).
  destruct (transform_features_build _ _ _ _ _ _ _ _ Hc Hu ltac:(discriminate) HT)
    as (s & d & _ & _ & Hb).
  destruct (extract_usage_data_rows None db) as (rows & _ & Hudf).
  eapply (build_features_keeps _ _ _
            (infer_series (map (fun j : joined => VInt (c_customer_id j.1)) js))
            (infer_series (map (fun u => VInt (u_customer_id u)) (order_usage rows)))
            (infer_series (map (fun j : joined => c_total_charges j.1) js))
            (map (fun j : joined => c_customer_id j.1) js)
            (map u_customer_id (order_usage rows)) "total_charges" Hb).
  - rewrite !getitem_setitem_ne by discriminate.
    apply (getitem_frame_of_records customer_fields). reflexivity.
  - rewrite List.map_map. apply (infer_series_ints_map (fun j : joined => c_customer_id j.1)).
  - unfold udf. rewrite Hudf. apply (getitem_frame_of_records usage_fields). reflexivity.
  - rewrite List.map_map. apply (infer_series_ints_map u_customer_id).
  - rewrite !getitem_setitem_ne by discriminate.
    apply (getitem_frame_of_records customer_fields). reflexivity.
  - intros n. apply suffix_ne. vm_compute. discriminate.
  - intros n. apply suffix_ne. vm_compute. discriminate.
  - reflexivity.
  - discriminate.
  - discriminate.
  - discriminate.
  - reflexivity.
Qed.

Lemma lifetime_train_marks_trained df (self self' : Lifetime.LifetimeValuePredictor) res :
  Lifetime.train df self = (self', Ok res) -> Lifetime.is_trained self' = true.
Proof.
  unfold Lifetime.train. unfold Lifetime.bind at 1.
  destruct (lifetime_prepare_features_run df self) as (X & -> & _).
  cbn [fst snd].
  unfold Lifetime.bind, Lifetime.lift, Lifetime.get, Lifetime.ret, Lifetime.raise,
    Lifetime.update.
  intros Htrain.
  repeat match type of Htrain with
         | context [match ?x with _ => _ end] => destruct x eqn:?; try discriminate
         end.
  all: injection Htrain as <- _; reflexivity.
Qed.

Lemma train_churn_keeps features_df a a' r :
  train_churn features_df a = (a', r) ->
  app_db a' = app_db a /\ clv_model a' = clv_model a.
Proof.
  unfold train_churn. destruct (churn_model a) as [m|]; [|intros [= <- _]; auto].
  destruct (train features_df 0.2 m) as [m' [res|e]]; [|intros [= <- _]; auto].
  destruct (save_model m' _ (app_disk a)); intros [= <- _]; auto.
Qed.

(** X22. While the application has a lifetime value model,
    [POST /api/train] never answers success. Either the pipeline or a
    training raises, or both trainings return and the call of [save_model]
    on the lifetime value model, a method it does not have, raises an
    AttributeError; in that last case the pipeline has already written the
    snapshots and the churn model, when there is one, is trained and saved
    under [models/churn_model.joblib]. *)
Theorem train_models_never_succeeds (now current_date : Z) (a a' : App)
    (m : Lifetime.LifetimeValuePredictor) (r : train_response) :
  clv_model a = Some m ->
  train_models now current_date a = (a', r) ->
  (exists e, r = TrainError e)
  /\ (forall msg, r = TrainError (AttributeError msg) ->
        (exists F, run_etl_pipeline now current_date (app_db a) = Ok (app_db a', F))
        /\ (exists m', clv_model a' = Some m' /\ Lifetime.is_trained m' = true)
        /\ forall c, churn_model a = Some c ->
             exists c', churn_model a' = Some c' /\ is_trained c' = true
               /\ app_disk a' !! "models/churn_model.joblib"
                  = Some (mkModelData (model c') (scaler_ c') (feature_columns c')
                            (model_type c'))).
Proof.
  intros Hclv. unfold train_models.
  destruct (run_etl_pipeline now current_date (app_db a)) as [[db F]|e] eqn:Hrun.
  2:{ intros [= <- <-]. split; [eauto | discriminate]. }
  pose proof (run_etl_pipeline_total_charges _ _ _ _ _ Hrun) as Htotal.
  set (a1 := mkApp db (churn_model a) (clv_model a) (app_disk a)).
  destruct (train_churn F a1) as [a2 [cr|e]] eqn:Hchurn.
  2:{ intros [= <- <-]. split; [eauto | discriminate]. }
  destruct (train_churn_keeps _ _ _ _ Hchurn) as [Hdb2 Hclv2].
  rewrite Hclv2. cbn [a1 clv_model]. rewrite Hclv, Htotal.
  destruct (Lifetime.train F m) as [m' [res|e]] eqn:Hlt.
  2:{ intros [= <- <-]. split; [eauto | discriminate]. }
  intros [= <- <-]. split; [eauto|]. intros msg _. cbn [app_db clv_model churn_model app_disk].
  split; [exists F; rewrite Hdb2; reflexivity|].
  split.
  - exists m'. split; [reflexivity|]. eapply lifetime_train_marks_trained. exact Hlt.
  - intros c Hc. unfold train_churn in Hchurn. cbn [a1 churn_model app_disk app_db] in Hchurn.
    rewrite Hc in Hchurn.
    destruct (train F 0.2 c) as [c' [res'|e]] eqn:Hct; [|discriminate].
    pose proof (train_marks_trained _ _ _ _ _ Hct) as Htr.
    unfold save_model in Hchurn. rewrite Htr in Hchurn. cbn [negb] in Hchurn.
    injection Hchurn as <- _. cbn [churn_model app_disk].
    exists c'. split; [reflexivity|]. split; [exact Htr | apply lookup_insert_eq].
Qed.

End TrainingFurther.

(** The theorem [train_models_never_succeeds] at the example store, with
    a new churn model and a new lifetime value model. *)
Lemma train_models_never_succeeds_witness :
  exists e,
    (train_models (H := Reference.pandas) (H1 := ReferenceRegression.regression)
       Examples.now Examples.today
       (mkApp (H0 := Reference.ml) (H1 := ReferenceRegression.regression)
          Examples.store (Some (Examples.fresh "random_forest"))
          (Some (Lifetime.init (H0 := ReferenceRegression.regression))) ∅)).2
    = TrainError e.
Proof.
  set (a := mkApp (H0 := Reference.ml) (H1 := ReferenceRegression.regression)
              Examples.store (Some (Examples.fresh "random_forest"))
              (Some (Lifetime.init (H0 := ReferenceRegression.regression))) ∅).
  destruct (train_models_never_succeeds (H := Reference.pandas)
              (H1 := ReferenceRegression.regression) Examples.now Examples.today a
              (train_models (H := Reference.pandas) (H1 := ReferenceRegression.regression)
                 Examples.now Examples.today a).1
              (Lifetime.init (H0 := ReferenceRegression.regression))
              (train_models (H := Reference.pandas) (H1 := ReferenceRegression.regression)
                 Examples.now Examples.today a).2)
    as [[e He] _].
  - reflexivity.
  - apply surjective_pairing.
  - exists e. exact He.
Defined.
